(** * obsidian-githeat: a shallow embedding of [src/main.ts]

    The plugin shells out to [git log], aggregates the commit dates, lays
    the days of a trailing window out on a weekday/week grid, colours each
    day by its commit count and lets the user move a selection over the grid.

    Conventions of the embedding
    - a JavaScript string is the list of its UTF-16 code units ([list N]);
    - a JavaScript number that the code only ever uses as an integer is a
      [Z]; [NaN] is [None] in [option Z] (doubles are exact up to 2^53, the
      rounding of larger values is not modelled);
    - a sparse JavaScript array ([gridRects], [gridMeta]) and a [Map] are
      finite maps ([gmap]) keyed by the index, respectively by the key;
    - a [Date] is its time value in milliseconds since the epoch; the
      places where the code throws on an invalid Date test [validTime];
    - the local time zone is a fixed offset [tz] in the layout, selection
      and month label sections; [JsZone] and [Zoned] give the dates and the
      render in a zone whose offset changes, of which the former are the
      case of a zone that stays at [tz] over the window ([steady]);
    - a promise is the value it settles to. *)

From Stdlib Require Import ZArith List Lia Permutation.
From stdpp Require Import base decidable option numbers list strings gmap sorting.

Local Open Scope Z_scope.

(** ** JavaScript strings *)

Module JsString.

Abbreviation jsstring := (list N).

(** An ASCII literal as a sequence of code units. *)
Definition lit (s : string) : jsstring :=
  map Ascii.N_of_ascii (String.list_ascii_of_string s).
Arguments lit s%_string.

(** [!s] is true exactly for the empty string. *)
Definition truthy (s : jsstring) : bool :=
  match s with [] => false | _ :: _ => true end.

(** [a || b] on strings. *)
Definition str_or (a b : jsstring) : jsstring := if truthy a then a else b.

(** WhiteSpace and LineTerminator code points of ECMAScript, the
    characters removed by [String.prototype.trim] and skipped by
    [parseInt]. *)
Definition isWhiteSpace (c : N) : bool :=
  ((9 <=? c) && (c <=? 13) || (c =? 32) || (c =? 160) || (c =? 5760)
   || (8192 <=? c) && (c <=? 8202) || (c =? 8232) || (c =? 8233)
   || (c =? 8239) || (c =? 8287) || (c =? 12288) || (c =? 65279))%N.

Fixpoint trimStart (s : jsstring) : jsstring :=
  match s with
  | [] => []
  | c :: s' => if isWhiteSpace c then trimStart s' else s
  end.

Definition trimEnd (s : jsstring) : jsstring := rev (trimStart (rev s)).

Definition trim (s : jsstring) : jsstring := trimEnd (trimStart s).

(** [isPrefix p s]: does [s] start with [p]? *)
Fixpoint isPrefix (p s : jsstring) : bool :=
  match p, s with
  | [], _ => true
  | _ :: _, [] => false
  | a :: p', b :: s' => (a =? b)%N && isPrefix p' s'
  end.

(** [s.split(sep)] for a non-empty separator: the fields between the
    successive, non-overlapping occurrences of [sep], scanning from the
    left.  [skip] counts the code units of a matched separator still to
    be passed over and [cur] holds the current field, reversed. *)
Fixpoint split_from (sep : jsstring) (skip : nat) (cur s : jsstring)
  : list jsstring :=
  match s with
  | [] => [rev cur]
  | c :: s' =>
      match skip with
      | S k => split_from sep k cur s'
      | O =>
          if isPrefix sep s
          then rev cur :: split_from sep (length sep - 1) [] s'
          else split_from sep O (c :: cur) s'
      end
  end.

Definition split (sep s : jsstring) : list jsstring := split_from sep O [] s.

(** [s.substring(0, n)] *)
Definition substring0 (n : nat) (s : jsstring) : jsstring := take n s.

Definition newline : jsstring := [10%N].

(** *** [parseInt] with no radix argument *)

Definition digitValue (radix : Z) (c : N) : option Z :=
  let u := Z.of_N c in
  let v :=
    if (48 <=? u) && (u <=? 57) then Some (u - 48)
    else if (97 <=? u) && (u <=? 122) then Some (u - 97 + 10)
    else if (65 <=? u) && (u <=? 90) then Some (u - 65 + 10)
    else None in
  match v with
  | Some d => if d <? radix then Some d else None
  | None => None
  end.

(** The value of the longest prefix of radix-[radix] digits; [None] when
    that prefix is empty. *)
Fixpoint parseDigits (radix : Z) (s : jsstring) (acc : option Z) : option Z :=
  match s with
  | [] => acc
  | c :: s' =>
      match digitValue radix c with
      | Some d => parseDigits radix s' (Some (default 0 acc * radix + d))
      | None => acc
      end
  end.

(** [parseInt(s)]: leading white space is skipped, then an optional sign,
    then an optional [0x]/[0X] prefix selecting radix 16, then the digits;
    [None] is [NaN].  The result is the integer that the digits denote; it
    is the Number that the code gets as long as its size is below [2^53]
    (see [safeInteger]), beyond which a Number is a rounded value. *)
Definition parseInt (s : jsstring) : option Z :=
  let s1 := trimStart s in
  let '(sign, s2) :=
    match s1 with
    | 45%N :: r => (-1, r)
    | 43%N :: r => (1, r)
    | _ => (1, s1)
    end in
  let '(radix, s3) :=
    match s2 with
    | 48%N :: x :: r =>
        if ((x =? 120) || (x =? 88))%N then (16, r) else (10, s2)
    | _ => (10, s2)
    end in
  match parseDigits radix s3 None with
  | Some n => Some (sign * n)
  | None => None
  end.

(** [x || d] on numbers: [NaN] and [0] are falsy. *)
Definition num_or (x : option Z) (d : Z) : Z :=
  match x with
  | Some n => if n =? 0 then d else n
  | None => d
  end.

(** Decimal digits of a non-negative integer, most significant first. *)
Fixpoint digits_fuel (fuel : nat) (n : Z) (acc : jsstring) : jsstring :=
  match fuel with
  | O => acc
  | S f =>
      let acc' := Z.to_N (48 + n mod 10) :: acc in
      if n <? 10 then acc' else digits_fuel f (n / 10) acc'
  end.

(** [String(n)] for an integer [n]: all its decimal digits, as the code
    writes a Number whose size is below [10^21]. *)
Definition numToString (n : Z) : jsstring :=
  if n <? 0
  then 45%N :: digits_fuel (S (Z.to_nat (Z.log2 (- n)))) (- n) []
  else digits_fuel (S (Z.to_nat (Z.log2 n))) n [].

(** [String(n).padStart(w, "0")] for a non-negative [n]. *)
Definition padZero (w : nat) (n : Z) : jsstring :=
  let d := numToString n in
  replicate (w - length d) 48%N ++ d.

End JsString.

Import JsString.

(** ** JavaScript dates *)

Module JsDate.

Definition msPerDay : Z := 86400000.

Record Civil := { year : Z; month : Z; day : Z }.

(** The proleptic Gregorian date of day number [d] (days since
    1970-01-01); [month] is 0-based as in [getMonth], [day] is 1-based as
    in [getDate]. *)
Definition civil (d : Z) : Civil :=
  let z := d + 719468 in
  let era := z / 146097 in
  let doe := z - era * 146097 in
  let yoe := (doe - doe / 1460 + doe / 36524 - doe / 146096) / 365 in
  let doy := doe - (365 * yoe + yoe / 4 - yoe / 100) in
  let mp := (5 * doy + 2) / 153 in
  let m := if mp <? 10 then mp + 3 else mp - 9 in
  {| year := yoe + era * 400 + (if m <=? 2 then 1 else 0);
     month := m - 1;
     day := doy - (153 * mp + 2) / 5 + 1 |}.

(** Day number of a time value in UTC, and in the zone at offset [tz]
    milliseconds from UTC. *)
Definition utcDay (t : Z) : Z := t / msPerDay.
Definition localDay (tz t : Z) : Z := (t + tz) / msPerDay.

(** [getDay()]: 0 is Sunday; 1970-01-01 was a Thursday. *)
Definition getDay (tz t : Z) : Z := (localDay tz t + 4) mod 7.
Definition getMonth (tz t : Z) : Z := month (civil (localDay tz t)).
Definition getDate (tz t : Z) : Z := day (civil (localDay tz t)).

(** [MakeDay(y, m, 1)]: the day number of the first day of the 0-based
    month [m] of the year [y]; a month outside 0..11 carries into the
    year. *)
Definition dayFromCivil (y m : Z) : Z :=
  let ym := y + m / 12 in
  let mn := m mod 12 in
  let y' := if mn <? 2 then ym - 1 else ym in
  let era := y' / 400 in
  let yoe := y' - era * 400 in
  let mp := if mn <? 2 then mn + 10 else mn - 2 in
  let doy := (153 * mp + 2) / 5 in
  let doe := yoe * 365 + yoe / 4 - yoe / 100 + doy in
  era * 146097 + doe - 719468.

(** [setDate(n)]: the local year, month and time of day are kept and the
    day of the month becomes [n], that is
    [MakeDate(MakeDay(year, month, n), TimeWithinDay(t))] on the local time,
    taken back to UTC.  A day outside the month carries over into the
    neighbouring months. *)
Definition setDate (tz t n : Z) : Z :=
  let lt := t + tz in
  let c := civil (lt / msPerDay) in
  (dayFromCivil (year c) (month c) + n - 1) * msPerDay + lt mod msPerDay - tz.

(** The year of [toISOString]: four digits, or a sign and six digits
    outside 0..9999. *)
Definition isoYear (y : Z) : jsstring :=
  if (0 <=? y) && (y <=? 9999) then padZero 4 y
  else (if y <? 0 then 45%N else 43%N) :: padZero 6 (Z.abs y).

(** [toISOString()]: the UTC fields as [YYYY-MM-DDTHH:mm:ss.sssZ]. *)
Definition toISOString (t : Z) : jsstring :=
  let c := civil (utcDay t) in
  let ms := t mod msPerDay in
  isoYear (year c) ++ lit "-" ++ padZero 2 (month c + 1) ++ lit "-"
    ++ padZero 2 (day c) ++ lit "T" ++ padZero 2 (ms / 3600000) ++ lit ":"
    ++ padZero 2 (ms / 60000 mod 60) ++ lit ":" ++ padZero 2 (ms / 1000 mod 60)
    ++ lit "." ++ padZero 3 (ms mod 1000) ++ lit "Z".

(** [d.toISOString().split('T')[0]] *)
Definition isoDate (t : Z) : jsstring :=
  default [] (head (split (lit "T") (toISOString t))).

End JsDate.

Import JsDate.

Global Arguments civil : simpl never.
Global Arguments dayFromCivil : simpl never.
Global Arguments getDay : simpl never.
Global Arguments getMonth : simpl never.
Global Arguments getDate : simpl never.
Global Arguments setDate : simpl never.
Global Arguments toISOString : simpl never.
Global Arguments isoDate : simpl never.
Global Arguments numToString : simpl never.

(** *** The range of time values *)

(** A Date holds a time value of at most 8.64e15 ms in size; [TimeClip]
    turns every other result of a date computation into [NaN], the invalid
    Date, on which [toISOString] throws a [RangeError] with the message
    below.  Time values are integers here, and the places where the code
    calls [toISOString] test [validTime]. *)
Definition maxTime : Z := 8640000000000000.

Definition validTime (t : Z) : Prop := - maxTime ≤ t ≤ maxTime.

Global Instance validTime_dec t : Decision (validTime t).
Proof. unfold validTime. apply _. Defined.

Definition invalidTimeValue : jsstring := lit "Invalid time value".

(** An integer that a Number holds exactly, with all its neighbours. *)
Definition safeInteger (n : Z) : Prop := Z.abs n < 2 ^ 53.

(** *** Dates in a time zone with changing offset *)

(** A time zone gives the offset of local time from UTC, in milliseconds:
    [utcOffset t] at the UTC time value [t] ([LocalTZA(t, true)] of
    ECMAScript) and [localOffset l] for the local time value [l]
    ([LocalTZA(l, false)]; the zone decides for a local time that a change of
    offset skips or repeats).  [fixed tz] is the zone that stays at [tz]; the
    functions of [JsDate] are the ones below in such a zone. *)
Module JsZone.

Record Zone := { utcOffset : Z → Z; localOffset : Z → Z }.

Definition fixed (tz : Z) : Zone := {| utcOffset := λ _, tz; localOffset := λ _, tz |}.

(** [LocalTime(t)] *)
Definition localTime (z : Zone) (t : Z) : Z := t + utcOffset z t.

Definition getDay (z : Zone) (t : Z) : Z := (localTime z t / msPerDay + 4) mod 7.
Definition getMonth (z : Zone) (t : Z) : Z := month (civil (localTime z t / msPerDay)).
Definition getDate (z : Zone) (t : Z) : Z := day (civil (localTime z t / msPerDay)).

(** [setDate(n)]: [UTC(MakeDate(MakeDay(year, month, n), TimeWithinDay(lt)))]
    for the local time [lt] of the Date. *)
Definition setDate (z : Zone) (t n : Z) : Z :=
  let lt := localTime z t in
  let c := civil (lt / msPerDay) in
  let newDate := (dayFromCivil (year c) (month c) + n - 1) * msPerDay + lt mod msPerDay in
  newDate - localOffset z newDate.

End JsZone.

Global Arguments JsZone.getDay : simpl never.
Global Arguments JsZone.getMonth : simpl never.
Global Arguments JsZone.getDate : simpl never.
Global Arguments JsZone.setDate : simpl never.

(** ** The plugin's data *)

Record CommitDetail := {
  hash : jsstring;
  message : jsstring;
  author : jsstring;
  date : jsstring
}.

Record GitHeatmapSettings := { defaultDays : Z }.

Definition DEFAULT_SETTINGS : GitHeatmapSettings := {| defaultDays := 365 |}.

Record Palette := { light : list jsstring; dark : list jsstring }.

Definition PALETTE : Palette := {|
  light := [lit "#ebedf0"; lit "#9be9a8"; lit "#40c463"; lit "#30a14e"; lit "#216e39"];
  dark := [lit "#161b22"; lit "#0e4429"; lit "#006d32"; lit "#26a641"; lit "#39d353"]
|}.

(** The value a promise settles to. *)
Inductive Promise (A : Type) : Type :=
| Resolved (a : A)
| Rejected (msg : jsstring).
Arguments Resolved {A} a.
Arguments Rejected {A} msg.

(** What [child_process.exec] hands to its callback: the error, if the
    command failed, and what the command wrote to its standard output. *)
Record ExecException := { exitCode : Z; errMessage : jsstring }.
Record ExecResult := { err : option ExecException; stdout : jsstring }.

(** ** Settings tab *)

(** The [onChange] handler of the Default Days field:
    [defaultDays = parseInt(v) || 365]. *)
Definition onChange (v : jsstring) (s : GitHeatmapSettings) : GitHeatmapSettings :=
  {| defaultDays := num_or (parseInt v) 365 |}.

(** The settings after a sequence of edits of the field, oldest first. *)
Definition edits (vs : list jsstring) (s : GitHeatmapSettings) : GitHeatmapSettings :=
  foldl (λ s v, onChange v s) s vs.

(** The guard of [processHeatmap] on a per-block override:
    [if (!isNaN(parsed) && parsed > 0) displayDays = parsed]. *)
Definition overrideDays (displayDays : Z) (parsed : option Z) : Z :=
  match parsed with
  | Some n => if 0 <? n then n else displayDays
  | None => displayDays
  end.

(** ** Log reader and aggregator *)

Definition quote : jsstring := [34%N].

(** [getGitLog], lines 91-102.  The executor of the promise computes the
    date [days] days before now, in the zone [z], and writes it into the
    command line; [toISOString] throws when that date is not a valid time
    value, which rejects the promise before git is run.  Otherwise the
    callback of [exec] settles the promise. *)
Definition sinceOf (z : JsZone.Zone) (now days : Z) : Z :=
  JsZone.setDate z now (JsZone.getDate z now - days).

Definition getGitLog_cmd (sinceDate : jsstring) : jsstring :=
  lit "git log --since=" ++ quote ++ sinceDate ++ quote
    ++ lit " --date=short --format=" ++ quote ++ lit "%ad" ++ quote.

Definition getGitLog_callback (r : ExecResult) : Promise jsstring :=
  if bool_decide (is_Some (err r)) && negb (truthy (stdout r))
  then Rejected (lit "No Git Log")
  else Resolved (str_or (stdout r) (lit "")).

Definition getGitLog (exec : jsstring → jsstring → ExecResult)
    (z : JsZone.Zone) (now : Z) (cwd : jsstring) (days : Z) : Promise jsstring :=
  let date := sinceOf z now days in
  if decide (validTime date)
  then
    let sinceDate := isoDate date in
    getGitLog_callback (exec (getGitLog_cmd sinceDate) cwd)
  else Rejected invalidTimeValue.

Definition parseGitLog (log : jsstring) : gmap jsstring Z :=
  let lines := filter (λ l, truthy (trim l)) (split newline log) in
  foldl (λ (stats : gmap jsstring Z) date,
           let cleanDate := trim date in
           <[cleanDate := num_or (stats !! cleanDate) 0 + 1]> stats)
        ∅ lines.

(** A line of the log carries the date [d] when it is not blank and is
    [d] up to surrounding white space. *)
Definition carries (d line : jsstring) : Prop := trim line ≠ [] ∧ trim line = d.

Global Instance carries_dec d line : Decision (carries d line).
Proof. unfold carries. apply _. Defined.

Definition separator : jsstring := [167%N; 167%N; 167%N].

Definition getCommitsForDate_cmd (date : jsstring) : jsstring :=
  lit "git log --after=" ++ quote ++ date ++ lit " 00:00:00" ++ quote
    ++ lit " --before=" ++ quote ++ date ++ lit " 23:59:59" ++ quote
    ++ lit " --format=" ++ quote ++ lit "%H" ++ separator ++ lit "%s" ++ separator
    ++ lit "%an" ++ separator ++ lit "%aI" ++ quote ++ lit " --date=iso".

(** The body of the [forEach] over the lines of the output. *)
Definition pushCommit (commits : list CommitDetail) (line : jsstring)
  : list CommitDetail :=
  if negb (truthy (trim line)) then commits
  else
    let parts := split separator line in
    if bool_decide (4 ≤ length parts)%nat
    then commits ++ [ {| hash := default [] (parts !! 0%nat);
                         message := default [] (parts !! 1%nat);
                         author := default [] (parts !! 2%nat);
                         date := default [] (parts !! 3%nat) |} ]
    else commits.

(** The parsing of a non-empty output, lines 353-360. *)
Definition parseDetails (rawText : jsstring) : list CommitDetail :=
  foldl pushCommit [] (split newline rawText).

Definition getCommitsForDate_callback (r : ExecResult) : Promise (list CommitDetail) :=
  if bool_decide (is_Some (err r)) || negb (truthy (stdout r))
  then Resolved []
  else Resolved (parseDetails (stdout r)).

Definition getCommitsForDate (exec : jsstring → jsstring → ExecResult)
    (cwd date : jsstring) : Promise (list CommitDetail) :=
  getCommitsForDate_callback (exec (getCommitsForDate_cmd date) cwd).

(** The parsing of the detail text as the specification words it: the
    blank lines and the lines with fewer than four fields are dropped, the
    others become records, in the order of the input. *)
Definition wellFormed (line : jsstring) : Prop :=
  trim line ≠ [] ∧ (4 ≤ length (split separator line))%nat.

Global Instance wellFormed_dec line : Decision (wellFormed line).
Proof. unfold wellFormed. apply _. Defined.

Definition toDetail (line : jsstring) : CommitDetail :=
  let parts := split separator line in
  {| hash := default [] (parts !! 0%nat);
     message := default [] (parts !! 1%nat);
     author := default [] (parts !! 2%nat);
     date := default [] (parts !! 3%nat) |}.

Definition parseDetails_spec (rawText : jsstring) : list CommitDetail :=
  toDetail <$> filter wellFormed (split newline rawText).

(** ** Colour mapper *)

(** The intensity level of a day, lines 210-214. *)
Definition colorLevel (count : Z) : Z :=
  let level := 0 in
  let level := if 0 <? count then 1 else level in
  let level := if 3 <? count then 2 else level in
  let level := if 6 <? count then 3 else level in
  let level := if 10 <? count then 4 else level in
  level.

(** ** Layout engine *)

Definition blockSize : Z := 12.
Definition blockGap : Z := 2.
Definition marginX : Z := 25.
Definition marginY : Z := 20.

Definition monthNames : list jsstring :=
  [lit "Jan"; lit "Feb"; lit "Mar"; lit "Apr"; lit "May"; lit "Jun";
   lit "Jul"; lit "Aug"; lit "Sep"; lit "Oct"; lit "Nov"; lit "Dec"].

Definition weekLabels : list (Z * jsstring) :=
  [(1, lit "Mon"); (3, lit "Wed"); (5, lit "Fri")].

(** [Math.ceil(a / b)] for integers [a] and a positive [b]. *)
Definition ceilDiv (a b : Z) : Z := - ((- a) / b).

Record Meta := { dateStr : jsstring; count : Z }.

(** The children of the svg group: text labels and day rectangles.  A
    rectangle carries the identity of its DOM element, by which
    [gridRects] and [activeRect] refer to it. *)
Inductive SvgNode :=
| SvgText (textContent : jsstring) (x y : Z)
| SvgRect (id : nat) (x y : Z) (fill tooltip : jsstring).

Record Svg := { width : Z; height : Z; children : list SvgNode }.

(** What a selection asks of the document and of the detail panel. *)
Inductive Effect :=
| ScrollIntoView (rect : nat)
| UpdateInfoArea (date : jsstring) (n : Z).

(** The plugin instance: its fields, then the part of the document they
    refer to.  [keyHandler] is the closure installed by the last render; it
    is represented by the [totalWeeks] it captured.  [activeSelected] is the
    set of rectangles whose class list holds [active-selected]; [nextId] is
    the identity the next created rectangle gets. *)
Record Plugin := {
  settings : GitHeatmapSettings;
  activeRect : option nat;
  gridRects : gmap Z (gmap Z nat);
  gridMeta : gmap Z (gmap Z Meta);
  currentPos : Z * Z;
  keyHandler : option Z;
  activeSelected : gset nat;
  nextId : nat;
  effects : list Effect
}.

(** The instance as the field initialisers leave it. *)
Definition newPlugin : Plugin := {|
  settings := DEFAULT_SETTINGS;
  activeRect := None;
  gridRects := ∅;
  gridMeta := ∅;
  currentPos := (0, 0);
  keyHandler := None;
  activeSelected := ∅;
  nextId := 0;
  effects := []
|}.

(** [g?.[row]?.[col]] *)
Definition cellAt {A} (g : gmap Z (gmap Z A)) (row col : Z) : option A :=
  g !! row ≫= (λ r, r !! col).

(** [if (!g[row]) g[row] = []; g[row][col] = v] *)
Definition setCell {A} (row col : Z) (v : A) (g : gmap Z (gmap Z A))
  : gmap Z (gmap Z A) :=
  <[row := <[col := v]> (default ∅ (g !! row))]> g.

(** A grid position is populated when it holds both a rectangle and its
    metadata: the guard of [selectCell]. *)
Definition populated (p : Plugin) (row col : Z) : bool :=
  match cellAt (gridRects p) row col, cellAt (gridMeta p) row col with
  | Some _, Some _ => true
  | _, _ => false
  end.

(** The populated positions of a grid, row by row. *)
Definition gridCells {A} (g : gmap Z (gmap Z A)) : list (Z * Z) :=
  '(row, r) ← map_to_list g; (λ cv, (row, cv.1)) <$> map_to_list r.

(** The state of a render pass: the instance and the locals of
    [renderHeatmap] that the loop changes. *)
Record RenderState := {
  plugin : Plugin;
  lastMonth : Z;
  group : list SvgNode
}.

(** The body of the loop over the day offsets, lines 185-236. *)
Definition loopBody (tz : Z) (stats : gmap jsstring Z) (colors : list jsstring)
    (startDate startDayOfWeek : Z) (st : RenderState) (i : Z) : RenderState :=
  let p := plugin st in
  let currentDate := setDate tz startDate (getDate tz startDate + i) in
  let row := getDay tz currentDate in
  let col := (i + startDayOfWeek) / 7 in
  let currentMonth := getMonth tz currentDate in
  let label :=
    ((col =? 0) && (i =? 0) || (row =? 0)) && negb (currentMonth =? lastMonth st) in
  let group1 :=
    if label
    then group st ++ [SvgText (default [] (monthNames !! Z.to_nat currentMonth))
                              (col * (blockSize + blockGap)) (-6)]
    else group st in
  let dateStr := isoDate currentDate in
  let count := num_or (stats !! dateStr) 0 in
  let level := colorLevel count in
  let rect := nextId p in
  {| plugin := {|
       settings := settings p;
       activeRect := activeRect p;
       gridRects := setCell row col rect (gridRects p);
       gridMeta := setCell row col {| dateStr := dateStr; count := count |} (gridMeta p);
       currentPos := currentPos p;
       keyHandler := keyHandler p;
       activeSelected := activeSelected p;
       nextId := S rect;
       effects := effects p |};
     lastMonth := if label then currentMonth else lastMonth st;
     group := group1 ++
       [SvgRect rect (col * (blockSize + blockGap)) (row * (blockSize + blockGap))
                (default [] (colors !! Z.to_nat level))
                (dateStr ++ lit ": " ++ numToString count ++ lit " commits")] |}.

(** [for (let i = 0; i < n; i++)] *)
Definition loop (tz : Z) (stats : gmap jsstring Z) (colors : list jsstring)
    (startDate startDayOfWeek n : Z) (st : RenderState) : RenderState :=
  foldl (loopBody tz stats colors startDate startDayOfWeek) st (seqZ 0 n).

(** ** Grid and selection controller *)

(** [selectCell], lines 152-166. *)
Definition selectCell (row col : Z) (p : Plugin) : Plugin :=
  match cellAt (gridRects p) row col, cellAt (gridMeta p) row col with
  | Some rect, Some meta =>
      {| settings := settings p;
         activeRect := Some rect;
         gridRects := gridRects p;
         gridMeta := gridMeta p;
         currentPos := (row, col);
         keyHandler := keyHandler p;
         activeSelected :=
           {[rect]} ∪ match activeRect p with
                      | Some a => activeSelected p ∖ {[a]}
                      | None => activeSelected p
                      end;
         nextId := nextId p;
         effects := effects p ++
           [ScrollIntoView rect; UpdateInfoArea (dateStr meta) (count meta)] |}
  | _, _ => p
  end.

Inductive Key := ArrowUp | ArrowDown | ArrowLeft | ArrowRight | OtherKey.

(** A key press: the key, and whether the focus is in an input, a textarea
    or an editable element. *)
Record KeyboardEvent := { key : Key; inEditable : bool }.

(** Where an arrow key leads from [(row, col)], lines 288-292. *)
Definition arrowTarget (totalWeeks : Z) (k : Key) (row col : Z) : option (Z * Z) :=
  match k with
  | ArrowUp => Some (Z.max 0 (row - 1), col)
  | ArrowDown => Some (Z.min 6 (row + 1), col)
  | ArrowLeft => Some (row, Z.max 0 (col - 1))
  | ArrowRight => Some (row, Z.min (totalWeeks - 1) (col + 1))
  | OtherKey => None
  end.

(** The key handler of a render with [totalWeeks] columns, lines 279-299;
    the boolean tells whether [preventDefault] was called. *)
Definition keyHandler_call (totalWeeks : Z) (ev : KeyboardEvent) (p : Plugin)
  : Plugin * bool :=
  if inEditable ev then (p, false)
  else
    let '(row, col) := currentPos p in
    match arrowTarget totalWeeks (key ev) row col with
    | None => (p, false)
    | Some (newRow, newCol) =>
        if bool_decide (newRow ≠ row ∨ newCol ≠ col)
        then (selectCell newRow newCol p, true)
        else (p, true)
    end.

(** A [keydown] on the window reaches the installed handler. *)
Definition keydown (ev : KeyboardEvent) (p : Plugin) : Plugin :=
  match keyHandler p with
  | Some totalWeeks => (keyHandler_call totalWeeks ev p).1
  | None => p
  end.

(** A click on the rectangle of [(row, col)]. *)
Definition click (row col : Z) (p : Plugin) : Plugin := selectCell row col p.

(** What the user does to a rendered heatmap. *)
Inductive Input :=
| Click (row col : Z)
| KeyDown (ev : KeyboardEvent).

Definition step (p : Plugin) (i : Input) : Plugin :=
  match i with
  | Click row col => click row col p
  | KeyDown ev => keydown ev p
  end.

Definition run (inputs : list Input) (p : Plugin) : Plugin := foldl step p inputs.

(** The selection refers to a populated cell: [currentPos] holds a
    rectangle and its metadata, and that rectangle is the active one. *)
Definition selectionValid (p : Plugin) : Prop :=
  ∃ rect meta,
    cellAt (gridRects p) (currentPos p).1 (currentPos p).2 = Some rect
    ∧ cellAt (gridMeta p) (currentPos p).1 (currentPos p).2 = Some meta
    ∧ activeRect p = Some rect.

(** ** Rendering *)

Definition startDateOf (tz now displayDays : Z) : Z :=
  setDate tz now (getDate tz now - displayDays + 1).

Definition totalWeeksOf (displayDays startDayOfWeek : Z) : Z :=
  ceilDiv (displayDays + startDayOfWeek) 7.

(** The state in which the loop of [renderHeatmap] starts: the grid caches
    are reset, the weekday labels are in the group. *)
Definition renderInit (p : Plugin) : RenderState :=
  {| plugin := {|
       settings := settings p;
       activeRect := activeRect p;
       gridRects := ∅;
       gridMeta := ∅;
       currentPos := currentPos p;
       keyHandler := keyHandler p;
       activeSelected := activeSelected p;
       nextId := nextId p;
       effects := effects p |};
     lastMonth := -1;
     group :=
       (λ il, SvgText il.2 (-5) (il.1 * (blockSize + blockGap) + blockSize - 2))
         <$> weekLabels |}.

(** The state after the loop of a render. *)
Definition renderLoop (isDarkMode : bool) (tz now : Z) (stats : gmap jsstring Z)
    (displayDays : Z) (p : Plugin) : RenderState :=
  let colors := if isDarkMode then dark PALETTE else light PALETTE in
  let startDate := startDateOf tz now displayDays in
  loop tz stats colors startDate (getDay tz startDate) displayDays (renderInit p).

(** [renderHeatmap]: the instance after the render and the svg it drew (the
    legend, which depends on the palette only, is left out). *)
Definition renderHeatmap (isDarkMode : bool) (tz now : Z) (stats : gmap jsstring Z)
    (displayDays : Z) (p : Plugin) : Plugin * Svg :=
  let startDate := startDateOf tz now displayDays in
  let startDayOfWeek := getDay tz startDate in
  let totalWeeks := totalWeeksOf displayDays startDayOfWeek in
  let st := renderLoop isDarkMode tz now stats displayDays p in
  let p1 := plugin st in
  let p2 := {|
    settings := settings p1;
    activeRect := activeRect p1;
    gridRects := gridRects p1;
    gridMeta := gridMeta p1;
    currentPos := currentPos p1;
    keyHandler := Some totalWeeks;
    activeSelected := activeSelected p1;
    nextId := nextId p1;
    effects := effects p1 |} in
  (selectCell startDayOfWeek (totalWeeks - 1) p2,
   {| width := totalWeeks * (blockSize + blockGap) + marginX * 2;
      height := 7 * (blockSize + blockGap) + marginY + 25;
      children := group st |}).

(** The month labels among the children of the group: the texts on the
    line above the grid. *)
Definition monthLabels (nodes : list SvgNode) : list (jsstring * Z) :=
  nodes ≫= (λ n, match n with
                 | SvgText t x y => if y =? -6 then [(t, x)] else []
                 | SvgRect _ _ _ _ _ => []
                 end).

(** No two neighbours of a list of labels carry the same name. *)
Definition neighboursDiffer (labels : list (jsstring * Z)) : Prop :=
  ∀ k a b, labels !! k = Some a → labels !! S k = Some b → a.1 ≠ b.1.

(** ** Detail panel *)

Record CommitItem := { itemMsg : jsstring; itemTime : jsstring; itemHash : jsstring }.

Inductive CommitList := Items (l : list CommitItem) | ErrorLoading.

Record InfoArea := {
  infoDate : jsstring;
  infoBadge : jsstring;
  badgeZero : bool;
  commitList : option CommitList
}.

(** [updateInfoArea] once the detail fetch has settled to [fetched]. *)
Definition updateInfoArea (fetched : Promise (list CommitDetail))
    (dateStr : jsstring) (count : Z) : InfoArea :=
  {| infoDate := dateStr;
     infoBadge := numToString count ++ lit " contributions";
     badgeZero := count =? 0;
     commitList :=
       if count =? 0 then None
       else match fetched with
            | Resolved commits =>
                Some (Items ((λ c,
                  {| itemMsg := message c;
                     itemTime := str_or (from_option (substring0 5) []
                                           (split (lit "T") (date c) !! 1%nat)) [];
                     itemHash := substring0 7 (hash c) |}) <$> commits))
            | Rejected _ => Some ErrorLoading
            end |}.

(** ** Rendering in a zone with changing offset *)

(** [renderHeatmap] once more, with the dates of the code computed in a
    zone [z] whose offset may change: the definitions of the two sections
    above are these at a constant offset ([renderHeatmap_steady] below).  The
    part of the render that does not look at dates, [renderInit] and
    [selectCell], is shared. *)
Module Zoned.

Definition startDateOf (z : JsZone.Zone) (now displayDays : Z) : Z :=
  JsZone.setDate z now (JsZone.getDate z now - displayDays + 1).

(** [new Date(startDate)] with [setDate(startDate.getDate() + i)],
    lines 185-186. *)
Definition currentDateOf (z : JsZone.Zone) (startDate i : Z) : Z :=
  JsZone.setDate z startDate (JsZone.getDate z startDate + i).

(** The body of the loop over the day offsets, lines 185-236. *)
Definition loopBody (z : JsZone.Zone) (stats : gmap jsstring Z) (colors : list jsstring)
    (startDate startDayOfWeek : Z) (st : RenderState) (i : Z) : RenderState :=
  let p := plugin st in
  let currentDate := currentDateOf z startDate i in
  let row := JsZone.getDay z currentDate in
  let col := (i + startDayOfWeek) / 7 in
  let currentMonth := JsZone.getMonth z currentDate in
  let label :=
    ((col =? 0) && (i =? 0) || (row =? 0)) && negb (currentMonth =? lastMonth st) in
  let group1 :=
    if label
    then group st ++ [SvgText (default [] (monthNames !! Z.to_nat currentMonth))
                              (col * (blockSize + blockGap)) (-6)]
    else group st in
  let dateStr := isoDate currentDate in
  let count := num_or (stats !! dateStr) 0 in
  let level := colorLevel count in
  let rect := nextId p in
  {| plugin := {|
       settings := settings p;
       activeRect := activeRect p;
       gridRects := setCell row col rect (gridRects p);
       gridMeta := setCell row col {| dateStr := dateStr; count := count |} (gridMeta p);
       currentPos := currentPos p;
       keyHandler := keyHandler p;
       activeSelected := activeSelected p;
       nextId := S rect;
       effects := effects p |};
     lastMonth := if label then currentMonth else lastMonth st;
     group := group1 ++
       [SvgRect rect (col * (blockSize + blockGap)) (row * (blockSize + blockGap))
                (default [] (colors !! Z.to_nat level))
                (dateStr ++ lit ": " ++ numToString count ++ lit " commits")] |}.

(** [for (let i = 0; i < n; i++)] *)
Definition loop (z : JsZone.Zone) (stats : gmap jsstring Z) (colors : list jsstring)
    (startDate startDayOfWeek n : Z) (st : RenderState) : RenderState :=
  foldl (loopBody z stats colors startDate startDayOfWeek) st (seqZ 0 n).

(** The first day offset of the loop at which [toISOString] throws: the
    first whose date is not a valid time value, which is offset 0 when the
    start date itself is invalid ([NaN] stays [NaN]). *)
Definition throwsAt (z : JsZone.Zone) (startDate displayDays : Z) : option Z :=
  if decide (validTime startDate)
  then List.find (λ i, bool_decide (¬ validTime (currentDateOf z startDate i)))
                 (seqZ 0 displayDays)
  else head (seqZ 0 displayDays).

(** The state after the loop of a render. *)
Definition renderLoop (isDarkMode : bool) (z : JsZone.Zone) (now : Z)
    (stats : gmap jsstring Z)
    (displayDays : Z) (p : Plugin) : RenderState :=
  let colors := if isDarkMode then dark PALETTE else light PALETTE in
  let startDate := startDateOf z now displayDays in
  loop z stats colors startDate (JsZone.getDay z startDate) displayDays (renderInit p).

(** [renderHeatmap] when no date of the loop is invalid: the instance
    after the render and the svg it drew (without the legend).  With an
    invalid start date and a window that is not positive the loop is not
    entered and nothing throws; the code then writes [NaN] for the width of
    the svg, which the integer here does not show. *)
Definition renderHeatmap (isDarkMode : bool) (z : JsZone.Zone) (now : Z)
    (stats : gmap jsstring Z) (displayDays : Z) (p : Plugin) : Plugin * Svg :=
  let startDate := startDateOf z now displayDays in
  let startDayOfWeek := JsZone.getDay z startDate in
  let totalWeeks := totalWeeksOf displayDays startDayOfWeek in
  let st := renderLoop isDarkMode z now stats displayDays p in
  let p1 := plugin st in
  let p2 := {|
    settings := settings p1;
    activeRect := activeRect p1;
    gridRects := gridRects p1;
    gridMeta := gridMeta p1;
    currentPos := currentPos p1;
    keyHandler := Some totalWeeks;
    activeSelected := activeSelected p1;
    nextId := nextId p1;
    effects := effects p1 |} in
  (selectCell startDayOfWeek (totalWeeks - 1) p2,
   {| width := totalWeeks * (blockSize + blockGap) + marginX * 2;
      height := 7 * (blockSize + blockGap) + marginY + 25;
      children := group st |}).

(** The instance in which a render that throws at day offset [i] leaves
    off: the grids hold the days before [i]; the selection and the key
    handler are those of before. *)
Definition renderThrown (isDarkMode : bool) (z : JsZone.Zone) (now : Z)
    (stats : gmap jsstring Z) (displayDays i : Z) (p : Plugin) : Plugin :=
  let colors := if isDarkMode then dark PALETTE else light PALETTE in
  let startDate := startDateOf z now displayDays in
  plugin (loop z stats colors startDate (JsZone.getDay z startDate) i (renderInit p)).

End Zoned.

(** ** Block configuration and block processing *)

(** [toLowerCase] on ASCII code units: the capital letters A-Z become
    small, every other unit stays. *)
Definition asciiLower (s : jsstring) : jsstring :=
  (λ c, if (65 <=? c) && (c <=? 90) then c + 32 else c)%N <$> s.

Definition isAscii (s : jsstring) : Prop := Forall (λ c, (c < 128)%N) s.

(** What a block leaves in its scroll area: the heatmap, or the notice of
    the [catch]. *)
Inductive Rendered :=
| Heatmap (svg : Svg)
| ErrorNotice (text : jsstring).

(** The message thrown when the vault adapter has no [getBasePath], and the
    warning sign that starts every notice. *)
Definition noVaultPath : jsstring :=
  [26080; 27861; 33719; 21462; 32]%N ++ lit "Vault" ++ [32; 36335; 24452]%N.

Definition warningSign : jsstring := [9888; 65039; 32]%N.

Section block.

(** [String.prototype.toLowerCase], a parameter of the embedding: the
    Unicode case tables are not modelled. *)
Variable toLowerCase : jsstring → jsstring.

(** The body of the loop over the lines of the block, lines 68-72. *)
Definition configLine (displayDays : Z) (line : jsstring) : Z :=
  let parts := split (lit ":") line in
  if bool_decide (length parts = 2%nat)
     && bool_decide (toLowerCase (trim (default [] (parts !! 0%nat)))
                     ∈ [lit "days"; lit "day"])
  then overrideDays displayDays (parseInt (trim (default [] (parts !! 1%nat))))
  else displayDays.

(** The window of a block with text [source], lines 65-73. *)
Definition configDays (source : jsstring) (defaultDays : Z) : Z :=
  foldl configLine defaultDays (split newline source).

(** [processHeatmap], lines 53-89: [basePath] is what the adapter's
    [getBasePath] gives, [None] when the adapter has none; [now] is the clock
    when [getGitLog] reads it and [now'] the clock when [renderHeatmap] does,
    after git has answered.  Whatever is thrown ends in the notice of the
    [catch]: the missing base path, the rejection of [getGitLog], or the
    [RangeError] of a [toISOString] in the loop of the render. *)
Definition processHeatmap (exec : jsstring → jsstring → ExecResult) (z : JsZone.Zone)
    (basePath : option jsstring) (isDarkMode : bool) (now now' : Z)
    (source : jsstring) (p : Plugin) : Plugin * Rendered :=
  let displayDays := configDays source (defaultDays (settings p)) in
  match basePath with
  | None => (p, ErrorNotice (warningSign ++ noVaultPath))
  | Some cwd =>
      match getGitLog exec z now cwd displayDays with
      | Rejected msg => (p, ErrorNotice (warningSign ++ msg))
      | Resolved gitLog =>
          let stats := parseGitLog gitLog in
          match Zoned.throwsAt z (Zoned.startDateOf z now' displayDays) displayDays with
          | Some i =>
              (Zoned.renderThrown isDarkMode z now' stats displayDays i p,
               ErrorNotice (warningSign ++ invalidTimeValue))
          | None =>
              let r := Zoned.renderHeatmap isDarkMode z now' stats displayDays p in
              (r.1, Heatmap r.2)
          end
      end
  end.

End block.

(** ** Auxiliary notions of the properties *)

(** What [git log] prints for the format of [getCommitsForDate_cmd]: the
    four fields of a commit joined by the separator, one line per commit. *)
Definition formatCommit (c : CommitDetail) : jsstring :=
  hash c ++ separator ++ message c ++ separator ++ author c ++ separator ++ date c.

Definition formatLog (commits : list CommitDetail) : jsstring :=
  commits ≫= (λ c, formatCommit c ++ newline).

(** A field that holds neither the separator sign nor a line break. *)
Definition cleanField (f : jsstring) : Prop := (167%N ∉ f) ∧ (10%N ∉ f).

Definition cleanCommit (c : CommitDetail) : Prop :=
  cleanField (hash c) ∧ cleanField (message c) ∧ cleanField (author c)
  ∧ cleanField (date c).

(** What the Default Days field shows: [setValue(String(defaultDays))],
    line 374. *)
Definition displayValue (s : GitHeatmapSettings) : jsstring :=
  numToString (defaultDays s).

(** A decimal digit, and the value of a string of digits read from the
    left. *)
Definition isDigit (c : N) : Prop := (48 ≤ c ≤ 57)%N.

Definition digitStep (a : Z) (c : N) : Z := a * 10 + (Z.of_N c - 48).

(** The sum of the counts of a statistics map. *)
Definition totalCount (stats : gmap jsstring Z) : Z :=
  map_fold (λ _ n acc, n + acc) 0 stats.

(** The rectangles among the children of the group, in drawing order. *)
Definition rectsOf (nodes : list SvgNode) : list SvgNode :=
  nodes ≫= (λ n, match n with
                 | SvgRect _ _ _ _ _ => [n]
                 | SvgText _ _ _ => []
                 end).

(** The calendar date of day number [d] as [toISOString] writes it. *)
Definition isoDay (d : Z) : jsstring :=
  let c := civil d in
  isoYear (year c) ++ lit "-" ++ padZero 2 (month c + 1) ++ lit "-"
    ++ padZero 2 (day c).

(** At most the active rectangle carries the class [active-selected]. *)
Definition highlightConsistent (p : Plugin) : Prop :=
  activeSelected p = match activeRect p with
                     | Some a => {[a]}
                     | None => ∅
                     end.

(** The active rectangle and the rectangles of the grid were created
    before: their identities lie below the next one. *)
Definition idsBelow (p : Plugin) : Prop :=
  (∀ id, activeRect p = Some id → (id < nextId p)%nat)
  ∧ ∀ r c id, cellAt (gridRects p) r c = Some id → (id < nextId p)%nat.

(** An effect that concerns a cell of the grids [rects] and [meta]. *)
Definition effectOfGrid (rects : gmap Z (gmap Z nat)) (meta : gmap Z (gmap Z Meta))
    (e : Effect) : Prop :=
  match e with
  | ScrollIntoView id => ∃ r c, cellAt rects r c = Some id
  | UpdateInfoArea d n => ∃ r c, cellAt meta r c = Some {| dateStr := d; count := n |}
  end.

(** The zone [z] stays at the offset [tz] from [lo] to [hi]: at every UTC
    time value of that range, and for the local time of each. *)
Definition steady (z : JsZone.Zone) (tz lo hi : Z) : Prop :=
  (∀ t, lo ≤ t ≤ hi → JsZone.utcOffset z t = tz)
  ∧ (∀ l, lo ≤ l - tz ≤ hi → JsZone.localOffset z l = tz).

(** A zone that goes from two hours to one hour ahead of UTC when
    2026-10-25 01:00 UTC is reached, as Europe/Berlin does; the local times
    of the repeated hour are read with the offset of before the change. *)
Definition summerTimeEnds2026 : JsZone.Zone := {|
  JsZone.utcOffset := λ t, if t <? 20751 * msPerDay + 3600000 then 7200000 else 3600000;
  JsZone.localOffset := λ l, if l <? 20751 * msPerDay + 10800000 then 7200000 else 3600000
|}.

(** The life of an instance: renders of blocks and inputs of the user. *)
Inductive Action :=
| Render (isDarkMode : bool) (tz now : Z) (stats : gmap jsstring Z) (displayDays : Z)
| User (i : Input).

Definition act (p : Plugin) (a : Action) : Plugin :=
  match a with
  | Render isDarkMode tz now stats displayDays =>
      (renderHeatmap isDarkMode tz now stats displayDays p).1
  | User i => step p i
  end.

Definition play (actions : list Action) (p : Plugin) : Plugin :=
  foldl act p actions.

(** * Properties *)

(** ** Running the definitions on small inputs *)

Example split_fields :
  split (lit ",") (lit "a,b,,c,") = [lit "a"; lit "b"; lit ""; lit "c"; lit ""].
Proof. reflexivity. Qed.

Example split_overlapping : split (lit "--") (lit "a---b") = [lit "a"; lit "-b"].
Proof. reflexivity. Qed.

Example split_of_empty : split (lit ",") (lit "") = [lit ""].
Proof. reflexivity. Qed.

Example trim_both_ends : trim (lit "  a b  ") = lit "a b".
Proof. reflexivity. Qed.

Example parseInt_samples :
  parseInt <$> [lit "42"; lit " -5"; lit "0x1F"; lit "12abc"; lit "abc"; lit "";
                lit "0"; lit "+7"; lit "0x"]
  = [Some 42; Some (-5); Some 31; Some 12; None; None; Some 0; Some 7; None].
Proof. reflexivity. Qed.

Example numToString_samples :
  numToString <$> [0; 7; 10; 365; -12; 1000; 1023; 1024]
  = [lit "0"; lit "7"; lit "10"; lit "365"; lit "-12"; lit "1000"; lit "1023"; lit "1024"].
Proof. reflexivity. Qed.

Example civil_samples :
  civil 0 = {| year := 1970; month := 0; day := 1 |}
  ∧ civil (-1) = {| year := 1969; month := 11; day := 31 |}
  ∧ civil 11016 = {| year := 2000; month := 1; day := 29 |}
  ∧ civil 20759 = {| year := 2026; month := 10; day := 2 |}.
Proof. repeat split; reflexivity. Qed.

Example dayFromCivil_samples :
  dayFromCivil 1970 0 = 0 ∧ dayFromCivil 2000 2 = 11017 ∧ dayFromCivil 2026 10 = 20758
  ∧ dayFromCivil 2025 12 = dayFromCivil 2026 0 ∧ dayFromCivil 2026 (-1) = dayFromCivil 2025 11.
Proof. repeat split; reflexivity. Qed.

(** Day 0 of a month is the last day of the month before; day 32 of
    October is the first of November. *)
Example setDate_samples :
  isoDate (setDate 0 (20759 * msPerDay) 0) = lit "2026-10-31"
  ∧ isoDate (setDate 0 (20759 * msPerDay) (-4)) = lit "2026-10-27"
  ∧ isoDate (setDate 0 (20728 * msPerDay) 32) = lit "2026-11-01"
  ∧ isoDate (setDate 28800000 (20759 * msPerDay - 3600000) 2) = lit "2026-11-01".
Proof. repeat split; reflexivity. Qed.

Example toISOString_sample :
  toISOString (20759 * msPerDay + 3723004) = lit "2026-11-02T01:02:03.004Z".
Proof. reflexivity. Qed.

(** The date 400000000 days before 2026-11-02 is no valid time value; the
    date 7 days before is. *)
Example validTime_samples :
  ¬ validTime (sinceOf (JsZone.fixed 0) (20759 * msPerDay) 400000000)
  ∧ validTime (sinceOf (JsZone.fixed 0) (20759 * msPerDay) 7).
Proof.
  split.
  - intros [Hlo _]. vm_compute in Hlo. by apply Hlo.
  - vm_compute. split; discriminate.
Qed.

(** A render of ten days on 2026-11-02 at 00:30 UTC, in the zone in which
    summer time ended on 2026-10-25.  The loop walks through the local days
    at 01:30 local time, which is 23:30 UTC of the day before as long as
    summer time lasts and 00:30 UTC of the same day after it: the cells of
    Saturday 24, Sunday 25 and Monday 26 October carry the dates 23, 24 and
    26 October, and no cell carries 25 October.  In the zone that stays one
    hour ahead the same cells carry 24, 25 and 26 October. *)
Example render_over_time_change :
  let now := 20759 * msPerDay + 1800000 in
  let p := (Zoned.renderHeatmap false summerTimeEnds2026 now ∅ 10 newPlugin).1 in
  let q := (Zoned.renderHeatmap false (JsZone.fixed 3600000) now ∅ 10 newPlugin).1 in
  dateStr <$> cellAt (gridMeta p) 6 0 = Some (lit "2026-10-23")
  ∧ dateStr <$> cellAt (gridMeta p) 0 1 = Some (lit "2026-10-24")
  ∧ dateStr <$> cellAt (gridMeta p) 1 1 = Some (lit "2026-10-26")
  ∧ dateStr <$> cellAt (gridMeta p) 1 2 = Some (lit "2026-11-02")
  ∧ dateStr <$> cellAt (gridMeta q) 6 0 = Some (lit "2026-10-24")
  ∧ dateStr <$> cellAt (gridMeta q) 0 1 = Some (lit "2026-10-25")
  ∧ dateStr <$> cellAt (gridMeta q) 1 1 = Some (lit "2026-10-26")
  ∧ Zoned.throwsAt summerTimeEnds2026
      (Zoned.startDateOf summerTimeEnds2026 now 10) 10 = None.
Proof. vm_compute. repeat split; reflexivity. Qed.

(** ** Colour mapper *)

(** Case analysis on the comparisons of the goal. *)
Ltac case_ltb :=
  match goal with
  | |- context [Z.ltb ?a ?b] => destruct (Z.ltb_spec a b)
  | |- context [Z.leb ?a ?b] => destruct (Z.leb_spec a b)
  | |- context [Z.eqb ?a ?b] => destruct (Z.eqb_spec a b)
  end.

(** C3: for a non-negative count the level is 0 at 0, 1 on 1..3, 2 on 4..6,
    3 on 7..10 and 4 from 11 on; it does not decrease when the count grows,
    lies in 0..4 and indexes an entry of either palette. *)
Theorem colorLevel_thresholds (n m : Z) :
  0 ≤ n → n ≤ m →
  (n = 0 → colorLevel n = 0)
  ∧ (1 ≤ n ≤ 3 → colorLevel n = 1)
  ∧ (4 ≤ n ≤ 6 → colorLevel n = 2)
  ∧ (7 ≤ n ≤ 10 → colorLevel n = 3)
  ∧ (11 ≤ n → colorLevel n = 4)
  ∧ colorLevel n ≤ colorLevel m
  ∧ 0 ≤ colorLevel n ≤ 4
  ∧ is_Some (light PALETTE !! Z.to_nat (colorLevel n))
  ∧ is_Some (dark PALETTE !! Z.to_nat (colorLevel n)).
Proof.
  intros Hn Hnm. unfold colorLevel.
  repeat case_ltb; repeat split; intros; try lia; by eexists.
Qed.

Lemma colorLevel_thresholds_witness :
  0 ≤ 3 ∧ 3 ≤ 4 ∧ colorLevel 3 = 1 ∧ colorLevel 3 ≤ colorLevel 4.
Proof.
  split; [lia|]. split; [lia|].
  destruct (colorLevel_thresholds 3 4 ltac:(lia) ltac:(lia))
    as (_ & H1 & _ & _ & _ & Hmono & _).
  split; [apply H1; lia | exact Hmono].
Defined.

(** ** Log reader *)

Lemma truthy_false (s : jsstring) : truthy s = false ↔ s = [].
Proof. destruct s; naive_solver. Qed.

Lemma truthy_true (s : jsstring) : truthy s = true ↔ s ≠ [].
Proof. destruct s; naive_solver. Qed.

Lemma str_or_empty (s : jsstring) : str_or s (lit "") = s.
Proof. by destruct s. Qed.

Lemma bool_decide_is_Some {A} (o : option A) :
  bool_decide (is_Some o) = match o with Some _ => true | None => false end.
Proof.
  destruct o; [by apply bool_decide_eq_true_2 | apply bool_decide_eq_false_2].
  by intros [? ?].
Qed.

(** C6: git is run exactly when the date [days] days before now is a valid
    Date.  [getGitLog] rejects with the no-history error exactly when git was
    run, reported an error and wrote nothing: on a valid date that is the
    only rejection, and whenever something was written, with or without an
    error, the promise resolves to that output unchanged.  On a date that is
    not valid, [toISOString] throws in the executor, and the promise is
    rejected with the message of that [RangeError] before git is run. *)
Theorem getGitLog_rejects_iff (exec : jsstring → jsstring → ExecResult)
    (z : JsZone.Zone) (now : Z) (cwd : jsstring) (days : Z) :
  let date := sinceOf z now days in
  let r := exec (getGitLog_cmd (isoDate date)) cwd in
  (getGitLog exec z now cwd days = Rejected (lit "No Git Log")
     ↔ validTime date ∧ is_Some (err r) ∧ stdout r = [])
  ∧ (validTime date →
       ((∃ msg, getGitLog exec z now cwd days = Rejected msg)
          ↔ is_Some (err r) ∧ stdout r = [])
       ∧ (stdout r ≠ [] → getGitLog exec z now cwd days = Resolved (stdout r))
       ∧ (err r = None → getGitLog exec z now cwd days = Resolved (stdout r)))
  ∧ (¬ validTime date → getGitLog exec z now cwd days = Rejected invalidTimeValue)
  ∧ ((∃ msg, getGitLog exec z now cwd days = Rejected msg)
       ↔ ¬ validTime date ∨ (is_Some (err r) ∧ stdout r = [])).
Proof.
  intros date r. unfold getGitLog. fold date. cbv zeta. fold r.
  unfold getGitLog_callback. rewrite str_or_empty, bool_decide_is_Some.
  destruct (decide (validTime date)) as [Hv|Hv].
  - destruct (err r) as [e|] eqn:He, (stdout r) as [|c s] eqn:Hs;
      cbn [negb andb truthy]; split_and!.
    all: try (intros _; split_and!).
    all: try done.
    all: try (split; [done | by intros (_ & _ & ?)]).
    all: try (split; [done | by intros (_ & [? ?] & _)]).
    all: try (split; [intros [? ?]; done | by intros [_ ?]]).
    all: try (split; [intros [? ?]; done | by intros [[? ?] _]]).
    all: try (split; [intros [? ?]; done | intros [? | [_ ?]]; done]).
    all: try (split; [intros [? ?]; done | intros [? | [[? ?] _]]; done]).
    all: try (split; [eauto | eauto]).
  - split_and!; [split; [discriminate | by intros [? _]] | done | done |].
    split; eauto.
Qed.

Lemma getGitLog_rejects_iff_witness :
  let exec := λ _ _, {| err := Some {| exitCode := 128; errMessage := lit "fatal" |};
                        stdout := lit "2024-01-01" |} in
  getGitLog exec (JsZone.fixed 0) 0 (lit "/vault") 7 = Resolved (lit "2024-01-01").
Proof.
  intros exec.
  destruct (getGitLog_rejects_iff exec (JsZone.fixed 0) 0 (lit "/vault") 7)
    as (_ & H & _).
  destruct H as (_ & H & _).
  - vm_compute. split; discriminate.
  - apply H. discriminate.
Defined.

(** A block that asks for 400000000 days on 2026-11-02: the date that long
    ago is no valid Date, and the promise is rejected with the message of the
    [RangeError] whatever git would report, since git is not run. *)
Lemma getGitLog_rejects_before_git (exec : jsstring → jsstring → ExecResult)
    (cwd : jsstring) :
  getGitLog exec (JsZone.fixed 0) (20759 * msPerDay + 43200000) cwd 400000000
  = Rejected (lit "Invalid time value").
Proof.
  unfold getGitLog. cbv zeta. rewrite decide_False; [done|].
  intros [Hlo _]. vm_compute in Hlo. by apply Hlo.
Qed.

(** C7: the detail fetch never rejects; on an error of the tool, or on
    empty output, it resolves to the empty list, so that the detail panel
    never shows its error text for a failed fetch. *)
Theorem getCommitsForDate_never_rejects (exec : jsstring → jsstring → ExecResult)
    (cwd date : jsstring) :
  let r := exec (getCommitsForDate_cmd date) cwd in
  (∃ commits, getCommitsForDate exec cwd date = Resolved commits)
  ∧ (∀ msg, getCommitsForDate exec cwd date ≠ Rejected msg)
  ∧ (is_Some (err r) ∨ stdout r = [] → getCommitsForDate exec cwd date = Resolved [])
  ∧ (∀ dateStr count,
       commitList (updateInfoArea (getCommitsForDate exec cwd date) dateStr count)
       ≠ Some ErrorLoading).
Proof.
  intros r. unfold getCommitsForDate, getCommitsForDate_callback. fold r.
  split_and!.
  - case_match; eauto.
  - intros msg. by case_match.
  - rewrite bool_decide_is_Some. intros [[e He] | Hs].
    + by rewrite He.
    + rewrite Hs. simpl. by rewrite orb_true_r.
  - intros dateStr count. unfold updateInfoArea. simpl.
    destruct (count =? 0); [done|]. by destruct (_ || _).
Qed.

Lemma getCommitsForDate_never_rejects_witness :
  let exec := λ _ _, {| err := Some {| exitCode := 128; errMessage := lit "fatal" |};
                        stdout := lit "partial" |} in
  getCommitsForDate exec (lit "/vault") (lit "2024-01-05") = Resolved [].
Proof.
  intros exec.
  destruct (getCommitsForDate_never_rejects exec (lit "/vault") (lit "2024-01-05"))
    as (_ & _ & H & _).
  apply H. left. simpl. eauto.
Defined.

(** ** Settings tab *)

(** What the handler does guarantee: the stored value is never 0. *)
Lemma onChange_nonzero (v : jsstring) (s : GitHeatmapSettings) :
  defaultDays (onChange v s) ≠ 0.
Proof.
  unfold onChange, num_or. simpl.
  destruct (parseInt v) as [n|]; [|done].
  destruct (Z.eqb_spec n 0); done.
Qed.

(** The guard on the per-block override keeps a positive window positive. *)
Lemma overrideDays_positive (displayDays : Z) (parsed : option Z) :
  0 < displayDays → 0 < overrideDays displayDays parsed.
Proof.
  intros Hd. unfold overrideDays.
  destruct parsed as [n|]; [|done].
  destruct (Z.ltb_spec 0 n); done.
Qed.

(** C10: the text [-5] typed into the Default Days field is stored as the
    setting -5, which is not positive. *)
Theorem onChange_stores_negative :
  parseInt (lit "-5") = Some (-5)
  ∧ defaultDays (edits [lit "-5"] DEFAULT_SETTINGS) = -5
  ∧ ¬ 0 < defaultDays (edits [lit "-5"] DEFAULT_SETTINGS).
Proof. split_and!; [reflexivity | reflexivity | vm_compute; discriminate]. Qed.

(** ** Aggregator *)

Lemma num_or_0 (o : option Z) : num_or o 0 = default 0 o.
Proof. destruct o as [n|]; [|done]. simpl. by destruct (Z.eqb_spec n 0). Qed.

Section counting.

(** The step of [parseGitLog] on one line that passed the filter. *)
Let count_line (stats : gmap jsstring Z) (date : jsstring) : gmap jsstring Z :=
  <[trim date := num_or (stats !! trim date) 0 + 1]> stats.

(** The number of lines that are [d] once trimmed. *)
Let occ (d : jsstring) (lines : list jsstring) : Z :=
  Z.of_nat (length (filter (λ l, trim l = d) lines)).

Lemma occ_nonneg d lines : 0 ≤ occ d lines.
Proof. unfold occ. lia. Qed.

Lemma foldl_count_line (lines : list jsstring) (stats : gmap jsstring Z) (d : jsstring) :
  foldl count_line stats lines !! d
  = if occ d lines =? 0 then stats !! d
    else Some (default 0 (stats !! d) + occ d lines).
Proof.
  revert stats. induction lines as [|l lines IH]; intros stats; [done|].
  simpl. rewrite IH. clear IH.
  pose proof (occ_nonneg d lines) as Hnn.
  unfold occ in *. rewrite filter_cons. unfold count_line. rewrite num_or_0.
  destruct (decide (trim l = d)) as [->|Hne].
  - rewrite lookup_insert_eq. simpl length.
    destruct (Z.eqb_spec (Z.of_nat (S (length (filter (λ l0, trim l0 = d) lines)))) 0);
      [lia|].
    case_ltb; simpl; f_equal; lia.
  - by rewrite lookup_insert_ne.
Qed.

Lemma filter_carries (d : jsstring) (lines : list jsstring) :
  filter (λ l, trim l = d) (filter (λ l, truthy (trim l)) lines)
  = filter (carries d) lines.
Proof.
  induction lines as [|l lines IH]; [done|].
  rewrite !filter_cons.
  destruct (decide (carries d l)) as [[Hne Heq]|Hn].
  - rewrite decide_True by (by apply Is_true_true, truthy_true).
    rewrite filter_cons, decide_True by done. by rewrite IH.
  - destruct (decide (truthy (trim l))) as [Ht|Ht]; [|done].
    rewrite filter_cons, decide_False; [done|].
    intros Heq. apply Hn. split; [|done].
    by apply truthy_true, Is_true_true.
Qed.

Lemma parseGitLog_lookup (log d : jsstring) :
  parseGitLog log !! d
  = if Z.of_nat (length (filter (carries d) (split newline log))) =? 0 then None
    else Some (Z.of_nat (length (filter (carries d) (split newline log)))).
Proof.
  unfold parseGitLog.
  change (foldl _ ∅ ?ls) with (foldl count_line ∅ ls).
  rewrite foldl_count_line. unfold occ. rewrite filter_carries.
  rewrite lookup_empty. simpl. by rewrite Z.add_0_l.
Qed.

End counting.

(** C9: the mapping of [parseGitLog] does not depend on the order of the
    lines of the log, and the count of a date is the number of non-blank
    lines that carry it, all occurrences adding to one key. *)
Theorem parseGitLog_permutation_invariant (log log' d : jsstring) :
  (split newline log ≡ₚ split newline log' → parseGitLog log = parseGitLog log')
  ∧ default 0 (parseGitLog log !! d)
    = Z.of_nat (length (filter (carries d) (split newline log)))
  ∧ (is_Some (parseGitLog log !! d) ↔ ∃ l, l ∈ split newline log ∧ carries d l).
Proof.
  split_and!.
  - intros Hperm. apply map_eq. intros k. rewrite !parseGitLog_lookup.
    assert (Hlen : length (filter (carries k) (split newline log))
                   = length (filter (carries k) (split newline log')))
      by (by rewrite Hperm).
    by rewrite Hlen.
  - rewrite parseGitLog_lookup. simpl. case_ltb; simpl; lia.
  - rewrite parseGitLog_lookup. simpl.
    destruct (filter (carries d) (split newline log)) as [|l ls] eqn:Hf.
    + simpl. split; [by intros [? ?]|].
      intros (l & Hin & Hc).
      assert (l ∈ filter (carries d) (split newline log)) as Hl
        by (by apply list_elem_of_filter).
      rewrite Hf in Hl. by apply not_elem_of_nil in Hl.
    + split; [intros _ | intros _].
      * exists l.
        assert (l ∈ filter (carries d) (split newline log)) as Hl
          by (rewrite Hf; left).
        apply list_elem_of_filter in Hl. tauto.
      * case_ltb; [simpl in *; lia | eauto].
Qed.

Lemma parseGitLog_permutation_invariant_witness :
  parseGitLog (lit "2024-01-01" ++ newline ++ lit "2024-01-03")
  = parseGitLog (lit "2024-01-03" ++ newline ++ lit "2024-01-01").
Proof.
  apply (parseGitLog_permutation_invariant
           (lit "2024-01-01" ++ newline ++ lit "2024-01-03")
           (lit "2024-01-03" ++ newline ++ lit "2024-01-01") []).
  vm_compute. apply perm_swap.
Defined.

(** The statistics of the scenario of the specification: two commits on
    2024-01-01 and five on 2024-01-03. *)
Example parseGitLog_scenario :
  let line1 := lit "2024-01-01" ++ newline in
  let line3 := lit "2024-01-03" ++ newline in
  let stats := parseGitLog (line3 ++ line1 ++ line3 ++ line3 ++ line1 ++ line3 ++ line3) in
  stats !! lit "2024-01-01" = Some 2 ∧ stats !! lit "2024-01-03" = Some 5
  ∧ stats !! lit "2024-01-02" = None
  ∧ colorLevel 2 = 1 ∧ colorLevel 5 = 2.
Proof. vm_compute. done. Qed.

(** ** Detail parsing *)

Lemma pushCommit_spec (commits : list CommitDetail) (line : jsstring) :
  pushCommit commits line
  = commits ++ (if decide (wellFormed line) then [toDetail line] else []).
Proof.
  unfold pushCommit. fold (toDetail line).
  destruct (decide (wellFormed line)) as [[Hne Hlen]|Hn].
  - apply truthy_true in Hne. rewrite Hne. simpl.
    by rewrite bool_decide_eq_true_2.
  - rewrite app_nil_r.
    destruct (truthy (trim line)) eqn:Ht; [|done]. simpl.
    case_bool_decide; [|done].
    destruct Hn. split; [by apply truthy_true | done].
Qed.

Lemma foldl_pushCommit (lines : list jsstring) (commits : list CommitDetail) :
  foldl pushCommit commits lines = commits ++ (toDetail <$> filter wellFormed lines).
Proof.
  revert commits. induction lines as [|l lines IH]; intros commits; simpl.
  - by rewrite app_nil_r.
  - rewrite IH, pushCommit_spec, filter_cons.
    destruct (decide (wellFormed l)); simpl.
    + by rewrite <- app_assoc.
    + by rewrite app_nil_r.
Qed.

(** C8: the detail parsing keeps exactly the lines that are not blank and
    split into at least four fields, turns each into the record of its first
    four fields and keeps their order; the fetch resolves to that list; the
    sample line gives the one record of the specification. *)
Theorem parseDetails_drops_malformed (rawText : jsstring) :
  parseDetails rawText = parseDetails_spec rawText
  ∧ (∀ line, line ∈ split newline rawText →
       trim line = [] ∨ (length (split separator line) < 4)%nat →
       ∀ commits, pushCommit commits line = commits)
  ∧ (∀ exec cwd date,
       exec (getCommitsForDate_cmd date) cwd = {| err := None; stdout := rawText |} →
       getCommitsForDate exec cwd date = Resolved (parseDetails_spec rawText))
  ∧ parseDetails (lit "abc123" ++ separator ++ lit "Fix bug" ++ separator
                    ++ lit "Alice" ++ separator ++ lit "2024-01-05T10:00:00")
    = [ {| hash := lit "abc123"; message := lit "Fix bug"; author := lit "Alice";
           date := lit "2024-01-05T10:00:00" |} ].
Proof.
  assert (Hspec : ∀ raw, parseDetails raw = parseDetails_spec raw).
  { intros raw. unfold parseDetails, parseDetails_spec. by rewrite foldl_pushCommit. }
  split_and!.
  - apply Hspec.
  - intros line _ Hbad commits. rewrite pushCommit_spec.
    rewrite decide_False; [by rewrite app_nil_r|].
    unfold wellFormed. intros [? ?]. destruct Hbad; [done | lia].
  - intros exec cwd date Hexec.
    unfold getCommitsForDate, getCommitsForDate_callback.
    rewrite Hexec, bool_decide_is_Some. simpl.
    destruct rawText as [|c s]; [done|]. simpl. by rewrite Hspec.
  - reflexivity.
Qed.

Lemma parseDetails_drops_malformed_witness :
  let raw := lit "abc123" ++ separator ++ lit "Fix bug" ++ newline ++ lit "  " in
  pushCommit [] (lit "  ") = []
  ∧ getCommitsForDate (λ _ _, {| err := None; stdout := raw |}) (lit "/vault")
      (lit "2024-01-05") = Resolved (parseDetails_spec raw).
Proof.
  intros raw.
  destruct (parseDetails_drops_malformed raw) as (_ & Hdrop & Hfetch & _).
  split.
  - apply Hdrop; [vm_compute; apply list_elem_of_In; simpl; tauto | by left].
  - by apply Hfetch.
Defined.

(** ** Grid and selection controller *)

Lemma selectCell_unpopulated (p : Plugin) (row col : Z) :
  populated p row col = false → selectCell row col p = p.
Proof.
  unfold populated, selectCell.
  by destruct (cellAt (gridRects p) row col), (cellAt (gridMeta p) row col).
Qed.

Lemma selectCell_populated (p : Plugin) (row col : Z) :
  populated p row col = true →
  currentPos (selectCell row col p) = (row, col)
  ∧ gridRects (selectCell row col p) = gridRects p
  ∧ gridMeta (selectCell row col p) = gridMeta p
  ∧ keyHandler (selectCell row col p) = keyHandler p
  ∧ activeRect (selectCell row col p) = cellAt (gridRects p) row col
  ∧ selectionValid (selectCell row col p).
Proof.
  unfold populated, selectCell, selectionValid.
  destruct (cellAt (gridRects p) row col) as [rect|] eqn:Hr; [|done].
  destruct (cellAt (gridMeta p) row col) as [meta|] eqn:Hm; [|done].
  intros _. simpl. split_and!; try done. by exists rect, meta.
Qed.

Lemma selectCell_grid (p : Plugin) (row col : Z) :
  gridRects (selectCell row col p) = gridRects p
  ∧ gridMeta (selectCell row col p) = gridMeta p
  ∧ keyHandler (selectCell row col p) = keyHandler p.
Proof.
  destruct (populated p row col) eqn:Hp.
  - by destruct (selectCell_populated p row col Hp) as (_ & ? & ? & ? & _).
  - by rewrite selectCell_unpopulated.
Qed.

Lemma selectionValid_selectCell (p : Plugin) (row col : Z) :
  selectionValid p → selectionValid (selectCell row col p).
Proof.
  intros Hv. destruct (populated p row col) eqn:Hp.
  - by apply selectCell_populated.
  - by rewrite selectCell_unpopulated.
Qed.

Lemma keyHandler_call_cases (totalWeeks : Z) (ev : KeyboardEvent) (p : Plugin) :
  (keyHandler_call totalWeeks ev p).1 = p
  ∨ ∃ row col,
      inEditable ev = false
      ∧ arrowTarget totalWeeks (key ev) (currentPos p).1 (currentPos p).2 = Some (row, col)
      ∧ (row, col) ≠ currentPos p
      ∧ populated p row col = true
      ∧ (keyHandler_call totalWeeks ev p).1 = selectCell row col p.
Proof.
  unfold keyHandler_call.
  destruct (inEditable ev); [by left|].
  destruct (currentPos p) as [row col] eqn:Hpos. simpl.
  destruct (arrowTarget totalWeeks (key ev) row col) as [[newRow newCol]|] eqn:Ht;
    [|by left].
  case_bool_decide as Hmove; [|by left]. simpl.
  destruct (populated p newRow newCol) eqn:Hp.
  - right. exists newRow, newCol. split_and!; try done.
    intros [= -> ->]. by destruct Hmove.
  - left. by apply selectCell_unpopulated.
Qed.

Lemma selectionValid_keyHandler_call (totalWeeks : Z) (ev : KeyboardEvent) (p : Plugin) :
  selectionValid p → selectionValid (keyHandler_call totalWeeks ev p).1.
Proof.
  intros Hv.
  destruct (keyHandler_call_cases totalWeeks ev p) as [-> | (r & c & _ & _ & _ & _ & ->)];
    [done|].
  by apply selectionValid_selectCell.
Qed.

Lemma selectionValid_step (p : Plugin) (i : Input) :
  selectionValid p → selectionValid (step p i).
Proof.
  intros Hv. destruct i as [row col | ev]; simpl.
  - by apply selectionValid_selectCell.
  - unfold keydown. destruct (keyHandler p); [|done].
    by apply selectionValid_keyHandler_call.
Qed.

Lemma selectionValid_run (inputs : list Input) (p : Plugin) :
  selectionValid p → selectionValid (run inputs p).
Proof.
  unfold run. revert p.
  induction inputs as [|i inputs IH]; intros p Hv; [done|].
  simpl. by apply IH, selectionValid_step.
Qed.

(** C4: a selection that refers to a populated cell keeps doing so under
    every click and key press; [selectCell] on an unpopulated position
    leaves the instance as it is; an arrow key either leaves the instance
    as it is or moves the selection to its clamped target, which is then
    populated; and where clamping gives back the current position (an arrow
    pressed at the edge of the grid) nothing changes. *)
Theorem selection_stays_populated (p : Plugin) :
  (∀ row col, populated p row col = false → selectCell row col p = p)
  ∧ (∀ row col, populated p row col = true →
       currentPos (selectCell row col p) = (row, col)
       ∧ selectionValid (selectCell row col p))
  ∧ (∀ totalWeeks ev,
       (keyHandler_call totalWeeks ev p).1 = p
       ∨ ∃ row col,
           arrowTarget totalWeeks (key ev) (currentPos p).1 (currentPos p).2
             = Some (row, col)
           ∧ populated p row col = true
           ∧ (keyHandler_call totalWeeks ev p).1 = selectCell row col p
           ∧ currentPos (keyHandler_call totalWeeks ev p).1 = (row, col))
  ∧ (∀ totalWeeks ev,
       arrowTarget totalWeeks (key ev) (currentPos p).1 (currentPos p).2
         = Some (currentPos p) →
       (keyHandler_call totalWeeks ev p).1 = p)
  ∧ (∀ totalWeeks ev,
       (key ev = ArrowUp ∧ (currentPos p).1 = 0)
       ∨ (key ev = ArrowDown ∧ (currentPos p).1 = 6)
       ∨ (key ev = ArrowLeft ∧ (currentPos p).2 = 0)
       ∨ (key ev = ArrowRight ∧ (currentPos p).2 = totalWeeks - 1) →
       (keyHandler_call totalWeeks ev p).1 = p)
  ∧ (selectionValid p → ∀ inputs, selectionValid (run inputs p)).
Proof.
  assert (Hedge : ∀ totalWeeks ev,
            arrowTarget totalWeeks (key ev) (currentPos p).1 (currentPos p).2
              = Some (currentPos p) →
            (keyHandler_call totalWeeks ev p).1 = p).
  { intros totalWeeks ev Ht. unfold keyHandler_call.
    destruct (inEditable ev); [done|].
    destruct (currentPos p) as [row col]. simpl in Ht. rewrite Ht.
    by rewrite bool_decide_eq_false_2 by tauto. }
  split_and!.
  - apply selectCell_unpopulated.
  - intros row col Hp.
    by destruct (selectCell_populated p row col Hp) as (? & _ & _ & _ & _ & ?).
  - intros totalWeeks ev.
    destruct (keyHandler_call_cases totalWeeks ev p)
      as [Hsame | (r & c & _ & Ht & _ & Hp & Heq)]; [by left|].
    right. exists r, c. split_and!; try done.
    rewrite Heq. by apply selectCell_populated.
  - apply Hedge.
  - intros totalWeeks ev Hkey. apply Hedge.
    destruct (currentPos p) as [row col]. simpl in *.
    destruct Hkey as [[-> ->] | [[-> ->] | [[-> ->] | [-> ->]]]]; simpl;
      do 2 f_equal; lia.
  - intros Hv inputs. by apply selectionValid_run.
Qed.

(** ** Dates *)

(** Linear arithmetic with division and remainder by constants. *)
Ltac div_lia := Z.to_euclidean_division_equations; lia.

(** The day number of a date is that of the first day of its month plus
    the day of the month, less one. *)
Lemma dayFromCivil_civil (d : Z) :
  dayFromCivil (year (civil d)) (month (civil d)) + day (civil d) - 1 = d.
Proof.
  unfold civil. simpl.
  set (z := d + 719468).
  set (era := z / 146097).
  set (doe := z - era * 146097).
  assert (Hdoe : 0 ≤ doe ≤ 146096) by (subst doe era; div_lia).
  assert (Hz : d = era * 146097 + doe - 719468) by (subst doe z; lia).
  clearbody doe era. clear z.
  set (yoe := (doe - doe / 1460 + doe / 36524 - doe / 146096) / 365).
  assert (Hyoe : 0 ≤ yoe ≤ 399) by (subst yoe; div_lia).
  set (doy := doe - (365 * yoe + yoe / 4 - yoe / 100)).
  assert (Hdoy : 0 ≤ doy ≤ 365) by (subst doy yoe; div_lia).
  assert (Hdoe2 : doe = yoe * 365 + yoe / 4 - yoe / 100 + doy) by (subst doy; lia).
  clearbody doy. clearbody yoe.
  set (mp := (5 * doy + 2) / 153).
  assert (Hmp : 0 ≤ mp ≤ 11) by (subst mp; div_lia).
  clearbody mp.
  unfold dayFromCivil.
  destruct (Z.ltb_spec mp 10).
  - replace ((mp + 3 - 1) / 12) with 0 by div_lia.
    replace ((mp + 3 - 1) mod 12) with (mp + 2) by div_lia.
    destruct (Z.ltb_spec (mp + 2) 2); [lia|].
    destruct (Z.leb_spec (mp + 3) 2); [lia|].
    replace (mp + 2 - 2) with mp by lia.
    replace ((yoe + era * 400 + 0 + 0) / 400) with era by div_lia.
    replace (yoe + era * 400 + 0 + 0 - era * 400) with yoe by lia.
    lia.
  - replace ((mp - 9 - 1) / 12) with 0 by div_lia.
    replace ((mp - 9 - 1) mod 12) with (mp - 10) by div_lia.
    destruct (Z.ltb_spec (mp - 10) 2); [|lia].
    destruct (Z.leb_spec (mp - 9) 2); [|lia].
    replace (mp - 10 + 10) with mp by lia.
    replace ((yoe + era * 400 + 1 + 0 - 1) / 400) with era by div_lia.
    replace (yoe + era * 400 + 1 + 0 - 1 - era * 400) with yoe by lia.
    lia.
Qed.

(** [d.setDate(d.getDate() + k)] moves [d] by [k] days. *)
Lemma setDate_getDate (tz t k : Z) :
  setDate tz t (getDate tz t + k) = t + k * msPerDay.
Proof.
  unfold setDate, getDate, localDay. cbv zeta.
  pose proof (dayFromCivil_civil ((t + tz) / msPerDay)) as Hd.
  set (c := civil ((t + tz) / msPerDay)) in *.
  replace (dayFromCivil (year c) (month c) + (day c + k) - 1)
    with ((t + tz) / msPerDay + k) by lia.
  unfold msPerDay. div_lia.
Qed.

(** The window starts [displayDays - 1] days before now. *)
Lemma startDateOf_days (tz now displayDays : Z) :
  startDateOf tz now displayDays = now - (displayDays - 1) * msPerDay.
Proof.
  unfold startDateOf.
  replace (getDate tz now - displayDays + 1)
    with (getDate tz now + (1 - displayDays)) by lia.
  rewrite setDate_getDate. unfold msPerDay. lia.
Qed.

Lemma localDay_add (tz t k : Z) :
  localDay tz (t + k * msPerDay) = localDay tz t + k.
Proof.
  unfold localDay.
  replace (t + k * msPerDay + tz) with (t + tz + k * msPerDay) by lia.
  by apply Z.div_add.
Qed.

Lemma getDay_add (tz t k : Z) :
  getDay tz (t + k * msPerDay) = (getDay tz t + k) mod 7.
Proof.
  unfold getDay. rewrite localDay_add, Zplus_mod_idemp_l.
  f_equal. lia.
Qed.

Lemma getDay_range (tz t : Z) : 0 ≤ getDay tz t < 7.
Proof. unfold getDay. by apply Z.mod_pos_bound. Qed.

(** ** Layout engine *)

Lemma cellAt_empty {A} (row col : Z) : cellAt (∅ : gmap Z (gmap Z A)) row col = None.
Proof. unfold cellAt. by rewrite lookup_empty. Qed.

Lemma cellAt_setCell {A} (g : gmap Z (gmap Z A)) (row col row' col' : Z) (v : A) :
  cellAt (setCell row col v g) row' col'
  = if decide (row' = row ∧ col' = col) then Some v else cellAt g row' col'.
Proof.
  unfold cellAt, setCell.
  destruct (decide (row' = row)) as [->|Hr].
  - rewrite lookup_insert_eq. simpl.
    destruct (decide (col' = col)) as [->|Hc].
    + rewrite lookup_insert_eq. by rewrite decide_True.
    + rewrite lookup_insert_ne by done. rewrite decide_False by tauto.
      by destruct (g !! row).
  - rewrite lookup_insert_ne by done. by rewrite decide_False by tauto.
Qed.



Section loop.

Variables (tz : Z) (stats : gmap jsstring Z) (colors : list jsstring).
Variable startDate : Z.

Let s : Z := getDay tz startDate.
Let run_loop : Z → RenderState → RenderState :=
  loop tz stats colors startDate s.

(** The date and the metadata of the day at offset [i]. *)
Let dateAt (i : Z) : Z := startDate + i * msPerDay.
Let metaAt (i : Z) : Meta :=
  {| dateStr := isoDate (dateAt i);
     count := num_or (stats !! isoDate (dateAt i)) 0 |}.

Lemma loop_0 (st : RenderState) : run_loop 0 st = st.
Proof. done. Qed.

Lemma loop_succ (n : Z) (st : RenderState) :
  0 ≤ n →
  run_loop (n + 1) st = loopBody tz stats colors startDate s (run_loop n st) n.
Proof.
  intros Hn. unfold run_loop, loop.
  rewrite seqZ_app by lia. rewrite foldl_app.
  rewrite (seqZ_cons (0 + n) 1) by lia.
  by rewrite (seqZ_nil _ (Z.pred 1)) by lia.
Qed.

(** Row and column of offset [i] determine it: [7 * col + row = s + i]. *)
Lemma row_col_offset (i : Z) :
  0 ≤ i →
  let row := getDay tz (setDate tz startDate (getDate tz startDate + i)) in
  let col := (i + s) / 7 in
  row = (s + i) mod 7 ∧ 0 ≤ row < 7 ∧ 0 ≤ col ∧ 7 * col + row = s + i.
Proof.
  intros Hi row col. subst row col.
  rewrite setDate_getDate, getDay_add. fold s.
  pose proof (getDay_range tz startDate) as Hs. fold s in Hs.
  split_and!; [done | div_lia..].
Qed.

(** The grid after [n] iterations, in closed form: the cell at [(r, c)]
    is the one of offset [7 * c + r - s], when that offset is below [n]. *)
Lemma loop_grid (n : Z) (st0 : RenderState) :
  0 ≤ n →
  gridRects (plugin st0) = ∅ → gridMeta (plugin st0) = ∅ →
  let p := plugin (run_loop n st0) in
  nextId p = (nextId (plugin st0) + Z.to_nat n)%nat
  ∧ (∀ r c, cellAt (gridRects p) r c
            = if decide (0 ≤ r < 7 ∧ 0 ≤ 7 * c + r - s < n)
              then Some (nextId (plugin st0) + Z.to_nat (7 * c + r - s))%nat
              else None)
  ∧ (∀ r c, cellAt (gridMeta p) r c
            = if decide (0 ≤ r < 7 ∧ 0 ≤ 7 * c + r - s < n)
              then Some (metaAt (7 * c + r - s))
              else None)
  ∧ settings p = settings (plugin st0)
  ∧ activeRect p = activeRect (plugin st0)
  ∧ currentPos p = currentPos (plugin st0)
  ∧ keyHandler p = keyHandler (plugin st0)
  ∧ activeSelected p = activeSelected (plugin st0)
  ∧ effects p = effects (plugin st0).
Proof.
  intros Hn Hr0 Hm0. cbv zeta. pattern n. apply natlike_ind; [| |done].
  - rewrite loop_0. split_and!; try done.
    + intros r c. rewrite Hr0, cellAt_empty. by rewrite decide_False by lia.
    + intros r c. rewrite Hm0, cellAt_empty. by rewrite decide_False by lia.
  - clear n Hn. intros n Hn (Hid & Hrects & Hmeta & IH).
    unfold Z.succ. rewrite loop_succ by done.
    destruct (row_col_offset n Hn) as (_ & Hrow & _ & Hcol).
    unfold loopBody.
    cbn [plugin gridRects gridMeta nextId settings activeRect currentPos keyHandler
         activeSelected effects].
    set (row := getDay tz (setDate tz startDate (getDate tz startDate + n))) in *.
    set (col := (n + s) / 7) in *.
    split_and!; try tauto.
    + rewrite Hid. lia.
    + intros r c. rewrite cellAt_setCell, Hrects, Hid.
      destruct (decide (r = row ∧ c = col)) as [[-> ->]|Hne].
      * rewrite decide_True by lia.
        by replace (7 * col + row - s) with n by lia.
      * destruct (decide (0 ≤ r < 7 ∧ 0 ≤ 7 * c + r - s < n)).
        -- by rewrite decide_True by lia.
        -- rewrite decide_False; [done|]. intros [? ?]. lia.
    + intros r c. rewrite cellAt_setCell, Hmeta.
      destruct (decide (r = row ∧ c = col)) as [[-> ->]|Hne].
      * rewrite decide_True by lia.
        replace (7 * col + row - s) with n by lia.
        unfold metaAt, dateAt. by rewrite setDate_getDate.
      * destruct (decide (0 ≤ r < 7 ∧ 0 ≤ 7 * c + r - s < n)).
        -- by rewrite decide_True by lia.
        -- rewrite decide_False; [done|]. intros [? ?]. lia.
Qed.

End loop.

(** The grids of a render are those the loop leaves. *)
Lemma renderHeatmap_grids (isDarkMode : bool) (tz now : Z) (stats : gmap jsstring Z)
    (displayDays : Z) (p : Plugin) :
  let p' := (renderHeatmap isDarkMode tz now stats displayDays p).1 in
  let pl := plugin (renderLoop isDarkMode tz now stats displayDays p) in
  gridRects p' = gridRects pl ∧ gridMeta p' = gridMeta pl.
Proof.
  unfold renderHeatmap. simpl.
  match goal with |- context [selectCell ?r ?c ?q] =>
    destruct (selectCell_grid q r c) as (-> & -> & _) end.
  done.
Qed.

(** The grid of a render in closed form. *)
Lemma renderHeatmap_cells (isDarkMode : bool) (tz now : Z) (stats : gmap jsstring Z)
    (displayDays : Z) (p : Plugin) (r c : Z) :
  0 ≤ displayDays →
  let startDate := startDateOf tz now displayDays in
  let s := getDay tz startDate in
  let i := 7 * c + r - s in
  let p' := (renderHeatmap isDarkMode tz now stats displayDays p).1 in
  cellAt (gridRects p') r c
  = (if decide (0 ≤ r < 7 ∧ 0 ≤ i < displayDays)
     then Some (nextId p + Z.to_nat i)%nat else None)
  ∧ cellAt (gridMeta p') r c
    = (if decide (0 ≤ r < 7 ∧ 0 ≤ i < displayDays)
       then Some {| dateStr := isoDate (startDate + i * msPerDay);
                    count := num_or (stats !! isoDate (startDate + i * msPerDay)) 0 |}
       else None).
Proof.
  intros HD startDate s i p'.
  destruct (renderHeatmap_grids isDarkMode tz now stats displayDays p) as [Hr Hm].
  subst p'. rewrite Hr, Hm. unfold renderLoop. fold startDate. fold s.
  destruct (loop_grid tz stats (if isDarkMode then dark PALETTE else light PALETTE)
              startDate displayDays (renderInit p) HD eq_refl eq_refl)
    as (_ & Hrects & Hmeta & _).
  fold s in Hrects, Hmeta. by rewrite Hrects, Hmeta.
Qed.



(** ** Default selection *)

(** The position handed to the default [selectCell] is populated exactly
    when the weekday of the first day of the window is not after the
    weekday of today. *)
Lemma default_selection_populated_iff (isDarkMode : bool) (tz now : Z)
    (stats : gmap jsstring Z) (displayDays : Z) (p : Plugin) :
  0 < displayDays →
  let startDayOfWeek := getDay tz (startDateOf tz now displayDays) in
  let totalWeeks := totalWeeksOf displayDays startDayOfWeek in
  let p' := (renderHeatmap isDarkMode tz now stats displayDays p).1 in
  populated p' startDayOfWeek (totalWeeks - 1) = true ↔ startDayOfWeek ≤ getDay tz now.
Proof.
  intros HD s totalWeeks p'.
  pose proof (getDay_range tz (startDateOf tz now displayDays)) as Hs. fold s in Hs.
  assert (Hnow : getDay tz now = (s + (displayDays - 1)) mod 7).
  { unfold s. rewrite <- getDay_add, startDateOf_days. f_equal. lia. }
  unfold populated.
  destruct (renderHeatmap_cells isDarkMode tz now stats displayDays p s (totalWeeks - 1))
    as [Hr Hm]; [lia|].
  fold p' in Hr, Hm. fold s in Hr, Hm. rewrite Hr, Hm, Hnow. clear Hr Hm.
  subst totalWeeks. unfold totalWeeksOf, ceilDiv.
  case_decide as Hc; simpl.
  - split; [intros _ | done]. revert Hc. div_lia.
  - split; [done | intros Hle]. exfalso. revert Hc Hle. div_lia.
Qed.

(** C2: on Monday 2026-11-02 a window of seven days starts on a Tuesday
    and has two columns; the default selection asks for row 2 of column 1,
    which holds no day, so the render ends with nothing selected. *)
Theorem default_selection_unpopulated :
  let now := 20759 * msPerDay + 43200000 in
  let startDayOfWeek := getDay 0 (startDateOf 0 now 7) in
  let totalWeeks := totalWeeksOf 7 startDayOfWeek in
  let p' := (renderHeatmap false 0 now ∅ 7 newPlugin).1 in
  isoDate now = lit "2026-11-02" ∧ getDay 0 now = 1
  ∧ startDayOfWeek = 2 ∧ totalWeeks = 2
  ∧ length (gridCells (gridRects p')) = 7%nat
  ∧ populated p' startDayOfWeek (totalWeeks - 1) = false
  ∧ activeRect p' = None ∧ effects p' = [] ∧ ¬ selectionValid p'.
Proof.
  intros now s totalWeeks p'.
  split_and!; try (vm_compute; reflexivity).
  intros (rect & meta & _ & _ & Ha). vm_compute in Ha. discriminate.
Qed.

(** ** Month labels *)

Lemma month_range (d : Z) : 0 ≤ month (civil d) ≤ 11.
Proof.
  unfold civil. simpl.
  set (z := d + 719468).
  set (doe := z - z / 146097 * 146097).
  assert (0 ≤ doe ≤ 146096) by (subst doe; div_lia).
  clearbody doe.
  set (yoe := (doe - doe / 1460 + doe / 36524 - doe / 146096) / 365).
  set (doy := doe - (365 * yoe + yoe / 4 - yoe / 100)).
  assert (0 ≤ doy ≤ 365) by (subst doy yoe; div_lia).
  clearbody doy.
  destruct (Z.ltb_spec ((5 * doy + 2) / 153) 10); div_lia.
Qed.

Lemma getMonth_range (tz t : Z) : 0 ≤ getMonth tz t ≤ 11.
Proof. apply month_range. Qed.

(** The names of distinct months differ. *)
Lemma monthNames_inj (m1 m2 : Z) :
  0 ≤ m1 ≤ 11 → 0 ≤ m2 ≤ 11 →
  default [] (monthNames !! Z.to_nat m1) = default [] (monthNames !! Z.to_nat m2) →
  m1 = m2.
Proof.
  intros H1 H2.
  assert (Hn1 : (Z.to_nat m1 < 12)%nat) by lia.
  assert (Hn2 : (Z.to_nat m2 < 12)%nat) by lia.
  intros Heq. apply Z2Nat.inj; [lia | lia |].
  revert Hn1 Hn2 Heq. generalize (Z.to_nat m1) (Z.to_nat m2). intros n1 n2 Hn1 Hn2.
  do 12 (destruct n1 as [|n1]; [do 12 (destruct n2 as [|n2]; [done|]); lia|]).
  lia.
Qed.

Lemma monthLabels_app (l k : list SvgNode) :
  monthLabels (l ++ k) = monthLabels l ++ monthLabels k.
Proof. unfold monthLabels. apply bind_app. Qed.

Lemma neighboursDiffer_snoc (labels : list (jsstring * Z)) (x : jsstring * Z) :
  neighboursDiffer labels →
  (∀ a, last labels = Some a → a.1 ≠ x.1) →
  neighboursDiffer (labels ++ [x]).
Proof.
  intros Hl Hlast k a b Ha Hb.
  destruct (decide (S k < length labels)%nat) as [Hlt|Hge].
  - rewrite lookup_app_l in Ha, Hb by lia. by eapply Hl.
  - rewrite lookup_app_r in Hb by lia.
    destruct (S k - length labels)%nat as [|j] eqn:Hj; [|by destruct j].
    simpl in Hb. injection Hb as <-.
    rewrite lookup_app_l in Ha by lia.
    apply Hlast. rewrite last_lookup. rewrite <- Ha. f_equal. lia.
Qed.

Section labels.

Variables (tz : Z) (stats : gmap jsstring Z) (colors : list jsstring).
Variable startDate : Z.

Let s : Z := getDay tz startDate.
Let dateAt (i : Z) : Z := startDate + i * msPerDay.
Let row (i : Z) : Z := getDay tz (dateAt i).
Let col (i : Z) : Z := (i + s) / 7.
Let mon (i : Z) : Z := getMonth tz (dateAt i).
Let candidate (i : Z) : bool := (col i =? 0) && (i =? 0) || (row i =? 0).
Let name (m : Z) : jsstring := default [] (monthNames !! Z.to_nat m).

(** What one iteration does to the labels and to the remembered month. *)
Lemma loopBody_labels (st : RenderState) (i : Z) :
  let st' := loopBody tz stats colors startDate s st i in
  let fires := candidate i && negb (mon i =? lastMonth st) in
  monthLabels (group st')
  = monthLabels (group st) ++ (if fires then [(name (mon i), col i * 14)] else [])
  ∧ lastMonth st' = (if fires then mon i else lastMonth st)
  ∧ lastMonth st' = (if candidate i then mon i else lastMonth st).
Proof.
  unfold loopBody. cbn [group lastMonth]. rewrite setDate_getDate.
  fold (dateAt i) (row i) (col i) (mon i). fold (candidate i).
  rewrite monthLabels_app. simpl. rewrite app_nil_r.
  destruct (candidate i); simpl; [|by rewrite app_nil_r].
  destruct (Z.eqb_spec (mon i) (lastMonth st)) as [Heq|Hne]; simpl.
  - by rewrite app_nil_r.
  - by rewrite monthLabels_app.
Qed.

(** After any number of iterations the last label names the remembered
    month, and neighbouring labels differ. *)
Lemma loop_labels (n : Z) (st0 : RenderState) :
  0 ≤ n →
  lastMonth st0 = -1 → monthLabels (group st0) = [] →
  let st := loop tz stats colors startDate s n st0 in
  neighboursDiffer (monthLabels (group st))
  ∧ (lastMonth st = -1 ∧ monthLabels (group st) = []
     ∨ 0 ≤ lastMonth st ≤ 11
       ∧ ∃ x, last (monthLabels (group st)) = Some (name (lastMonth st), x)).
Proof.
  intros Hn Hm0 Hl0. cbv zeta. pattern n. apply natlike_ind; [| |done].
  - rewrite loop_0, Hl0. split; [|by left].
    by intros k a b Ha.
  - clear n Hn. intros n Hn [Hdiff Hlast].
    unfold Z.succ. rewrite loop_succ by done. fold s.
    set (st := loop tz stats colors startDate s n st0) in *.
    destruct (loopBody_labels st n) as (Hlab & Hmon & _).
    rewrite Hlab, Hmon.
    destruct (candidate n && negb (mon n =? lastMonth st)) eqn:Hfires.
    + apply andb_true_iff in Hfires as [_ Hne].
      apply negb_true_iff, Z.eqb_neq in Hne.
      pose proof (getMonth_range tz (dateAt n)) as Hrange. fold (mon n) in Hrange.
      split.
      * apply neighboursDiffer_snoc; [done|].
        intros a Ha. simpl.
        destruct Hlast as [[_ Hnil] | [Hr [x Hx]]].
        -- by rewrite Hnil in Ha.
        -- rewrite Hx in Ha. injection Ha as <-. simpl.
           intros Heq. apply Hne. symmetry. by apply monthNames_inj.
      * right. split; [done|]. exists (col n * 14). by rewrite last_snoc.
    + by rewrite app_nil_r.
Qed.

End labels.

(** The labels of a render are those the loop leaves. *)
Lemma renderHeatmap_children (isDarkMode : bool) (tz now : Z) (stats : gmap jsstring Z)
    (displayDays : Z) (p : Plugin) :
  children (renderHeatmap isDarkMode tz now stats displayDays p).2
  = group (renderLoop isDarkMode tz now stats displayDays p).
Proof. done. Qed.

(** C5: a month label is appended at offset [i] exactly when the day is the
    first of the window or a Sunday and its month is not the remembered one;
    the remembered month is that of the last such day, none at the start;
    the first day of the window is always labelled; and no two labels that
    follow one another carry the same name. *)
Theorem month_labels_gated (isDarkMode : bool) (tz now : Z)
    (stats : gmap jsstring Z) (displayDays : Z) (p : Plugin) :
  0 < displayDays →
  let startDate := startDateOf tz now displayDays in
  let s := getDay tz startDate in
  let colors := if isDarkMode then dark PALETTE else light PALETTE in
  let before := λ i, loop tz stats colors startDate s i (renderInit p) in
  let dateAt := λ i, startDate + i * msPerDay in
  let row := λ i, getDay tz (dateAt i) in
  let col := λ i, (i + s) / 7 in
  let mon := λ i, getMonth tz (dateAt i) in
  let candidate := λ i, (col i =? 0) && (i =? 0) || (row i =? 0) in
  let name := λ m, default [] (monthNames !! Z.to_nat m) in
  let labels := λ i, monthLabels (group (before i)) in
  labels 0 = [] ∧ lastMonth (before 0) = -1
  ∧ (∀ i, 0 ≤ i < displayDays →
       labels (i + 1)
       = labels i ++ (if candidate i && negb (mon i =? lastMonth (before i))
                      then [(name (mon i), col i * (blockSize + blockGap))] else [])
       ∧ lastMonth (before (i + 1))
         = if candidate i then mon i else lastMonth (before i))
  ∧ labels 1 = [(name (mon 0), 0)]
  ∧ monthLabels (children (renderHeatmap isDarkMode tz now stats displayDays p).2)
    = labels displayDays
  ∧ neighboursDiffer (labels displayDays).
Proof.
  intros HD startDate s colors before dateAt row col mon candidate name labels.
  pose proof (getDay_range tz startDate) as Hs.
  subst s.
  assert (Hstep : ∀ i, 0 ≤ i →
            labels (i + 1)
            = labels i ++ (if candidate i && negb (mon i =? lastMonth (before i))
                           then [(name (mon i), col i * (blockSize + blockGap))] else [])
            ∧ lastMonth (before (i + 1))
              = if candidate i then mon i else lastMonth (before i)).
  { intros i Hi. unfold labels, before.
    rewrite (loop_succ tz stats colors startDate i (renderInit p) Hi).
    destruct (loopBody_labels tz stats colors startDate
                (loop tz stats colors startDate (getDay tz startDate) i (renderInit p)) i)
      as (Hlab & _ & Hmon).
    by rewrite Hlab, Hmon. }
  split_and!.
  - done.
  - done.
  - intros i Hi. apply Hstep. lia.
  - destruct (Hstep 0) as [Hlab _]; [lia|].
    change (0 + 1) with 1 in Hlab. rewrite Hlab.
    change (labels 0) with (@nil (jsstring * Z)).
    change (lastMonth (before 0)) with (-1).
    pose proof (getMonth_range tz (dateAt 0)) as Hm. fold (mon 0) in Hm.
    assert (Hcol : col 0 = 0) by (unfold col; div_lia).
    assert (Hc : candidate 0 = true) by (unfold candidate; by rewrite Hcol).
    rewrite Hc, Hcol.
    destruct (Z.eqb_spec (mon 0) (-1)); [lia|]. reflexivity.
  - by rewrite renderHeatmap_children.
  - unfold labels, before.
    by apply (loop_labels tz stats colors startDate displayDays (renderInit p));
      [lia | |].
Qed.

Lemma month_labels_gated_witness :
  0 < 7
  ∧ neighboursDiffer
      (monthLabels (children (renderHeatmap false 0 (20759 * msPerDay) ∅ 7 newPlugin).2)).
Proof.
  split; [lia|].
  destruct (month_labels_gated false 0 (20759 * msPerDay) ∅ 7 newPlugin ltac:(lia))
    as (_ & _ & _ & _ & Heq & Hdiff).
  rewrite Heq. exact Hdiff.
Defined.

(** The default window of 365 days that ends on Monday 2026-11-02 starts
    in November 2025 and ends in November 2026: the label Nov is drawn
    twice, over the first and over the last column. *)
Lemma month_label_repeats :
  let nodes :=
    children (renderHeatmap false 0 (20759 * msPerDay + 43200000) ∅ 365 newPlugin).2 in
  monthLabels nodes !! 0%nat = Some (lit "Nov", 0)
  ∧ monthLabels nodes !! 12%nat = Some (lit "Nov", 728)
  ∧ ¬ NoDup (monthLabels nodes).*1.
Proof.
  intros nodes.
  assert (H0 : (monthLabels nodes).*1 !! 0%nat = Some (lit "Nov"))
    by (vm_compute; reflexivity).
  assert (H12 : (monthLabels nodes).*1 !! 12%nat = Some (lit "Nov"))
    by (vm_compute; reflexivity).
  split_and!; try (vm_compute; reflexivity).
  intros Hnd. by pose proof (NoDup_lookup _ _ _ _ Hnd H0 H12).
Qed.

(** The scenario of the specification: a window of seven days ending on
    2024-01-05, two commits on 2024-01-01 and five on 2024-01-03.  The grid
    has seven cells; the two days with commits are drawn at levels 1 and 2,
    the five others at level 0. *)
Example render_scenario :
  let stats : gmap jsstring Z := {[ lit "2024-01-01" := 2; lit "2024-01-03" := 5 ]} in
  let r := renderHeatmap false 0 (19727 * msPerDay + 43200000) stats 7 newPlugin in
  let fills := children r.2 ≫= (λ n, match n with
                                      | SvgRect _ _ _ fill _ => [fill]
                                      | SvgText _ _ _ => []
                                      end) in
  length (gridCells (gridMeta r.1)) = 7%nat
  ∧ cellAt (gridMeta r.1) 1 1 = Some {| dateStr := lit "2024-01-01"; count := 2 |}
  ∧ cellAt (gridMeta r.1) 3 1 = Some {| dateStr := lit "2024-01-03"; count := 5 |}
  ∧ fills = [lit "#ebedf0"; lit "#ebedf0"; lit "#9be9a8"; lit "#ebedf0";
             lit "#40c463"; lit "#ebedf0"; lit "#ebedf0"].
Proof. vm_compute. done. Qed.

(** ** Selection after a render *)

(** When the first day of the window does not fall later in the week than
    today, the render ends with a valid selection. *)
Lemma render_selectionValid (isDarkMode : bool) (tz now : Z)
    (stats : gmap jsstring Z) (displayDays : Z) (p : Plugin) :
  0 < displayDays →
  getDay tz (startDateOf tz now displayDays) ≤ getDay tz now →
  selectionValid (renderHeatmap isDarkMode tz now stats displayDays p).1.
Proof.
  intros HD Hle.
  apply (default_selection_populated_iff isDarkMode tz now stats displayDays p HD)
    in Hle.
  revert Hle. unfold renderHeatmap. simpl.
  set (s := getDay tz (startDateOf tz now displayDays)).
  set (w := totalWeeksOf displayDays s).
  match goal with |- context [selectCell s (w - 1) ?q] => set (p2 := q) end.
  intros Hpop. apply selectCell_populated.
  unfold populated in *.
  by destruct (selectCell_grid p2 s (w - 1)) as (<- & <- & _).
Qed.

Lemma selection_stays_populated_witness :
  let p := (renderHeatmap false 0 (20759 * msPerDay) ∅ 1 newPlugin).1 in
  selectionValid p
  ∧ selectionValid
      (run [KeyDown {| key := ArrowLeft; inEditable := false |}; Click 0 0] p).
Proof.
  intros p.
  assert (Hv : selectionValid p).
  { exists 0%nat, {| dateStr := lit "2026-11-02"; count := 0 |}.
    vm_compute. done. }
  split; [exact Hv|].
  destruct (selection_stays_populated p) as (_ & _ & _ & _ & _ & Hrun).
  by apply Hrun.
Defined.

(** * Further properties of the code *)

(** ** Splitting and trimming *)

Lemma split_from_skip (sep x rest cur : jsstring) :
  split_from sep (length x) cur (x ++ rest) = split_from sep O cur rest.
Proof.
  induction x as [|a x IH]; [done|]. exact IH.
Qed.

Lemma isPrefix_app (sep rest : jsstring) : isPrefix sep (sep ++ rest) = true.
Proof.
  induction sep as [|a sep IH]; [done|]. simpl. by rewrite N.eqb_refl.
Qed.

(** A field that does not hold the first unit of the separator ends at the
    next separator. *)
Lemma split_from_field (c0 : N) (sep' f rest cur : jsstring) :
  c0 ∉ f →
  split_from (c0 :: sep') O cur (f ++ (c0 :: sep') ++ rest)
  = (rev cur ++ f) :: split_from (c0 :: sep') O [] rest.
Proof.
  revert cur. induction f as [|c f IH]; intros cur Hf.
  - rewrite app_nil_r, app_nil_l.
    change ((c0 :: sep') ++ rest) with (c0 :: (sep' ++ rest)).
    cbn [split_from].
    change (isPrefix (c0 :: sep') (c0 :: sep' ++ rest))
      with (isPrefix (c0 :: sep') ((c0 :: sep') ++ rest)).
    rewrite isPrefix_app. f_equal.
    replace (length (c0 :: sep') - 1)%nat with (length sep') by (simpl; lia).
    apply split_from_skip.
  - apply not_elem_of_cons in Hf as [Hc Hf].
    change ((c :: f) ++ (c0 :: sep') ++ rest) with (c :: (f ++ (c0 :: sep') ++ rest)).
    cbn [split_from isPrefix].
    destruct (N.eqb_spec c0 c) as [->|_]; [done|]. simpl.
    rewrite IH by done. simpl. by rewrite <- app_assoc.
Qed.

Lemma split_from_last (c0 : N) (sep' f cur : jsstring) :
  c0 ∉ f → split_from (c0 :: sep') O cur f = [rev cur ++ f].
Proof.
  revert cur. induction f as [|c f IH]; intros cur Hf.
  - by rewrite app_nil_r.
  - apply not_elem_of_cons in Hf as [Hc Hf].
    cbn [split_from isPrefix].
    destruct (N.eqb_spec c0 c) as [->|_]; [done|]. simpl.
    rewrite IH by done. simpl. by rewrite <- app_assoc.
Qed.

Lemma split_field (c0 : N) (sep' f rest : jsstring) :
  c0 ∉ f →
  split (c0 :: sep') (f ++ (c0 :: sep') ++ rest) = f :: split (c0 :: sep') rest.
Proof. intros Hf. unfold split. by rewrite split_from_field. Qed.

Lemma split_last (c0 : N) (sep' f : jsstring) :
  c0 ∉ f → split (c0 :: sep') f = [f].
Proof. intros Hf. unfold split. by rewrite split_from_last. Qed.

(** The lines of two texts joined by a line break are the lines of the
    first followed by the lines of the second. *)
Lemma split_from_newline_app (a b cur : jsstring) :
  split_from newline O cur (a ++ newline ++ b)
  = split_from newline O cur a ++ split_from newline O [] b.
Proof.
  revert cur. induction a as [|c a IH]; intros cur.
  - simpl. done.
  - change ((c :: a) ++ newline ++ b) with (c :: (a ++ newline ++ b)).
    cbn [split_from isPrefix newline].
    destruct (N.eqb_spec 10%N c) as [<-|_]; simpl.
    + f_equal. apply IH.
    + apply IH.
Qed.

Lemma split_newline_app (a b : jsstring) :
  split newline (a ++ newline ++ b) = split newline a ++ split newline b.
Proof. apply split_from_newline_app. Qed.

Lemma trimStart_nil (l : jsstring) :
  trimStart l = [] ↔ Forall (λ c, isWhiteSpace c = true) l.
Proof.
  induction l as [|c l IH]; simpl.
  - split; [constructor | done].
  - destruct (isWhiteSpace c) eqn:Hc.
    + rewrite IH. split; [by constructor | by inversion 1].
    + split; [done | inversion 1; congruence].
Qed.

(** [trimStart] removes a prefix of white space and stops at a unit that
    is not white space. *)
Lemma trimStart_split (l : jsstring) :
  ∃ pre, l = pre ++ trimStart l
         ∧ Forall (λ c, isWhiteSpace c = true) pre
         ∧ ∀ c, head (trimStart l) = Some c → isWhiteSpace c = false.
Proof.
  induction l as [|c l (pre & Hl & Hpre & Hhead)]; simpl.
  - exists []. split_and!; [done | constructor | done].
  - destruct (isWhiteSpace c) eqn:Hc.
    + exists (c :: pre). split_and!; [simpl; by f_equal | by constructor | done].
    + exists []. split_and!; [done | constructor | by intros ? [= <-]].
Qed.

Lemma rev_reverse (l : jsstring) : rev l = reverse l.
Proof. apply rev_alt. Qed.

Lemma reverse_eq_nil (l : jsstring) : reverse l = [] → l = [].
Proof. intros H. by rewrite <- (reverse_involutive l), H. Qed.

(** A string trims to the empty string exactly when it is all white
    space. *)
Lemma trim_nil (l : jsstring) :
  trim l = [] ↔ Forall (λ c, isWhiteSpace c = true) l.
Proof.
  unfold trim, trimEnd. rewrite !rev_reverse.
  destruct (trimStart_split l) as (pre & Hl & Hpre & _).
  split.
  - intros Ht. apply reverse_eq_nil in Ht. apply trimStart_nil in Ht.
    rewrite Forall_reverse in Ht.
    rewrite Hl. apply Forall_app. by split.
  - intros Hall. apply trimStart_nil in Hall. by rewrite Hall.
Qed.

(** A trimmed string neither starts nor ends with white space. *)
Lemma trim_ends (l : jsstring) (c : N) :
  head (trim l) = Some c ∨ last (trim l) = Some c → isWhiteSpace c = false.
Proof.
  unfold trim, trimEnd. rewrite !rev_reverse.
  destruct (trimStart_split l) as (_ & _ & _ & Hhead).
  destruct (trimStart_split (reverse (trimStart l))) as (pre & Hl & Hpre & Hhead').
  set (u := trimStart l) in *. set (v := trimStart (reverse u)) in *.
  intros [Hc | Hc].
  - apply Hhead. rewrite head_reverse in Hc.
    rewrite <- last_reverse, Hl. apply last_app_Some. by left.
  - apply Hhead'. by rewrite last_reverse in Hc.
Qed.

(** ** More on the aggregator *)

Lemma carries_trim (d l l' : jsstring) :
  trim l = trim l' → carries d l ↔ carries d l'.
Proof. unfold carries. by intros ->. Qed.

Lemma count_some (n : Z) :
  0 ≤ n → default 0 (if n =? 0 then None else Some n) = n.
Proof. intros Hn. case_ltb; simpl; lia. Qed.

(** X1: the statistics depend on the lines of the log only through their
    trimmed forms: white space around a date, such as the carriage return of
    a CRLF line end, changes nothing. *)
Theorem parseGitLog_trim_invariant (log log' : jsstring) :
  Forall2 (λ l l', trim l = trim l') (split newline log) (split newline log') →
  parseGitLog log = parseGitLog log'.
Proof.
  intros Hlines. apply map_eq. intros d. rewrite !parseGitLog_lookup.
  assert (Hlen : length (filter (carries d) (split newline log))
                 = length (filter (carries d) (split newline log'))).
  { induction Hlines as [|l l' ls ls' Ht _ IH]; [done|].
    rewrite !filter_cons.
    destruct (decide (carries d l)) as [Hc|Hc].
    - rewrite decide_True by (by apply (carries_trim d l l')). simpl. by rewrite IH.
    - rewrite decide_False; [done|].
      intros Hc'. by apply Hc, (carries_trim d l l'). }
  by rewrite Hlen.
Qed.

Lemma parseGitLog_trim_invariant_witness :
  parseGitLog (lit "2024-01-01" ++ [13%N] ++ newline ++ lit " 2024-01-03" ++ [13%N])
  = parseGitLog (lit "2024-01-01" ++ newline ++ lit "2024-01-03").
Proof.
  apply parseGitLog_trim_invariant.
  vm_compute. repeat constructor.
Defined.

(** X2: the statistics of two logs joined by a line break are the
    statistics of the two logs with the counts of common dates added. *)
Theorem parseGitLog_app (a b : jsstring) :
  parseGitLog (a ++ newline ++ b)
  = union_with (λ x y, Some (x + y)) (parseGitLog a) (parseGitLog b).
Proof.
  apply map_eq. intros d.
  rewrite lookup_union_with, !parseGitLog_lookup, split_newline_app.
  rewrite filter_app, length_app.
  set (na := length (filter (carries d) (split newline a))).
  set (nb := length (filter (carries d) (split newline b))).
  destruct na, nb; simpl; try done.
  - f_equal. lia.
  - f_equal. lia.
Qed.

(** X3: a date recorded in the statistics is the trimmed form of a line of
    the log; it is not empty, neither starts nor ends with white space, and
    its count is at least 1.  A log whose lines are all blank gives no
    statistics. *)
Theorem parseGitLog_keys (log d : jsstring) (n : Z) :
  (parseGitLog log !! d = Some n →
     1 ≤ n ∧ d ≠ []
     ∧ (∃ l, l ∈ split newline log ∧ trim l = d)
     ∧ ∀ c, head d = Some c ∨ last d = Some c → isWhiteSpace c = false)
  ∧ (Forall (Forall (λ c, isWhiteSpace c = true)) (split newline log) →
     parseGitLog log = ∅).
Proof.
  split.
  - rewrite parseGitLog_lookup.
    destruct (filter (carries d) (split newline log)) as [|l ls] eqn:Hf; [done|].
    assert (Hl : l ∈ filter (carries d) (split newline log)) by (rewrite Hf; left).
    apply list_elem_of_filter in Hl as [[Hne Ht] Hin].
    case_ltb; [done|]. intros [= <-].
    split_and!.
    + simpl. lia.
    + by rewrite <- Ht.
    + by exists l.
    + rewrite <- Ht. apply trim_ends.
  - intros Hblank. apply map_eq. intros k.
    rewrite parseGitLog_lookup, lookup_empty.
    destruct (filter (carries k) (split newline log)) as [|l ls] eqn:Hf; [done|].
    assert (Hl : l ∈ filter (carries k) (split newline log)) by (rewrite Hf; left).
    apply list_elem_of_filter in Hl as [[Hne _] Hin].
    destruct Hne. apply trim_nil.
    rewrite Forall_forall in Hblank. by apply Hblank.
Qed.

Lemma parseGitLog_keys_witness :
  1 ≤ 2
  ∧ parseGitLog (lit "  " ++ newline ++ lit "") = ∅.
Proof.
  destruct (parseGitLog_keys (lit "a" ++ newline ++ lit " a ") (lit "a") 2) as [H _].
  split; [apply H; vm_compute; reflexivity|].
  apply (parseGitLog_keys (lit "  " ++ newline ++ lit "") [] 0).
  vm_compute. repeat constructor.
Defined.

Lemma totalCount_insert (stats : gmap jsstring Z) (k : jsstring) (v : Z) :
  totalCount (<[k := v]> stats) = totalCount stats - default 0 (stats !! k) + v.
Proof.
  unfold totalCount.
  destruct (stats !! k) as [x|] eqn:Hk; simpl.
  - rewrite <- insert_delete_eq.
    rewrite map_fold_insert_L; [| intros; lia | apply lookup_delete_eq].
    rewrite (map_fold_delete_L _ _ k x stats); [lia | intros; lia | done].
  - rewrite map_fold_insert_L; [lia | intros; lia | done].
Qed.

Lemma totalCount_foldl (lines : list jsstring) (stats : gmap jsstring Z) :
  totalCount (foldl (λ (stats : gmap jsstring Z) date,
                       <[trim date := num_or (stats !! trim date) 0 + 1]> stats)
                    stats lines)
  = totalCount stats + Z.of_nat (length lines).
Proof.
  revert stats. induction lines as [|l lines IH]; intros stats.
  - simpl. lia.
  - cbn [foldl]. rewrite IH, totalCount_insert, num_or_0. simpl length. lia.
Qed.

(** X4: the counts of the statistics add up to the number of lines of the
    log that are not blank. *)
Theorem parseGitLog_totalCount (log : jsstring) :
  totalCount (parseGitLog log)
  = Z.of_nat (length (filter (λ l, trim l ≠ []) (split newline log))).
Proof.
  unfold parseGitLog. rewrite totalCount_foldl.
  unfold totalCount at 1. rewrite map_fold_empty.
  rewrite Z.add_0_l. do 2 f_equal.
  induction (split newline log) as [|l ls IH]; [done|].
  rewrite !filter_cons, IH.
  destruct (decide (trim l ≠ [])) as [Hne|He].
  - by rewrite decide_True by (by apply Is_true_true, truthy_true).
  - rewrite decide_False; [done|].
    intros Ht. apply He. by apply truthy_true, Is_true_true.
Qed.

(** ** More on the detail parsing *)

(** Decides a closed decidable proposition by evaluation. *)
Ltac by_compute := apply (bool_decide_unpack _); vm_compute; exact I.

Lemma split_separator (f rest : jsstring) :
  167%N ∉ f →
  split separator (f ++ separator ++ rest) = f :: split separator rest.
Proof. apply (split_field 167 [167; 167]%N). Qed.

Lemma split_separator_last (f : jsstring) :
  167%N ∉ f → split separator f = [f].
Proof. apply (split_last 167 [167; 167]%N). Qed.

Lemma split_newline_line (f rest : jsstring) :
  10%N ∉ f → split newline (f ++ newline ++ rest) = f :: split newline rest.
Proof. apply (split_field 10 []). Qed.

(** A line that holds the separator sign is not blank. *)
Lemma separator_not_blank (line : jsstring) : 167%N ∈ line → trim line ≠ [].
Proof.
  intros Hin Ht. apply trim_nil in Ht.
  rewrite Forall_forall in Ht. by apply Ht in Hin.
Qed.

Lemma formatCommit_fields (c : CommitDetail) :
  cleanCommit c →
  split separator (formatCommit c) = [hash c; message c; author c; date c]
  ∧ (10%N ∉ formatCommit c)
  ∧ wellFormed (formatCommit c)
  ∧ toDetail (formatCommit c) = c.
Proof.
  intros ([Hh Hh'] & [Hm Hm'] & [Ha Ha'] & [Hd Hd']).
  assert (Hsplit : split separator (formatCommit c)
                   = [hash c; message c; author c; date c]).
  { unfold formatCommit.
    rewrite !split_separator by done. by rewrite split_separator_last. }
  split_and!.
  - done.
  - unfold formatCommit, separator.
    rewrite !not_elem_of_app, !not_elem_of_cons.
    split_and!; try done; apply not_elem_of_nil.
  - split.
    + apply separator_not_blank. unfold formatCommit, separator.
      rewrite !elem_of_app. right. left. left.
    + rewrite Hsplit. simpl. lia.
  - unfold toDetail. rewrite Hsplit. by destruct c.
Qed.

Lemma split_formatLog (commits : list CommitDetail) :
  Forall cleanCommit commits →
  split newline (formatLog commits) = (formatCommit <$> commits) ++ [[]].
Proof.
  induction 1 as [|c commits Hc _ IH]; [done|].
  unfold formatLog. rewrite bind_cons. fold (formatLog commits).
  rewrite <- app_assoc, split_newline_line, IH; [done|].
  by apply formatCommit_fields.
Qed.

(** X5: parsing what git prints for a list of commits gives the commits
    back, in order, provided no field holds the separator sign or a line
    break. *)
Theorem parseDetails_formatLog (commits : list CommitDetail) :
  Forall cleanCommit commits →
  parseDetails (formatLog commits) = commits
  ∧ getCommitsForDate_callback {| err := None; stdout := formatLog commits |}
    = Resolved commits.
Proof.
  intros Hclean.
  assert (Hparse : parseDetails (formatLog commits) = commits).
  { unfold parseDetails. rewrite foldl_pushCommit, split_formatLog by done.
    rewrite app_nil_l, filter_app, fmap_app.
    replace (filter wellFormed [[]]) with (@nil jsstring)
      by (by rewrite filter_cons, decide_False by (by intros [? _])).
    rewrite app_nil_r.
    induction Hclean as [|c commits Hc _ IH]; [done|].
    destruct (formatCommit_fields c Hc) as (_ & _ & Hwf & Hto).
    rewrite fmap_cons, filter_cons, decide_True by done.
    by rewrite fmap_cons, Hto, IH. }
  split; [done|].
  unfold getCommitsForDate_callback. rewrite bool_decide_is_Some.
  cbn [err stdout orb]. rewrite Hparse.
  destruct (formatLog commits) eqn:Hlog; [|done].
  simpl. f_equal. by rewrite <- Hparse.
Qed.

Lemma parseDetails_formatLog_witness :
  let c1 := {| hash := lit "abc123"; message := lit "Fix bug";
               author := lit "Alice"; date := lit "2024-01-05T10:00:00+01:00" |} in
  let c2 := {| hash := lit "def456"; message := lit "";
               author := lit "Bob"; date := lit "2024-01-05T09:00:00+01:00" |} in
  parseDetails (formatLog [c1; c2]) = [c1; c2].
Proof.
  intros c1 c2. apply parseDetails_formatLog.
  repeat (apply Forall_cons; split); [| |apply Forall_nil];
    repeat split; by_compute.
Defined.

(** X6: a commit whose subject holds the separator is still accepted; the
    fields after the break shift by one, so that the rest of the subject
    becomes the author and the author becomes the date. *)
Theorem parseDetails_separator_in_subject (h m1 m2 a d : jsstring) :
  cleanField h → cleanField m1 → cleanField m2 → cleanField a → cleanField d →
  parseDetails (formatCommit {| hash := h; message := m1 ++ separator ++ m2;
                                author := a; date := d |} ++ newline)
  = [ {| hash := h; message := m1; author := m2; date := a |} ].
Proof.
  intros [Hh Hh'] [Hm1 Hm1'] [Hm2 Hm2'] [Ha Ha'] [Hd Hd'].
  unfold parseDetails, formatCommit. cbn [hash message author date].
  set (line := h ++ separator ++ (m1 ++ separator ++ m2) ++ separator ++ a
               ++ separator ++ d).
  assert (Hsplit : split separator line = [h; m1; m2; a; d]).
  { unfold line. rewrite <- !app_assoc.
    rewrite !split_separator by done. by rewrite split_separator_last. }
  assert (Hnl : 10%N ∉ line).
  { unfold line, separator.
    rewrite !not_elem_of_app, !not_elem_of_cons. split_and!; try done;
      apply not_elem_of_nil. }
  replace (line ++ newline) with (line ++ newline ++ []) by done.
  rewrite split_newline_line by done.
  change (split newline []) with [@nil N].
  rewrite foldl_pushCommit, app_nil_l.
  rewrite filter_cons, decide_True.
  - rewrite filter_cons, decide_False by (by intros [? _]).
    rewrite filter_nil, fmap_cons, fmap_nil.
    unfold toDetail. by rewrite Hsplit.
  - split.
    + apply separator_not_blank. unfold line, separator.
      rewrite !elem_of_app. right. left. left.
    + rewrite Hsplit. simpl. lia.
Qed.

Lemma parseDetails_separator_in_subject_witness :
  parseDetails (formatCommit {| hash := lit "abc123";
                                message := lit "a" ++ separator ++ lit "b";
                                author := lit "Alice";
                                date := lit "2024-01-05" |} ++ newline)
  = [ {| hash := lit "abc123"; message := lit "a"; author := lit "b";
         date := lit "Alice" |} ].
Proof.
  apply parseDetails_separator_in_subject; split; by_compute.
Defined.

(** ** Numbers as text *)

Lemma digits_fuel_spec (f : nat) (n : Z) (acc : jsstring) :
  0 ≤ n < 2 ^ Z.of_nat (S f) →
  ∃ ds, digits_fuel (S f) n acc = ds ++ acc
        ∧ Forall isDigit ds ∧ ds ≠ []
        ∧ ∀ a, foldl digitStep a ds = a * 10 ^ Z.of_nat (length ds) + n.
Proof.
  revert n acc. induction f as [|f IH]; intros n acc Hn.
  - exists [Z.to_N (48 + n mod 10)].
    change (2 ^ Z.of_nat 1) with 2 in Hn.
    assert (Hmod : n mod 10 = n) by div_lia.
    cbn [digits_fuel]. destruct (Z.ltb_spec n 10); [|lia].
    split_and!; [done | | done |].
    + constructor; [|constructor]. unfold isDigit. lia.
    + intros a. cbn [foldl length]. unfold digitStep.
      rewrite Hmod. change (10 ^ Z.of_nat 1) with 10. lia.
  - rewrite Nat2Z.inj_succ, Z.pow_succ_r in Hn by lia.
    assert (Hd : 0 ≤ n mod 10 < 10) by div_lia.
    change (digits_fuel (S (S f)) n acc)
      with (if n <? 10 then Z.to_N (48 + n mod 10) :: acc
            else digits_fuel (S f) (n / 10) (Z.to_N (48 + n mod 10) :: acc)).
    destruct (Z.ltb_spec n 10) as [Hlt|Hge].
    + exists [Z.to_N (48 + n mod 10)].
      assert (Hmod : n mod 10 = n) by div_lia.
      split_and!; [done | | done |].
      * constructor; [|constructor]. unfold isDigit. lia.
      * intros a. cbn [foldl length]. unfold digitStep.
        rewrite Hmod. change (10 ^ Z.of_nat 1) with 10. lia.
    + destruct (IH (n / 10) (Z.to_N (48 + n mod 10) :: acc))
        as (ds & Heq & Hdig & Hne & Hval); [div_lia|].
      exists (ds ++ [Z.to_N (48 + n mod 10)]).
      split_and!.
      * by rewrite Heq, <- app_assoc.
      * apply Forall_app. split; [done|].
        constructor; [|constructor]. unfold isDigit. lia.
      * by destruct ds.
      * intros a. rewrite foldl_app, Hval. cbn [foldl]. unfold digitStep.
        rewrite length_app, Nat2Z.inj_add, Z.pow_add_r by lia.
        change (10 ^ Z.of_nat (length [Z.to_N (48 + n mod 10)])) with 10.
        replace (Z.of_N (Z.to_N (48 + n mod 10)) - 48) with (n mod 10) by lia.
        pose proof (Z.div_mod n 10). lia.
Qed.

(** The digits of a non-negative number. *)
Lemma numToString_digits (n : Z) :
  0 ≤ n →
  Forall isDigit (numToString n) ∧ numToString n ≠ []
  ∧ foldl digitStep 0 (numToString n) = n.
Proof.
  intros Hn. unfold numToString. destruct (Z.ltb_spec n 0); [lia|].
  destruct (digits_fuel_spec (Z.to_nat (Z.log2 n)) n []) as (ds & -> & Hdig & Hne & Hval).
  - rewrite Nat2Z.inj_succ, Z2Nat.id by apply Z.log2_nonneg.
    destruct (decide (n = 0)) as [->|Hn0]; [done|].
    pose proof (Z.log2_spec n). lia.
  - rewrite app_nil_r. split_and!; [done | done |].
    rewrite Hval. lia.
Qed.

Lemma digitValue_digit (c : N) :
  isDigit c → digitValue 10 c = Some (Z.of_N c - 48).
Proof.
  unfold isDigit, digitValue. intros Hc.
  destruct (Z.leb_spec 48 (Z.of_N c)); [|lia].
  destruct (Z.leb_spec (Z.of_N c) 57); [|lia]. simpl.
  destruct (Z.ltb_spec (Z.of_N c - 48) 10); [done | lia].
Qed.

Lemma parseDigits_digits (ds : jsstring) (acc : option Z) :
  Forall isDigit ds →
  parseDigits 10 ds acc
  = match ds with [] => acc | _ => Some (foldl digitStep (default 0 acc) ds) end.
Proof.
  intros Hds. revert acc. induction Hds as [|c ds Hc _ IH]; intros acc; [done|].
  cbn [parseDigits]. rewrite digitValue_digit by done. rewrite IH.
  by destruct ds.
Qed.

(** A digit is one of the ten units 48..57. *)
Lemma isDigit_cases (c : N) :
  isDigit c → c ∈ [48; 49; 50; 51; 52; 53; 54; 55; 56; 57]%N.
Proof.
  unfold isDigit. intros Hc.
  assert (Hz : ∃ k, (k < 10)%nat ∧ c = N.of_nat (48 + k)).
  { exists (N.to_nat c - 48)%nat. lia. }
  destruct Hz as (k & Hk & ->). clear Hc.
  do 10 (destruct k as [|k]; [simpl; set_solver|]). lia.
Qed.

(** [parseInt] reads a string of digits as its decimal value. *)
Lemma parseInt_digits (ds : jsstring) :
  Forall isDigit ds → ds ≠ [] → parseInt ds = Some (foldl digitStep 0 ds).
Proof.
  intros Hds Hne. destruct ds as [|c ds]; [done|].
  pose proof (parseDigits_digits (c :: ds) None Hds) as Hparse.
  inversion Hds as [|? ? Hc Hds']; subst.
  apply isDigit_cases in Hc.
  assert (Hx : ∀ x r, ds = x :: r → ((x =? 120) || (x =? 88))%N = false).
  { intros x r ->. inversion Hds' as [|? ? Hx _]; subst. unfold isDigit in Hx.
    destruct (N.eqb_spec x 120); [lia|]. destruct (N.eqb_spec x 88); [lia|]. done. }
  unfold parseInt.
  repeat (apply elem_of_cons in Hc as [->|Hc]);
    [..|by apply elem_of_nil in Hc];
    cbn [trimStart isWhiteSpace N.leb N.eqb N.compare Pos.compare Pos.compare_cont
         Pos.eqb andb orb];
    try (destruct ds as [|x r]; [|rewrite (Hx x r eq_refl)]);
    rewrite Hparse; cbn [default]; f_equal; lia.
Qed.

Lemma parseInt_minus_digits (ds : jsstring) :
  Forall isDigit ds → ds ≠ [] →
  parseInt (45%N :: ds) = Some (- foldl digitStep 0 ds).
Proof.
  intros Hds Hne. destruct ds as [|c ds]; [done|].
  pose proof (parseDigits_digits (c :: ds) None Hds) as Hparse.
  inversion Hds as [|? ? Hc Hds']; subst.
  apply isDigit_cases in Hc.
  assert (Hx : ∀ x r, ds = x :: r → ((x =? 120) || (x =? 88))%N = false).
  { intros x r ->. inversion Hds' as [|? ? Hx _]; subst. unfold isDigit in Hx.
    destruct (N.eqb_spec x 120); [lia|]. destruct (N.eqb_spec x 88); [lia|]. done. }
  unfold parseInt.
  change (trimStart (45%N :: c :: ds)) with (45%N :: c :: ds). cbv iota beta.
  repeat (apply elem_of_cons in Hc as [->|Hc]);
    [..|by apply elem_of_nil in Hc];
    try (destruct ds as [|x r]; [|rewrite (Hx x r eq_refl)]);
    rewrite Hparse; cbn [default]; f_equal; lia.
Qed.

(** [parseInt(String(n))] is [n]. *)
Lemma parseInt_numToString (n : Z) : parseInt (numToString n) = Some n.
Proof.
  destruct (Z.ltb_spec n 0) as [Hneg|Hpos].
  - destruct (numToString_digits (- n)) as (Hdig & Hne & Hval); [lia|].
    assert (Hstr : numToString n = 45%N :: numToString (- n)).
    { unfold numToString. destruct (Z.ltb_spec n 0); [|lia].
      destruct (Z.ltb_spec (- n) 0); [lia|]. done. }
    rewrite Hstr, parseInt_minus_digits, Hval by done. f_equal. lia.
  - destruct (numToString_digits n) as (Hdig & Hne & Hval); [lia|].
    by rewrite parseInt_digits, Hval.
Qed.

(** ** More on the settings tab *)

(** X7: for a setting that a Number holds exactly (an integer below 2^53
    in size) and that is not 0, the text that the Default Days field shows is
    stored back as that setting; the decimal text of such an integer [n] is
    stored as [n], and that of 0 as 365; and whatever is typed, the stored
    setting is never 0. *)
Theorem onChange_displayValue (s : GitHeatmapSettings) (n : Z) (vs : list jsstring) :
  (safeInteger (defaultDays s) → defaultDays s ≠ 0 → onChange (displayValue s) s = s)
  ∧ (safeInteger n →
     defaultDays (onChange (numToString n) s) = (if n =? 0 then 365 else n))
  ∧ defaultDays (edits vs DEFAULT_SETTINGS) ≠ 0.
Proof.
  split_and!.
  - intros _ Hne. unfold onChange, displayValue. rewrite parseInt_numToString.
    destruct s as [d]. simpl in *. by destruct (Z.eqb_spec d 0).
  - intros _. unfold onChange. by rewrite parseInt_numToString.
  - unfold edits. induction vs as [|v vs IH] using rev_ind; [done|].
    rewrite foldl_app. apply onChange_nonzero.
Qed.

Lemma onChange_displayValue_witness :
  onChange (displayValue {| defaultDays := -30 |}) {| defaultDays := -30 |}
  = {| defaultDays := -30 |}
  ∧ defaultDays (onChange (numToString 90) {| defaultDays := -30 |}) = 90.
Proof.
  destruct (onChange_displayValue {| defaultDays := -30 |} 90 []) as (H1 & H2 & _).
  split.
  - apply H1; [vm_compute; reflexivity | simpl; lia].
  - apply H2. vm_compute. reflexivity.
Defined.

(** ** The configuration of a block *)

Lemma length_split_from_single (c : N) (cur s : jsstring) :
  length (split_from [c] O cur s) = S (length (filter (λ x, x = c) s)).
Proof.
  revert cur. induction s as [|x s IH]; intros cur; [done|].
  cbn [split_from isPrefix]. rewrite filter_cons.
  destruct (N.eqb_spec c x) as [->|Hne]; simpl.
  - rewrite decide_True by done. simpl. by rewrite IH.
  - rewrite decide_False by done. apply IH.
Qed.

Section config.

Variable toLowerCase : jsstring → jsstring.

Lemma configLine_cases (d : Z) (line : jsstring) :
  configLine toLowerCase d line = d
  ∨ ∃ k v, split (lit ":") line = [k; v]
           ∧ toLowerCase (trim k) ∈ [lit "days"; lit "day"]
           ∧ parseInt (trim v) = Some (configLine toLowerCase d line)
           ∧ 0 < configLine toLowerCase d line.
Proof.
  unfold configLine.
  destruct (split (lit ":") line) as [|k [|v [|w parts]]] eqn:Hs;
    try (by left).
  change ([k; v] !! 0%nat) with (Some k). change ([k; v] !! 1%nat) with (Some v).
  cbn [length from_option id].
  rewrite bool_decide_eq_true_2 by done. cbn [andb].
  case_bool_decide as Hkey; [|by left].
  unfold overrideDays.
  destruct (parseInt (trim v)) as [n|] eqn:Hp; [|by left].
  destruct (Z.ltb_spec 0 n); [|by left].
  right. by exists k, v.
Qed.

Lemma configLine_positive (d : Z) (line : jsstring) :
  0 < d → 0 < configLine toLowerCase d line.
Proof.
  intros Hd.
  destruct (configLine_cases d line) as [-> | (_ & _ & _ & _ & _ & H)]; done.
Qed.

(** X8: the window of a block is positive when the default is; it is the
    default, or the positive number read from a line of the block that has
    exactly one colon and a key that is [days] or [day] in lower case. *)
Theorem configDays_default_or_line (source : jsstring) (d : Z) :
  (0 < d → 0 < configDays toLowerCase source d)
  ∧ (configDays toLowerCase source d = d
     ∨ ∃ line k v,
         line ∈ split newline source
         ∧ split (lit ":") line = [k; v]
         ∧ length (filter (λ x, x = 58%N) line) = 1%nat
         ∧ toLowerCase (trim k) ∈ [lit "days"; lit "day"]
         ∧ parseInt (trim v) = Some (configDays toLowerCase source d)
         ∧ 0 < configDays toLowerCase source d).
Proof.
  unfold configDays.
  induction (split newline source) as [|line lines IH] using rev_ind.
  - split; [done | by left].
  - rewrite foldl_app. cbn [foldl].
    destruct IH as [IHpos IHval].
    split; [intros Hd; by apply configLine_positive, IHpos|].
    destruct (configLine_cases (foldl (configLine toLowerCase) d lines) line)
      as [-> | (k & v & Hs & Hk & Hp & Hn)].
    + destruct IHval as [-> | (l & k & v & Hin & Hrest)]; [by left|].
      right. exists l, k, v. split; [|done].
      apply elem_of_app. by left.
    + right. exists line, k, v. split_and!; try done.
      * apply elem_of_app. right. left.
      * apply (f_equal length) in Hs. unfold split in Hs.
        rewrite (length_split_from_single 58) in Hs. simpl in Hs. lia.
Qed.

(** X9: of two texts joined by a line break the second is read after the
    first, so that a later valid line overrides an earlier one. *)
Theorem configDays_app (a b : jsstring) (d : Z) :
  configDays toLowerCase (a ++ newline ++ b) d
  = configDays toLowerCase b (configDays toLowerCase a d).
Proof.
  unfold configDays. by rewrite split_newline_app, foldl_app.
Qed.

(** [toLowerCase] agrees with the ASCII rule on ASCII strings. *)
Hypothesis toLowerCase_ascii :
  ∀ s, isAscii s → toLowerCase s = asciiLower s.

(** X10: a line [key:value] sets the window when neither part holds a
    colon or a line break, the trimmed key is ASCII and reads [days] or [day]
    whatever the case of its letters, and the trimmed value parses to a
    positive number. *)
Theorem configDays_recognised (k v : jsstring) (n d : Z) :
  (58%N ∉ k) → (58%N ∉ v) → (10%N ∉ k) → (10%N ∉ v) →
  isAscii (trim k) →
  asciiLower (trim k) ∈ [lit "days"; lit "day"] →
  parseInt (trim v) = Some n → 0 < n →
  configDays toLowerCase (k ++ lit ":" ++ v) d = n.
Proof.
  intros Hk Hv Hk' Hv' Hascii Hkey Hparse Hn.
  unfold configDays.
  rewrite (split_last 10 []) by (rewrite !not_elem_of_app; split_and!; try done;
                                 by_compute).
  cbn [foldl]. unfold configLine.
  change (lit ":") with [58%N].
  rewrite (split_field 58 [] k v Hk), (split_last 58 [] v Hv).
  change ([k; v] !! 0%nat) with (Some k). change ([k; v] !! 1%nat) with (Some v).
  cbn [length from_option id].
  rewrite bool_decide_eq_true_2 by done. cbn [andb].
  rewrite toLowerCase_ascii by done.
  rewrite bool_decide_eq_true_2 by done.
  unfold overrideDays. rewrite Hparse.
  by destruct (Z.ltb_spec 0 n); [|lia].
Qed.

End config.

Lemma configDays_default_or_line_witness :
  0 < 365 ∧ 0 < configDays asciiLower (lit "days: -30") 365.
Proof.
  split; [lia|].
  apply (configDays_default_or_line asciiLower). lia.
Defined.

Lemma configDays_recognised_witness :
  configDays asciiLower (lit " DaYs" ++ lit ":" ++ lit " 30 ") 365 = 30.
Proof.
  apply (configDays_recognised asciiLower (λ s _, eq_refl) (lit " DaYs") (lit " 30 ") 30 365);
    try by_compute; try reflexivity; lia.
Defined.

(** ** The dates of a render *)

Lemma isDigit_not_T (ds : jsstring) : Forall isDigit ds → 84%N ∉ ds.
Proof.
  intros Hds Hin. rewrite Forall_forall in Hds.
  apply Hds in Hin. unfold isDigit in Hin. lia.
Qed.

Lemma numToString_not_T (n : Z) : 84%N ∉ numToString n.
Proof.
  destruct (Z.ltb_spec n 0) as [Hneg|Hpos].
  - assert (Hstr : numToString n = 45%N :: numToString (- n)).
    { unfold numToString. destruct (Z.ltb_spec n 0); [|lia].
      destruct (Z.ltb_spec (- n) 0); [lia|]. done. }
    rewrite Hstr. apply not_elem_of_cons. split; [done|].
    apply isDigit_not_T. apply numToString_digits. lia.
  - apply isDigit_not_T. by apply numToString_digits.
Qed.

Lemma padZero_not_T (w : nat) (n : Z) : 84%N ∉ padZero w n.
Proof.
  unfold padZero. rewrite not_elem_of_app. split; [|apply numToString_not_T].
  intros Hin. by apply elem_of_replicate in Hin as [? _].
Qed.

Lemma isoDay_not_T (d : Z) : 84%N ∉ isoDay d.
Proof.
  unfold isoDay, isoYear. cbv zeta.
  rewrite !not_elem_of_app. split_and!.
  - destruct (_ && _); [apply padZero_not_T|].
    apply not_elem_of_cons. split; [by destruct (_ <? _)|apply padZero_not_T].
  - change (lit "-") with [45%N]. by apply not_elem_of_cons; split; [|apply not_elem_of_nil].
  - apply padZero_not_T.
  - change (lit "-") with [45%N]. by apply not_elem_of_cons; split; [|apply not_elem_of_nil].
  - apply padZero_not_T.
Qed.

(** The date string of a time value is the calendar date of its UTC day. *)
Lemma isoDate_utcDay (t : Z) : isoDate t = isoDay (utcDay t).
Proof.
  unfold isoDate, toISOString. cbv zeta.
  set (c := civil (utcDay t)).
  set (time := padZero 2 (t mod msPerDay / 3600000) ++ _).
  replace (isoYear (year c) ++ lit "-" ++ padZero 2 (month c + 1) ++ lit "-"
             ++ padZero 2 (day c) ++ lit "T" ++ time)
    with (isoDay (utcDay t) ++ [84%N] ++ time).
  - by rewrite (split_field 84 [] _ _ (isoDay_not_T (utcDay t))).
  - unfold isoDay. fold c. cbv zeta. by rewrite <- !app_assoc.
Qed.

Lemma utcDay_add (t k : Z) : utcDay (t + k * msPerDay) = utcDay t + k.
Proof. unfold utcDay. by apply Z.div_add. Qed.

(** *** A zone that stays at one offset *)

Lemma steady_fixed (tz lo hi : Z) : steady (JsZone.fixed tz) tz lo hi.
Proof. by split. Qed.

(** [setDate] in a zone: the date is set at the offset of the time value,
    and the local time that results is read with its own offset. *)
Lemma zone_setDate (z : JsZone.Zone) (t n : Z) :
  JsZone.setDate z t n
  = setDate (JsZone.utcOffset z t) t n + JsZone.utcOffset z t
    - JsZone.localOffset z (setDate (JsZone.utcOffset z t) t n + JsZone.utcOffset z t).
Proof.
  unfold JsZone.setDate, JsZone.localTime, setDate. cbv zeta.
  set (o := JsZone.utcOffset z t). set (X := _ * msPerDay + _).
  by replace (X - o + o) with X by lia.
Qed.

Section steady.

Variables (z : JsZone.Zone) (tz lo hi : Z).
Hypothesis Hz : steady z tz lo hi.

Lemma getDate_steady (t : Z) : lo ≤ t ≤ hi → JsZone.getDate z t = getDate tz t.
Proof.
  intros Ht. unfold JsZone.getDate, JsZone.localTime, getDate, localDay.
  by rewrite (proj1 Hz t Ht).
Qed.

Lemma getDay_steady (t : Z) : lo ≤ t ≤ hi → JsZone.getDay z t = getDay tz t.
Proof.
  intros Ht. unfold JsZone.getDay, JsZone.localTime, getDay, localDay.
  by rewrite (proj1 Hz t Ht).
Qed.

Lemma getMonth_steady (t : Z) : lo ≤ t ≤ hi → JsZone.getMonth z t = getMonth tz t.
Proof.
  intros Ht. unfold JsZone.getMonth, JsZone.localTime, getMonth, localDay.
  by rewrite (proj1 Hz t Ht).
Qed.

Lemma setDate_steady (t n : Z) :
  lo ≤ t ≤ hi → lo ≤ setDate tz t n ≤ hi → JsZone.setDate z t n = setDate tz t n.
Proof.
  intros Ht Hn. rewrite zone_setDate, (proj1 Hz t Ht).
  rewrite (proj2 Hz (setDate tz t n + tz)); lia.
Qed.

(** Moving a date by [k] days inside the steady range. *)
Lemma setDate_getDate_steady (t k : Z) :
  lo ≤ t ≤ hi → lo ≤ t + k * msPerDay ≤ hi →
  JsZone.setDate z t (JsZone.getDate z t + k) = t + k * msPerDay.
Proof.
  intros Ht Hk. rewrite getDate_steady by done.
  rewrite setDate_steady; [apply setDate_getDate | done |].
  by rewrite setDate_getDate.
Qed.

Lemma currentDateOf_steady (startDate i : Z) :
  lo ≤ startDate ≤ hi → lo ≤ startDate + i * msPerDay ≤ hi →
  Zoned.currentDateOf z startDate i = startDate + i * msPerDay.
Proof. apply setDate_getDate_steady. Qed.

Lemma sinceOf_steady (now days : Z) :
  lo ≤ now ≤ hi → lo ≤ now - days * msPerDay ≤ hi →
  sinceOf z now days = now - days * msPerDay.
Proof.
  intros Hn Hs. unfold sinceOf.
  replace (JsZone.getDate z now - days) with (JsZone.getDate z now + - days) by lia.
  rewrite setDate_getDate_steady; [lia | done | lia].
Qed.

Lemma startDateOf_steady (now displayDays : Z) :
  lo ≤ now ≤ hi → lo ≤ startDateOf tz now displayDays ≤ hi →
  Zoned.startDateOf z now displayDays = startDateOf tz now displayDays.
Proof.
  intros Hn Hs. rewrite startDateOf_days in Hs |- *. unfold Zoned.startDateOf.
  replace (JsZone.getDate z now - displayDays + 1)
    with (JsZone.getDate z now + (1 - displayDays)) by lia.
  rewrite setDate_getDate_steady; [lia | exact Hn | lia].
Qed.

Lemma loopBody_steady (stats : gmap jsstring Z) (colors : list jsstring)
    (startDate s : Z) (st : RenderState) (i : Z) :
  lo ≤ startDate ≤ hi → lo ≤ startDate + i * msPerDay ≤ hi →
  Zoned.loopBody z stats colors startDate s st i
  = loopBody tz stats colors startDate s st i.
Proof.
  intros Hs Hi.
  assert (Hr : lo ≤ setDate tz startDate (getDate tz startDate + i) ≤ hi)
    by by rewrite setDate_getDate.
  assert (Hc : Zoned.currentDateOf z startDate i
               = setDate tz startDate (getDate tz startDate + i))
    by by rewrite currentDateOf_steady, setDate_getDate.
  unfold Zoned.loopBody, loopBody. cbv zeta.
  by rewrite Hc, (getDay_steady _ Hr), (getMonth_steady _ Hr).
Qed.

Lemma loop_steady (stats : gmap jsstring Z) (colors : list jsstring)
    (startDate s n : Z) (st : RenderState) :
  lo ≤ startDate → startDate + (n - 1) * msPerDay ≤ hi →
  Zoned.loop z stats colors startDate s n st = loop tz stats colors startDate s n st.
Proof.
  intros Hs Hn. unfold Zoned.loop, loop.
  assert (Hl : Forall (λ i, 0 ≤ i < n) (seqZ 0 n)) by (apply Forall_seqZ; lia).
  revert st. induction Hl as [|i l Hi _ IH]; intros st; [done|].
  cbn [foldl]. rewrite loopBody_steady; [apply IH | |]; unfold msPerDay in *; lia.
Qed.

Lemma renderHeatmap_steady (isDarkMode : bool) (now : Z) (stats : gmap jsstring Z)
    (displayDays : Z) (p : Plugin) :
  0 < displayDays → lo ≤ startDateOf tz now displayDays → now ≤ hi →
  Zoned.renderHeatmap isDarkMode z now stats displayDays p
  = renderHeatmap isDarkMode tz now stats displayDays p.
Proof.
  intros HD Hlo Hhi.
  pose proof (startDateOf_days tz now displayDays) as Hstart.
  assert (Hs : Zoned.startDateOf z now displayDays = startDateOf tz now displayDays).
  { apply startDateOf_steady; unfold msPerDay in *; lia. }
  assert (Hg : JsZone.getDay z (startDateOf tz now displayDays)
               = getDay tz (startDateOf tz now displayDays)).
  { apply getDay_steady. unfold msPerDay in *. lia. }
  unfold Zoned.renderHeatmap, renderHeatmap, Zoned.renderLoop, renderLoop. cbv zeta.
  rewrite Hs, Hg, loop_steady; [done | done |]. unfold msPerDay in *. lia.
Qed.

(** A render that follows dates inside the steady range, all valid, does
    not throw. *)
Lemma throwsAt_steady (now displayDays : Z) :
  0 < displayDays → lo ≤ startDateOf tz now displayDays → now ≤ hi →
  validTime (startDateOf tz now displayDays) → validTime now →
  Zoned.throwsAt z (Zoned.startDateOf z now displayDays) displayDays = None.
Proof.
  intros HD Hlo Hhi Hvs Hvn.
  pose proof (startDateOf_days tz now displayDays) as Hstart.
  rewrite startDateOf_steady by (unfold msPerDay in *; lia).
  unfold Zoned.throwsAt. rewrite decide_True by done.
  assert (Hl : Forall (λ i, 0 ≤ i < displayDays) (seqZ 0 displayDays))
    by (apply Forall_seqZ; lia).
  induction Hl as [|i l Hi _ IH]; [done|].
  cbn [find]. rewrite bool_decide_eq_false_2; [done|].
  intros Hinv. apply Hinv.
  rewrite currentDateOf_steady by (unfold msPerDay in *; lia).
  unfold validTime, msPerDay in *. lia.
Qed.

End steady.

(** *** The loop in any zone *)

Section zoned_loop.

Variables (z : JsZone.Zone) (stats : gmap jsstring Z) (colors : list jsstring).
Variables (startDate s : Z).

(** Every cell of the metadata grid was written by a day offset of the
    loop, with the weekday of its date as row. *)
Lemma zoned_loop_meta (Q : Z → Meta → Prop) (l : list Z) (st : RenderState) :
  (∀ i, i ∈ l →
     let t := Zoned.currentDateOf z startDate i in
     Q (JsZone.getDay z t)
       {| dateStr := isoDate t; count := num_or (stats !! isoDate t) 0 |}) →
  (∀ r c m, cellAt (gridMeta (plugin st)) r c = Some m → Q r m) →
  ∀ r c m,
    cellAt (gridMeta (plugin (foldl (Zoned.loopBody z stats colors startDate s) st l)))
      r c = Some m →
    Q r m.
Proof.
  revert st. induction l as [|i l IH]; intros st Hl Hst; [exact Hst|].
  cbn [foldl]. apply IH.
  - intros j Hj. apply Hl. by right.
  - intros r c m. unfold Zoned.loopBody. cbv zeta. cbn [plugin gridMeta].
    rewrite cellAt_setCell. case_decide as Hrc.
    + intros Hm. apply (inj Some) in Hm. subst m. destruct Hrc as [-> _].
      apply (Hl i). by left.
    + apply Hst.
Qed.

(** The loop touches the grids and the identities only. *)
Lemma zoned_loop_fields (l : list Z) (st : RenderState) :
  let pl := plugin (foldl (Zoned.loopBody z stats colors startDate s) st l) in
  settings pl = settings (plugin st) ∧ activeRect pl = activeRect (plugin st)
  ∧ currentPos pl = currentPos (plugin st) ∧ keyHandler pl = keyHandler (plugin st)
  ∧ activeSelected pl = activeSelected (plugin st)
  ∧ effects pl = effects (plugin st).
Proof.
  revert st. induction l as [|i l IH]; intros st; [done|].
  cbn [foldl]. cbv zeta. destruct (IH (Zoned.loopBody z stats colors startDate s st i))
    as (H1 & H2 & H3 & H4 & H5 & H6).
  by rewrite H1, H2, H3, H4, H5, H6.
Qed.

End zoned_loop.

(** The grids and the key handler of a render in any zone. *)
Lemma zoned_renderHeatmap_grids (isDarkMode : bool) (z : JsZone.Zone) (now : Z)
    (stats : gmap jsstring Z) (displayDays : Z) (p : Plugin) :
  let startDate := Zoned.startDateOf z now displayDays in
  let p' := (Zoned.renderHeatmap isDarkMode z now stats displayDays p).1 in
  let pl := plugin (Zoned.renderLoop isDarkMode z now stats displayDays p) in
  gridRects p' = gridRects pl ∧ gridMeta p' = gridMeta pl
  ∧ keyHandler p' = Some (totalWeeksOf displayDays (JsZone.getDay z startDate)).
Proof.
  intros startDate p' pl. subst p' pl startDate.
  unfold Zoned.renderHeatmap. cbv zeta. cbn [fst].
  match goal with |- context [selectCell ?r ?c ?q] =>
    destruct (selectCell_grid q r c) as (-> & -> & ->) end.
  done.
Qed.

(** The cells of a render in any zone: each holds the date string of the
    time value of a day offset, whose weekday is the row, and the count that
    the statistics hold for that string. *)
Lemma zoned_renderHeatmap_meta (isDarkMode : bool) (z : JsZone.Zone) (now : Z)
    (stats : gmap jsstring Z) (displayDays : Z) (p : Plugin) (r c : Z) (m : Meta) :
  cellAt (gridMeta (Zoned.renderHeatmap isDarkMode z now stats displayDays p).1) r c
    = Some m →
  ∃ i, 0 ≤ i < displayDays
       ∧ dateStr m
         = isoDate (Zoned.currentDateOf z (Zoned.startDateOf z now displayDays) i)
       ∧ r = JsZone.getDay z
               (Zoned.currentDateOf z (Zoned.startDateOf z now displayDays) i)
       ∧ count m = num_or (stats !! dateStr m) 0.
Proof.
  destruct (zoned_renderHeatmap_grids isDarkMode z now stats displayDays p)
    as (_ & -> & _).
  unfold Zoned.renderLoop, Zoned.loop. cbv zeta.
  apply (zoned_loop_meta z stats _ _ _
           (λ r m, ∃ i, 0 ≤ i < displayDays
              ∧ dateStr m
                = isoDate (Zoned.currentDateOf z (Zoned.startDateOf z now displayDays) i)
              ∧ r = JsZone.getDay z
                      (Zoned.currentDateOf z (Zoned.startDateOf z now displayDays) i)
              ∧ count m = num_or (stats !! dateStr m) 0)).
  - intros i Hi. cbv zeta. exists i. apply elem_of_seqZ in Hi.
    cbn [dateStr count]. split_and!; [lia | lia | done | done | done].
  - intros r' c' m'. cbn [renderInit plugin gridMeta]. by rewrite cellAt_empty.
Qed.

(** X11: where the zone stays at one offset from the date asked of git to
    the time of the render, the clock does not go back in between and both
    ends are valid time values: the log is asked for the commits since the
    UTC date of [days] days before the first reading of the clock, the render
    does not throw, and its cells carry the dates of the [displayDays] UTC
    days up to the UTC date of the second reading, each with the count that
    the statistics hold for its date.  When both readings fall on one UTC
    day, these are the days that follow the date asked of git. *)
Theorem render_dates_follow_since (isDarkMode : bool) (z : JsZone.Zone)
    (tz now now' : Z) (stats : gmap jsstring Z) (displayDays : Z) (p : Plugin) :
  0 < displayDays → now ≤ now' →
  steady z tz (now - displayDays * msPerDay) now' →
  validTime (now - displayDays * msPerDay) → validTime now' →
  let p' := (Zoned.renderHeatmap isDarkMode z now' stats displayDays p).1 in
  sinceOf z now displayDays = now - displayDays * msPerDay
  ∧ getGitLog_cmd (isoDate (sinceOf z now displayDays))
    = lit "git log --since=" ++ quote ++ isoDay (utcDay now - displayDays) ++ quote
        ++ lit " --date=short --format=" ++ quote ++ lit "%ad" ++ quote
  ∧ Zoned.throwsAt z (Zoned.startDateOf z now' displayDays) displayDays = None
  ∧ (∀ r c m, cellAt (gridMeta p') r c = Some m →
       ∃ i, 1 ≤ i ≤ displayDays
            ∧ dateStr m = isoDay (utcDay now' - displayDays + i)
            ∧ count m = num_or (stats !! dateStr m) 0)
  ∧ (∀ i, 1 ≤ i ≤ displayDays →
       ∃ r c m, cellAt (gridMeta p') r c = Some m
                ∧ dateStr m = isoDay (utcDay now' - displayDays + i)).
Proof.
  intros HD Hnow Hz Hvs Hvn p'.
  pose proof (startDateOf_days tz now' displayDays) as Hstart.
  assert (Hlo : now - displayDays * msPerDay ≤ startDateOf tz now' displayDays)
    by (unfold msPerDay in *; lia).
  assert (Hsince : sinceOf z now displayDays = now - displayDays * msPerDay).
  { apply (sinceOf_steady z tz _ _ Hz); unfold msPerDay in *; lia. }
  assert (Hvstart : validTime (startDateOf tz now' displayDays))
    by (unfold validTime, msPerDay in *; lia).
  subst p'.
  rewrite (renderHeatmap_steady z tz _ _ Hz) by (done || lia).
  set (p' := (renderHeatmap isDarkMode tz now' stats displayDays p).1).
  set (startDate := startDateOf tz now' displayDays) in *.
  set (s := getDay tz startDate).
  assert (Hdate : ∀ i, isoDate (startDate + i * msPerDay)
                       = isoDay (utcDay now' - displayDays + (i + 1))).
  { intros i. rewrite isoDate_utcDay, utcDay_add, Hstart.
    replace (now' - (displayDays - 1) * msPerDay)
      with (now' + (1 - displayDays) * msPerDay) by lia.
    rewrite utcDay_add. f_equal. lia. }
  split_and!.
  - done.
  - rewrite Hsince, isoDate_utcDay.
    replace (now - displayDays * msPerDay) with (now + - displayDays * msPerDay) by lia.
    rewrite utcDay_add.
    by replace (utcDay now + - displayDays) with (utcDay now - displayDays) by lia.
  - by apply (throwsAt_steady z tz _ _ Hz); [| |lia| |].
  - intros r c m Hm.
    destruct (renderHeatmap_cells isDarkMode tz now' stats displayDays p r c)
      as [_ Hmeta]; [lia|].
    fold p' startDate s in Hmeta. rewrite Hmeta in Hm.
    case_decide as Hrc; [|done]. apply (inj Some) in Hm; subst m. cbn [dateStr count].
    exists (7 * c + r - s + 1). split_and!; [lia | lia | apply Hdate | done].
  - intros i Hi.
    pose proof (getDay_range tz startDate) as Hs. fold s in Hs.
    set (j := i - 1).
    exists ((s + j) mod 7), ((j + s) / 7).
    destruct (renderHeatmap_cells isDarkMode tz now' stats displayDays p
                ((s + j) mod 7) ((j + s) / 7)) as [_ Hmeta]; [lia|].
    fold p' startDate s in Hmeta.
    assert (Hj : 7 * ((j + s) / 7) + (s + j) mod 7 - s = j) by div_lia.
    rewrite Hj in Hmeta.
    rewrite decide_True in Hmeta by (subst j; div_lia).
    eexists. split; [exact Hmeta|]. cbn [dateStr]. rewrite Hdate.
    f_equal. subst j. lia.
Qed.

Lemma render_dates_follow_since_witness :
  sinceOf (JsZone.fixed 7200000) (20759 * msPerDay) 7 = 20752 * msPerDay
  ∧ getGitLog_cmd (isoDate (sinceOf (JsZone.fixed 7200000) (20759 * msPerDay) 7))
    = lit "git log --since=" ++ quote ++ isoDay (utcDay (20759 * msPerDay) - 7) ++ quote
        ++ lit " --date=short --format=" ++ quote ++ lit "%ad" ++ quote.
Proof.
  destruct (render_dates_follow_since false (JsZone.fixed 7200000) 7200000
              (20759 * msPerDay) (20759 * msPerDay + 5000) ∅ 7 newPlugin)
    as (H1 & H2 & _).
  - lia.
  - unfold msPerDay. lia.
  - apply steady_fixed.
  - unfold validTime, maxTime, msPerDay. lia.
  - unfold validTime, maxTime, msPerDay. lia.
  - split; [|exact H2]. rewrite H1. unfold msPerDay. lia.
Defined.

Lemma ahead_bound (tz now : Z) :
  - msPerDay ≤ tz ≤ msPerDay → -1 ≤ (now + tz) / msPerDay - utcDay now ≤ 1.
Proof. unfold utcDay, msPerDay. intros Htz. div_lia. Qed.

(** X12: in any zone, the row of a cell is the weekday of the local date
    of a time value of the loop, while the date string of the cell is the UTC
    date of that time value: the weekday of the date written in a cell is the
    row less the number of days by which the local date is ahead of the UTC
    date at that time, which is -1, 0 or 1 for an offset of at most a day.
    The two agree where the offset is 0.  Where the zone stays at one offset
    over the window, that number is the same for all cells: it is the one of
    the time of the render. *)
Theorem render_row_versus_date (isDarkMode : bool) (z : JsZone.Zone) (now : Z)
    (stats : gmap jsstring Z) (displayDays : Z) (p : Plugin) (r c : Z) (m : Meta) :
  Zoned.throwsAt z (Zoned.startDateOf z now displayDays) displayDays = None →
  cellAt (gridMeta (Zoned.renderHeatmap isDarkMode z now stats displayDays p).1) r c
    = Some m →
  ∃ i, 0 ≤ i < displayDays
    ∧ let t := Zoned.currentDateOf z (Zoned.startDateOf z now displayDays) i in
      let u := utcDay t in
      let ahead := JsZone.localTime z t / msPerDay - u in
      dateStr m = isoDay u
      ∧ r = (u + ahead + 4) mod 7
      ∧ (- msPerDay ≤ JsZone.utcOffset z t ≤ msPerDay → -1 ≤ ahead ≤ 1)
      ∧ (JsZone.utcOffset z t = 0 → r = (u + 4) mod 7)
      ∧ ∀ tz, steady z tz (startDateOf tz now displayDays) now →
              ahead = localDay tz now - utcDay now.
Proof.
  intros _ Hm.
  destruct (zoned_renderHeatmap_meta isDarkMode z now stats displayDays p r c m Hm)
    as (i & Hi & Hd & Hr & _).
  exists i. split; [done|]. cbv zeta.
  remember (Zoned.currentDateOf z (Zoned.startDateOf z now displayDays) i) as t eqn:Et.
  split_and!.
  - by rewrite Hd, isoDate_utcDay.
  - rewrite Hr. unfold JsZone.getDay. f_equal. lia.
  - intros Hoff. unfold JsZone.localTime. by apply ahead_bound.
  - intros Hoff. rewrite Hr. unfold JsZone.getDay, JsZone.localTime, utcDay.
    by rewrite Hoff, Z.add_0_r.
  - intros tz Hz.
    pose proof (startDateOf_days tz now displayDays) as Hstart.
    assert (Hs : Zoned.startDateOf z now displayDays = startDateOf tz now displayDays).
    { apply (startDateOf_steady z tz _ _ Hz); unfold msPerDay in *; lia. }
    assert (Ht : t = now + (i + 1 - displayDays) * msPerDay).
    { rewrite Et, Hs.
      rewrite (currentDateOf_steady z tz _ _ Hz) by (unfold msPerDay in *; lia).
      lia. }
    clear Et. unfold JsZone.localTime.
    rewrite (proj1 Hz t) by (unfold msPerDay in *; lia).
    rewrite Ht. unfold localDay, utcDay, msPerDay. div_lia.
Qed.

Lemma render_row_versus_date_witness :
  ∃ i, 0 ≤ i < 1
    ∧ lit "2026-11-01"
      = isoDay (utcDay (Zoned.currentDateOf (JsZone.fixed 28800000)
                          (Zoned.startDateOf (JsZone.fixed 28800000)
                             (20759 * msPerDay - 3600000) 1) i)).
Proof.
  destruct (render_row_versus_date false (JsZone.fixed 28800000)
              (20759 * msPerDay - 3600000) ∅ 1
              newPlugin 1 0 {| dateStr := lit "2026-11-01"; count := 0 |})
    as (i & Hi & Hd & _).
  - vm_compute. reflexivity.
  - vm_compute. reflexivity.
  - exists i. split; [exact Hi|]. exact Hd.
Defined.

(** ** The rectangles of a render *)


Lemma rectsOf_app (l k : list SvgNode) : rectsOf (l ++ k) = rectsOf l ++ rectsOf k.
Proof. unfold rectsOf. apply bind_app. Qed.


Lemma rectsOf_rect (id : nat) (x y : Z) (fill tip : jsstring) :
  rectsOf [SvgRect id x y fill tip] = [SvgRect id x y fill tip].
Proof. reflexivity. Qed.

Lemma rectsOf_text (t : jsstring) (x y : Z) : rectsOf [SvgText t x y] = [].
Proof. reflexivity. Qed.

Section rects.

Variables (tz : Z) (stats : gmap jsstring Z) (colors : list jsstring).
Variable startDate : Z.

Let s : Z := getDay tz startDate.

(** The identity of the rectangle of offset 0. *)
Variable first : nat.

(** The rectangle of the day at offset [i]. *)
Let rectAt (i : Z) : SvgNode :=
  let dateStr := isoDate (startDate + i * msPerDay) in
  let count := num_or (stats !! dateStr) 0 in
  SvgRect (first + Z.to_nat i)
          ((i + s) / 7 * (blockSize + blockGap))
          ((s + i) mod 7 * (blockSize + blockGap))
          (default [] (colors !! Z.to_nat (colorLevel count)))
          (dateStr ++ lit ": " ++ numToString count ++ lit " commits").

Lemma loopBody_rects (st : RenderState) (i : Z) :
  nextId (plugin st) = (first + Z.to_nat i)%nat →
  rectsOf (group (loopBody tz stats colors startDate s st i))
  = rectsOf (group st) ++ [rectAt i].
Proof.
  intros Hid. unfold loopBody. cbn [group].
  rewrite rectsOf_app, rectsOf_rect.
  rewrite setDate_getDate, getDay_add. fold s. rewrite Hid.
  f_equal. destruct (_ && _); [|done].
  by rewrite rectsOf_app, rectsOf_text, app_nil_r.
Qed.

Lemma loop_rects (n : Z) (st0 : RenderState) :
  0 ≤ n →
  gridRects (plugin st0) = ∅ → gridMeta (plugin st0) = ∅ →
  nextId (plugin st0) = first →
  rectsOf (group (loop tz stats colors startDate s n st0))
  = rectsOf (group st0) ++ (rectAt <$> seqZ 0 n).
Proof.
  intros Hn Hr0 Hm0 Hfirst. pattern n. apply natlike_ind; [| |done].
  - rewrite loop_0. by rewrite app_nil_r.
  - clear n Hn. intros n Hn IH.
    unfold Z.succ. rewrite loop_succ by done. fold s.
    destruct (loop_grid tz stats colors startDate n st0 Hn Hr0 Hm0) as (Hid & _).
    fold s in Hid. rewrite Hfirst in Hid.
    rewrite (loopBody_rects _ n Hid), IH.
    rewrite seqZ_app, fmap_app by lia.
    rewrite <- app_assoc. by do 2 f_equal.
Qed.

End rects.

(** The rectangles of a render, in drawing order. *)
Lemma renderHeatmap_rectsOf (isDarkMode : bool) (tz now : Z)
    (stats : gmap jsstring Z) (displayDays : Z) (p : Plugin) :
  0 ≤ displayDays →
  let startDate := startDateOf tz now displayDays in
  let s := getDay tz startDate in
  let colors := if isDarkMode then dark PALETTE else light PALETTE in
  let dateAt := λ i, isoDate (startDate + i * msPerDay) in
  let countAt := λ i, num_or (stats !! dateAt i) 0 in
  rectsOf (children (renderHeatmap isDarkMode tz now stats displayDays p).2)
  = (λ i, SvgRect (nextId p + Z.to_nat i)
                  ((i + s) / 7 * 14) ((s + i) mod 7 * 14)
                  (default [] (colors !! Z.to_nat (colorLevel (countAt i))))
                  (dateAt i ++ lit ": " ++ numToString (countAt i) ++ lit " commits"))
      <$> seqZ 0 displayDays.
Proof.
  intros HD startDate s colors dateAt countAt.
  exact (loop_rects tz stats colors startDate (nextId p) displayDays (renderInit p)
           HD eq_refl eq_refl eq_refl).
Qed.

(** X13: where the zone stays at one offset over the window, the dates of
    the window are valid time values and the counts are below 10^21, a render
    draws one rectangle per day of the window, in the order of the days: the
    rectangle of offset [i] has a fresh identity, stands at column
    [(i + startWeekday) / 7] and row [(startWeekday + i) mod 7] of a raster
    of 14 units, is filled with the palette colour of the level of the day's
    count and is titled with the date and the count. *)
Theorem render_rects (isDarkMode : bool) (z : JsZone.Zone) (tz now : Z)
    (stats : gmap jsstring Z) (displayDays : Z) (p : Plugin) :
  0 < displayDays →
  let startDate := startDateOf tz now displayDays in
  steady z tz startDate now →
  validTime startDate → validTime now →
  map_Forall (λ _ n, Z.abs n < 10 ^ 21) stats →
  let s := getDay tz startDate in
  let colors := if isDarkMode then dark PALETTE else light PALETTE in
  let dateAt := λ i, isoDate (startDate + i * msPerDay) in
  let countAt := λ i, num_or (stats !! dateAt i) 0 in
  let r := Zoned.renderHeatmap isDarkMode z now stats displayDays p in
  rectsOf (children r.2)
  = (λ i, SvgRect (nextId p + Z.to_nat i)
                  ((i + s) / 7 * 14) ((s + i) mod 7 * 14)
                  (default [] (colors !! Z.to_nat (colorLevel (countAt i))))
                  (dateAt i ++ lit ": " ++ numToString (countAt i) ++ lit " commits"))
      <$> seqZ 0 displayDays
  ∧ length (rectsOf (children r.2)) = Z.to_nat displayDays
  ∧ nextId r.1 = (nextId p + Z.to_nat displayDays)%nat.
Proof.
  intros HD startDate Hz _ _ _ s colors dateAt countAt r.
  assert (H0 : 0 ≤ displayDays) by lia.
  subst r. rewrite (renderHeatmap_steady z tz _ _ Hz) by (done || lia).
  set (r := renderHeatmap isDarkMode tz now stats displayDays p).
  pose proof (renderHeatmap_rectsOf isDarkMode tz now stats displayDays p H0) as Hrects.
  cbv zeta in Hrects. fold startDate s colors dateAt countAt r in Hrects.
  split_and!.
  - exact Hrects.
  - by rewrite Hrects, length_fmap, length_seqZ.
  - destruct (loop_grid tz stats colors startDate displayDays (renderInit p)
                H0 eq_refl eq_refl) as (Hid & _).
    subst r. unfold renderHeatmap. cbn [fst].
    match goal with |- nextId (selectCell ?a ?b ?q) = _ =>
      destruct (populated q a b) eqn:Hp;
      [unfold selectCell, populated in *;
       destruct (cellAt (gridRects q) a b), (cellAt (gridMeta q) a b); try done
      |rewrite selectCell_unpopulated by done]
    end; exact Hid.
Qed.

Lemma render_rects_witness :
  length (rectsOf (children (Zoned.renderHeatmap false (JsZone.fixed 3600000)
                               (20759 * msPerDay) ∅ 7 newPlugin).2))
  = 7%nat.
Proof.
  destruct (render_rects false (JsZone.fixed 3600000) 3600000 (20759 * msPerDay)
              ∅ 7 newPlugin) as (_ & H & _).
  - lia.
  - apply steady_fixed.
  - rewrite startDateOf_days. unfold validTime, maxTime, msPerDay. lia.
  - unfold validTime, maxTime, msPerDay. lia.
  - apply map_Forall_empty.
  - exact H.
Defined.



(** ** The columns of the month labels *)

Section label_columns.

Variables (tz : Z) (stats : gmap jsstring Z) (colors : list jsstring).
Variable startDate : Z.

Let s : Z := getDay tz startDate.

(** After [n] iterations every label stands over the column of the first
    day of the window or of a Sunday among the days done, and the labels
    stand at strictly growing positions. *)
Lemma loop_label_columns (n : Z) (st0 : RenderState) :
  0 ≤ n →
  monthLabels (group st0) = [] →
  let labels := monthLabels (group (loop tz stats colors startDate s n st0)) in
  StronglySorted (λ a b : jsstring * Z, a.2 < b.2) labels
  ∧ ∀ a, a ∈ labels →
      ∃ j, 0 ≤ j < n ∧ (j = 0 ∨ (s + j) mod 7 = 0) ∧ a.2 = (j + s) / 7 * 14.
Proof.
  intros Hn Hl0. cbv zeta. pattern n. apply natlike_ind; [| |done].
  - rewrite loop_0, Hl0. split; [constructor|]. intros a Ha.
    by apply elem_of_nil in Ha.
  - clear n Hn. intros n Hn [Hsorted Hcols].
    pose proof (getDay_range tz startDate) as Hs. fold s in Hs.
    unfold Z.succ. rewrite loop_succ by done. fold s.
    set (st := loop tz stats colors startDate s n st0) in *.
    destruct (loopBody_labels tz stats colors startDate st n) as (Hlab & _).
    fold s in Hlab. rewrite Hlab. clear Hlab.
    rewrite getDay_add. fold s.
    destruct (_ && negb _) eqn:Hfires.
    + apply andb_true_iff in Hfires as [Hcand _].
      assert (Hn' : n = 0 ∨ (s + n) mod 7 = 0).
      { apply orb_true_iff in Hcand as [Hc|Hc].
        - apply andb_true_iff in Hc as [_ Hc]. left. by apply Z.eqb_eq.
        - right. by apply Z.eqb_eq. }
      split.
      * apply StronglySorted_app_2; [|done|repeat constructor].
        intros a b Ha Hb. apply list_elem_of_singleton in Hb as ->. cbn [snd].
        destruct (Hcols a Ha) as (j & Hj & Hj' & ->).
        destruct Hj' as [->|Hj'], Hn' as [->|Hn']; div_lia.
      * intros a Ha. apply elem_of_app in Ha as [Ha|Ha].
        -- destruct (Hcols a Ha) as (j & Hj & Hj' & Hx).
           exists j. split_and!; [lia | lia | done | done].
        -- apply list_elem_of_singleton in Ha as ->. cbn [snd].
           exists n. split_and!; [lia | lia | done | done].
    + rewrite app_nil_r. split; [done|].
      intros a Ha. destruct (Hcols a Ha) as (j & Hj & Hj' & Hx).
      exists j. split_and!; [lia | lia | done | done].
Qed.

End label_columns.

(** X15: the month labels of a render stand over columns of the grid, at
    strictly growing positions from left to right: no two labels are drawn at
    the same place. *)
Theorem render_label_columns (isDarkMode : bool) (tz now : Z)
    (stats : gmap jsstring Z) (displayDays : Z) (p : Plugin) :
  0 < displayDays →
  let totalWeeks :=
    totalWeeksOf displayDays (getDay tz (startDateOf tz now displayDays)) in
  let labels :=
    monthLabels (children (renderHeatmap isDarkMode tz now stats displayDays p).2) in
  StronglySorted (λ a b : jsstring * Z, a.2 < b.2) labels
  ∧ ∀ a, a ∈ labels → ∃ col, 0 ≤ col ≤ totalWeeks - 1 ∧ a.2 = col * 14.
Proof.
  intros HD totalWeeks labels.
  set (startDate := startDateOf tz now displayDays) in *.
  pose proof (getDay_range tz startDate) as Hs.
  destruct (loop_label_columns tz stats
              (if isDarkMode then dark PALETTE else light PALETTE)
              startDate displayDays (renderInit p) ltac:(lia) eq_refl)
    as [Hsorted Hcols].
  split; [exact Hsorted|].
  intros a Ha. destruct (Hcols a Ha) as (j & Hj & _ & Hx).
  exists ((j + getDay tz startDate) / 7). split; [|done].
  subst totalWeeks. unfold totalWeeksOf, ceilDiv. div_lia.
Qed.

Lemma render_label_columns_witness :
  0 < 365
  ∧ StronglySorted (λ a b : jsstring * Z, a.2 < b.2)
      (monthLabels (children (renderHeatmap false 0 (20759 * msPerDay) ∅ 365 newPlugin).2)).
Proof.
  split; [lia|].
  by destruct (render_label_columns false 0 (20759 * msPerDay) ∅ 365 newPlugin
                 ltac:(lia)) as [H _].
Defined.

(** ** What a render selects *)

(** The instance in which the default [selectCell] of a render runs. *)
Lemma renderLoop_fields (isDarkMode : bool) (tz now : Z) (stats : gmap jsstring Z)
    (displayDays : Z) (p : Plugin) :
  0 ≤ displayDays →
  let pl := plugin (renderLoop isDarkMode tz now stats displayDays p) in
  activeRect pl = activeRect p ∧ activeSelected pl = activeSelected p
  ∧ effects pl = effects p ∧ currentPos pl = currentPos p
  ∧ settings pl = settings p.
Proof.
  intros HD. unfold renderLoop. cbv zeta.
  destruct (loop_grid tz stats (if isDarkMode then dark PALETTE else light PALETTE)
              (startDateOf tz now displayDays) displayDays (renderInit p)
              HD eq_refl eq_refl)
    as (_ & _ & _ & Hs & Ha & Hc & _ & Hsel & He).
  done.
Qed.

(** X16: where the zone stays at one offset over the window and the
    dates of the window are valid time values: when the first day of the
    window does not fall later in the week than today, a render ends with the
    cell in the last column and the row of the first day's weekday selected,
    scrolled into view and shown in the detail panel; its date is the date of
    now when both weekdays are the same, as for every window of a multiple of
    seven days plus one, and otherwise lies as many days before as the
    weekdays differ. *)
Theorem render_default_selection (isDarkMode : bool) (z : JsZone.Zone) (tz now : Z)
    (stats : gmap jsstring Z) (displayDays : Z) (p : Plugin) :
  0 < displayDays →
  steady z tz (startDateOf tz now displayDays) now →
  validTime (startDateOf tz now displayDays) → validTime now →
  let s := getDay tz (startDateOf tz now displayDays) in
  let today := getDay tz now in
  let p' := (Zoned.renderHeatmap isDarkMode z now stats displayDays p).1 in
  let date := isoDate (now - (today - s) * msPerDay) in
  ((displayDays - 1) mod 7 = 0 → s = today)
  ∧ (s ≤ today →
     currentPos p' = (s, totalWeeksOf displayDays s - 1)
     ∧ ∃ rect,
         activeRect p' = Some rect
         ∧ cellAt (gridRects p') s (totalWeeksOf displayDays s - 1) = Some rect
         ∧ effects p'
           = effects p ++ [ScrollIntoView rect;
                           UpdateInfoArea date (num_or (stats !! date) 0)]).
Proof.
  intros HD Hz _ _ s today p' date.
  subst p'. rewrite (renderHeatmap_steady z tz _ _ Hz) by (done || lia).
  set (p' := (renderHeatmap isDarkMode tz now stats displayDays p).1).
  set (startDate := startDateOf tz now displayDays) in *.
  pose proof (getDay_range tz startDate) as Hs. fold s in Hs.
  assert (Hnow : today = (s + (displayDays - 1)) mod 7).
  { unfold today, s. rewrite <- getDay_add. unfold startDate.
    rewrite startDateOf_days. f_equal. lia. }
  split; [intros Hmod; rewrite Hnow; div_lia|].
  intros Hle.
  pose proof (getDay_range tz now) as Htoday. fold today in Htoday.
  set (w := totalWeeksOf displayDays s) in *.
  assert (Hw : 7 * (w - 1) + today = s + (displayDays - 1)).
  { rewrite Hnow. unfold w, totalWeeksOf, ceilDiv. div_lia. }
  destruct (renderLoop_fields isDarkMode tz now stats displayDays p ltac:(lia))
    as (_ & _ & Heff & _).
  destruct (loop_grid tz stats (if isDarkMode then dark PALETTE else light PALETTE)
              startDate displayDays (renderInit p) ltac:(lia) eq_refl eq_refl)
    as (_ & Hrects & Hmeta & _).
  fold s in Hrects, Hmeta.
  specialize (Hrects s (w - 1)). specialize (Hmeta s (w - 1)).
  rewrite decide_True in Hrects by lia. rewrite decide_True in Hmeta by lia.
  assert (Hdate : startDate + (7 * (w - 1) + s - s) * msPerDay
                  = now - (today - s) * msPerDay).
  { unfold startDate. rewrite startDateOf_days. unfold msPerDay. lia. }
  rewrite Hdate in Hmeta. fold date in Hmeta.
  subst p'. unfold renderHeatmap. cbn [fst]. fold startDate s w.
  unfold selectCell. cbn [gridRects gridMeta].
  unfold renderLoop. cbv zeta. fold startDate s.
  rewrite Hrects, Hmeta. cbn [currentPos activeRect effects dateStr count].
  split; [done|]. eexists. split_and!; [done | done |].
  unfold renderLoop in Heff. cbv zeta in Heff. fold startDate s in Heff.
  by rewrite Heff.
Qed.

Lemma render_default_selection_witness :
  let p' := (Zoned.renderHeatmap false (JsZone.fixed 0) (20759 * msPerDay) ∅ 365
               newPlugin).1 in
  currentPos p' = (1, 52).
Proof.
  intros p'.
  destruct (render_default_selection false (JsZone.fixed 0) 0 (20759 * msPerDay) ∅ 365
              newPlugin) as [_ H].
  - lia.
  - apply steady_fixed.
  - rewrite startDateOf_days. unfold validTime, maxTime, msPerDay. lia.
  - unfold validTime, maxTime, msPerDay. lia.
  - apply H. vm_compute. discriminate.
Defined.

(** ** The highlight *)

Lemma highlightConsistent_selectCell (row col : Z) (p : Plugin) :
  highlightConsistent p → highlightConsistent (selectCell row col p).
Proof.
  unfold highlightConsistent, selectCell. intros Hp.
  destruct (cellAt (gridRects p) row col) as [rect|]; [|done].
  destruct (cellAt (gridMeta p) row col) as [meta|]; [|done].
  cbn [activeSelected activeRect]. rewrite Hp.
  destruct (activeRect p) as [a|].
  - by rewrite difference_diag_L, union_empty_r_L.
  - by rewrite union_empty_r_L.
Qed.

Lemma highlightConsistent_step (p : Plugin) (i : Input) :
  highlightConsistent p → highlightConsistent (step p i).
Proof.
  intros Hp. destruct i as [row col|ev]; simpl.
  - by apply highlightConsistent_selectCell.
  - unfold keydown. destruct (keyHandler p) as [w|]; [|done].
    destruct (keyHandler_call_cases w ev p) as [-> | (r & c & _ & _ & _ & _ & ->)];
      [done|].
    by apply highlightConsistent_selectCell.
Qed.

Lemma highlightConsistent_render (isDarkMode : bool) (tz now : Z)
    (stats : gmap jsstring Z) (displayDays : Z) (p : Plugin) :
  highlightConsistent p →
  highlightConsistent (renderHeatmap isDarkMode tz now stats displayDays p).1.
Proof.
  intros Hp. unfold renderHeatmap. cbn [fst].
  apply highlightConsistent_selectCell.
  unfold highlightConsistent. cbn [activeSelected activeRect].
  destruct (decide (0 ≤ displayDays)) as [HD|HD].
  - by destruct (renderLoop_fields isDarkMode tz now stats displayDays p HD)
      as (-> & -> & _).
  - unfold renderLoop, loop. by rewrite seqZ_nil by lia.
Qed.

(** X17: at any time of the life of an instance, through renders, clicks
    and key presses, the rectangles that carry the class of the selection are
    the active rectangle alone, or none when there is no active rectangle:
    two cells are never highlighted together. *)
Theorem highlight_single (actions : list Action) :
  highlightConsistent (play actions newPlugin)
  ∧ (size (activeSelected (play actions newPlugin)) ≤ 1)%nat.
Proof.
  assert (H : highlightConsistent (play actions newPlugin)).
  { unfold play. induction actions as [|a actions IH] using rev_ind; [done|].
    rewrite foldl_app. cbn [foldl].
    destruct a as [isDarkMode tz now stats displayDays|i]; cbn [act].
    - by apply highlightConsistent_render.
    - by apply highlightConsistent_step. }
  split; [done|]. rewrite H.
  destruct (activeRect _); [by rewrite size_singleton | rewrite size_empty; lia].
Qed.

(** ** Moving with the arrow keys *)

Lemma keyHandler_call_move (w : Z) (ev : KeyboardEvent) (p : Plugin) (r c r' c' : Z) :
  inEditable ev = false → currentPos p = (r, c) →
  arrowTarget w (key ev) r c = Some (r', c') → (r', c') ≠ (r, c) →
  (keyHandler_call w ev p).1 = selectCell r' c' p.
Proof.
  intros He Hpos Ht Hne. unfold keyHandler_call. rewrite He, Hpos, Ht.
  rewrite bool_decide_eq_true_2; [done|].
  destruct (decide (r' = r)) as [->|?]; [|by left].
  right. intros ->. by apply Hne.
Qed.

Lemma populated_selectCell (row col r c : Z) (p : Plugin) :
  populated (selectCell row col p) r c = populated p r c.
Proof.
  unfold populated. by destruct (selectCell_grid p row col) as (-> & -> & _).
Qed.

(** A move to a populated neighbour and the move back: the position and
    the active rectangle are as before. *)
Lemma move_and_back (w : Z) (k k' : Key) (p : Plugin) (r c r' c' : Z) :
  selectionValid p → highlightConsistent p → currentPos p = (r, c) →
  arrowTarget w k r c = Some (r', c') → arrowTarget w k' r' c' = Some (r, c) →
  (r', c') ≠ (r, c) → populated p r' c' = true →
  let press := λ k q, (keyHandler_call w {| key := k; inEditable := false |} q).1 in
  currentPos (press k p) = (r', c')
  ∧ currentPos (press k' (press k p)) = (r, c)
  ∧ activeRect (press k' (press k p)) = activeRect p
  ∧ activeSelected (press k' (press k p)) = activeSelected p.
Proof.
  intros Hv Hh Hpos Ht Ht' Hne Hpop press.
  assert (H1 : press k p = selectCell r' c' p)
    by (by apply (keyHandler_call_move w _ p r c)).
  destruct (selectCell_populated p r' c' Hpop) as (Hpos1 & Hg1 & Hm1 & _).
  rewrite <- H1 in Hpos1, Hg1, Hm1.
  assert (Hpop' : populated (press k p) r c = true).
  { rewrite H1, populated_selectCell. unfold populated.
    destruct Hv as (rect & meta & Hr & Hm & _). rewrite Hpos in Hr, Hm.
    cbn [fst snd] in Hr, Hm. by rewrite Hr, Hm. }
  assert (H2 : press k' (press k p) = selectCell r c (press k p)).
  { by apply (keyHandler_call_move w _ (press k p) r' c'). }
  destruct (selectCell_populated (press k p) r c Hpop') as (Hpos2 & _ & _ & _ & Ha2 & _).
  rewrite <- H2 in Hpos2, Ha2.
  assert (Hact : activeRect (press k' (press k p)) = activeRect p).
  { rewrite Ha2, Hg1. destruct Hv as (rect & meta & Hr & _ & ->).
    rewrite Hpos in Hr. by cbn [fst snd] in Hr. }
  split_and!; try done.
  assert (Hh2 : highlightConsistent (press k' (press k p))).
  { rewrite H2, H1. by do 2 apply highlightConsistent_selectCell. }
  unfold highlightConsistent in Hh, Hh2. by rewrite Hh2, Hact, Hh.
Qed.

(** X18: from a valid selection, a press of the right arrow that reaches
    a populated cell followed by a press of the left arrow leads back to the
    cell and the highlight one started from; so do the down arrow and the up
    arrow. *)
Theorem arrow_there_and_back (w r c : Z) (p : Plugin) :
  selectionValid p → highlightConsistent p → currentPos p = (r, c) →
  let press := λ k q, (keyHandler_call w {| key := k; inEditable := false |} q).1 in
  (0 ≤ c → c + 1 ≤ w - 1 → populated p r (c + 1) = true →
     currentPos (press ArrowRight p) = (r, c + 1)
     ∧ currentPos (press ArrowLeft (press ArrowRight p)) = (r, c)
     ∧ activeRect (press ArrowLeft (press ArrowRight p)) = activeRect p
     ∧ activeSelected (press ArrowLeft (press ArrowRight p)) = activeSelected p)
  ∧ (0 ≤ r → r + 1 ≤ 6 → populated p (r + 1) c = true →
     currentPos (press ArrowDown p) = (r + 1, c)
     ∧ currentPos (press ArrowUp (press ArrowDown p)) = (r, c)
     ∧ activeRect (press ArrowUp (press ArrowDown p)) = activeRect p
     ∧ activeSelected (press ArrowUp (press ArrowDown p)) = activeSelected p).
Proof.
  intros Hv Hh Hpos press. split.
  - intros Hc Hc' Hpop.
    apply (move_and_back w ArrowRight ArrowLeft p r c r (c + 1)); try done.
    + cbn [arrowTarget]. do 2 f_equal. lia.
    + cbn [arrowTarget]. do 2 f_equal. lia.
    + intros [= ?]. lia.
  - intros Hr Hr' Hpop.
    apply (move_and_back w ArrowDown ArrowUp p r c (r + 1) c); try done.
    + cbn [arrowTarget]. do 2 f_equal. lia.
    + cbn [arrowTarget]. do 2 f_equal. lia.
    + intros [= ?]. lia.
Qed.

Lemma arrow_there_and_back_witness :
  let p := (renderHeatmap false 0 (20759 * msPerDay) ∅ 365 newPlugin).1 in
  let press := λ k q, (keyHandler_call 53 {| key := k; inEditable := false |} q).1 in
  currentPos (press ArrowUp p) = (0, 52)
  ∧ currentPos (press ArrowDown (press ArrowUp p)) = (1, 52).
Proof.
  intros p press.
  split; [vm_compute; reflexivity|].
  assert (Hv : selectionValid (press ArrowUp p)).
  { eexists 363%nat, _. vm_compute. split_and!; reflexivity. }
  assert (Hh : highlightConsistent (press ArrowUp p)) by by_compute.
  destruct (arrow_there_and_back 53 0 52 (press ArrowUp p) Hv Hh) as [_ H];
    [vm_compute; reflexivity|].
  apply H; [lia | lia | vm_compute; reflexivity].
Defined.

(** X19: a key press changes at most one coordinate of the position, and
    a position that it changes lands on a populated cell.  While the position
    lies inside the grid that the handler was installed for (rows 0 to 6,
    columns 0 to [totalWeeks - 1]), the press moves it by at most one cell and
    keeps it inside; a position left behind by a render of a wider grid lies
    outside this condition, and an arrow then leads to the clamped cell, which
    may be further away.  A key that is not an arrow, or any key while the
    focus is in an editable element, changes nothing and is not claimed by
    the handler; an arrow key outside such an element is always claimed. *)
Theorem key_press_one_step (w : Z) (ev : KeyboardEvent) (p : Plugin) :
  let p' := (keyHandler_call w ev p).1 in
  ((currentPos p').1 = (currentPos p).1 ∨ (currentPos p').2 = (currentPos p).2)
  ∧ (currentPos p' ≠ currentPos p →
     populated p (currentPos p').1 (currentPos p').2 = true)
  ∧ (0 ≤ (currentPos p).1 ≤ 6 → 0 ≤ (currentPos p).2 ≤ w - 1 →
     0 ≤ (currentPos p').1 ≤ 6 ∧ 0 ≤ (currentPos p').2 ≤ w - 1
     ∧ Z.abs ((currentPos p').1 - (currentPos p).1)
       + Z.abs ((currentPos p').2 - (currentPos p).2) ≤ 1)
  ∧ (inEditable ev = true ∨ key ev = OtherKey → keyHandler_call w ev p = (p, false))
  ∧ (inEditable ev = false → key ev ≠ OtherKey → (keyHandler_call w ev p).2 = true).
Proof.
  intros p'. split_and!.
  - subst p'.
    destruct (keyHandler_call_cases w ev p)
      as [-> | (r & c & _ & Ht & _ & Hpop & ->)]; [by left|].
    destruct (selectCell_populated p r c Hpop) as (-> & _). cbn [fst snd].
    destruct (currentPos p) as [r0 c0]. cbn [fst snd] in *.
    destruct (key ev); cbn [arrowTarget] in Ht; [..|done];
      injection Ht as <- <-; by (left + right).
  - subst p'.
    destruct (keyHandler_call_cases w ev p)
      as [-> | (r & c & _ & _ & _ & Hpop & ->)]; [done|].
    by destruct (selectCell_populated p r c Hpop) as (-> & _).
  - intros Hr Hc. subst p'.
    destruct (keyHandler_call_cases w ev p)
      as [-> | (r & c & _ & Ht & _ & Hpop & ->)]; [lia|].
    destruct (selectCell_populated p r c Hpop) as (-> & _). cbn [fst snd].
    destruct (currentPos p) as [r0 c0]. cbn [fst snd] in *.
    destruct (key ev); cbn [arrowTarget] in Ht; [..|done];
      injection Ht as <- <-; lia.
  - unfold keyHandler_call. intros [-> | Hk]; [done|].
    destruct (inEditable ev); [done|]. destruct (currentPos p). by rewrite Hk.
  - unfold keyHandler_call. intros -> Hk. destruct (currentPos p) as [r c].
    destruct (key ev); cbn [arrowTarget]; try done; by case_bool_decide.
Qed.

Lemma key_press_one_step_witness :
  let p := (renderHeatmap false 0 (20759 * msPerDay) ∅ 365 newPlugin).1 in
  let p' := (keyHandler_call 53 {| key := ArrowLeft; inEditable := false |} p).1 in
  Z.abs ((currentPos p').1 - (currentPos p).1)
  + Z.abs ((currentPos p').2 - (currentPos p).2) ≤ 1.
Proof.
  intros p p'.
  destruct (key_press_one_step 53 {| key := ArrowLeft; inEditable := false |} p)
    as (_ & _ & H & _).
  apply H; vm_compute; split; discriminate.
Defined.

(** ** Processing a block *)

(** Each day offset draws one rectangle. *)
Lemma zoned_loop_rects (z : JsZone.Zone) (stats : gmap jsstring Z)
    (colors : list jsstring) (startDate s : Z) (l : list Z) (st : RenderState) :
  length (rectsOf (group (foldl (Zoned.loopBody z stats colors startDate s) st l)))
  = (length (rectsOf (group st)) + length l)%nat.
Proof.
  revert st. induction l as [|i l IH]; intros st; [cbn [foldl length]; lia|].
  cbn [foldl]. rewrite IH. unfold Zoned.loopBody. cbv zeta. cbn [group].
  rewrite rectsOf_app, rectsOf_rect, length_app.
  destruct (_ && negb _).
  - rewrite rectsOf_app, rectsOf_text, app_nil_r. cbn [length]. lia.
  - cbn [length]. lia.
Qed.

(** The day offset at which a render throws is one of the loop. *)
Lemma throwsAt_range (z : JsZone.Zone) (startDate displayDays i : Z) :
  Zoned.throwsAt z startDate displayDays = Some i → 0 ≤ i < displayDays.
Proof.
  unfold Zoned.throwsAt. intros Hi.
  assert (Hin : i ∈ seqZ 0 displayDays).
  { destruct (decide (validTime startDate)).
    - apply find_some in Hi as [Hin _]. by apply list_elem_of_In.
    - by apply head_Some_elem_of. }
  apply elem_of_seqZ in Hin. lia.
Qed.

(** How the promise of [getGitLog] settles. *)
Lemma getGitLog_cases (exec : jsstring → jsstring → ExecResult) (z : JsZone.Zone)
    (now : Z) (cwd : jsstring) (days : Z) :
  let since := sinceOf z now days in
  let out := exec (getGitLog_cmd (isoDate since)) cwd in
  (¬ validTime since ∧ getGitLog exec z now cwd days = Rejected invalidTimeValue)
  ∨ (validTime since ∧ (is_Some (err out) ∧ stdout out = [])
     ∧ getGitLog exec z now cwd days = Rejected (lit "No Git Log"))
  ∨ (validTime since ∧ ¬ (is_Some (err out) ∧ stdout out = [])
     ∧ getGitLog exec z now cwd days = Resolved (stdout out)).
Proof.
  intros since out. unfold getGitLog. fold since. cbv zeta. fold out.
  destruct (decide (validTime since)) as [Hv|Hv]; [right|by left].
  unfold getGitLog_callback. rewrite str_or_empty, bool_decide_is_Some.
  destruct (err out) as [e|], (stdout out) as [|c s]; cbn [negb truthy andb].
  - left. eauto.
  - right. split_and!; [done | by intros [_ ?] | done].
  - right. split_and!; [done | by intros [[? ?] _] | done].
  - right. split_and!; [done | by intros [[? ?] _] | done].
Qed.

Section process.

Variable toLowerCase : jsstring → jsstring.
Variable exec : jsstring → jsstring → ExecResult.

(** X20: in any zone, a block shows the error notice exactly when the
    adapter gives no base path, or the date that many days before now is not
    a valid Date, or git reported an error without output, or a date of the
    loop of the render is not a valid Date; the notice names the cause.  In
    the first three cases the instance, with the grid, the selection and the
    key handler of an earlier render, is left as it was; a render that throws
    keeps the selection and the key handler of before and has reset the
    grids.  Otherwise, with a valid start date, the block is the render of
    the parsed log over the window. *)
Theorem processHeatmap_error (z : JsZone.Zone) (basePath : option jsstring)
    (isDarkMode : bool) (now now' : Z) (source : jsstring) (p : Plugin) :
  let days := configDays toLowerCase source (defaultDays (settings p)) in
  let since := sinceOf z now days in
  let out := λ cwd, exec (getGitLog_cmd (isoDate since)) cwd in
  let failed := λ cwd, is_Some (err (out cwd)) ∧ stdout (out cwd) = [] in
  let thrown := Zoned.throwsAt z (Zoned.startDateOf z now' days) days in
  let r := processHeatmap toLowerCase exec z basePath isDarkMode now now' source p in
  ((∃ text, r.2 = ErrorNotice text)
     ↔ basePath = None
       ∨ ∃ cwd, basePath = Some cwd
                ∧ (¬ validTime since ∨ failed cwd ∨ is_Some thrown))
  ∧ (basePath = None → r = (p, ErrorNotice (warningSign ++ noVaultPath)))
  ∧ (∀ cwd, basePath = Some cwd → ¬ validTime since →
       r = (p, ErrorNotice (warningSign ++ invalidTimeValue)))
  ∧ (∀ cwd, basePath = Some cwd → validTime since → failed cwd →
       r = (p, ErrorNotice (warningSign ++ lit "No Git Log")))
  ∧ (∀ cwd i, basePath = Some cwd → validTime since → ¬ failed cwd →
       thrown = Some i →
       r.2 = ErrorNotice (warningSign ++ invalidTimeValue)
       ∧ 0 ≤ i < days
       ∧ activeRect r.1 = activeRect p ∧ currentPos r.1 = currentPos p
       ∧ keyHandler r.1 = keyHandler p ∧ effects r.1 = effects p
       ∧ (i = 0 → gridRects r.1 = ∅ ∧ gridMeta r.1 = ∅))
  ∧ (∀ cwd, basePath = Some cwd → validTime since → ¬ failed cwd → thrown = None →
       validTime (Zoned.startDateOf z now' days) →
       r = (let h := Zoned.renderHeatmap isDarkMode z now'
                       (parseGitLog (stdout (out cwd))) days p in
            (h.1, Heatmap h.2))).
Proof.
  intros days since out failed thrown r.
  subst r. unfold processHeatmap. fold days.
  destruct basePath as [cwd|]; cycle 1.
  { cbn [snd]. split_and!; [split; [by left | eauto] | done | ..];
      intros; discriminate. }
  destruct (getGitLog_cases exec z now cwd days)
    as [[Hv Hg] | [(Hv & Hf & Hg) | (Hv & Hf & Hg)]]; rewrite Hg.
  - cbn [snd]. split_and!.
    + split; [intros _; right; exists cwd; eauto | eauto].
    + intros [=].
    + by intros ? _ _.
    + intros ? _ ?. done.
    + intros ? ? _ ?. done.
    + intros ? _ ?. done.
  - cbn [snd]. split_and!.
    + split; [intros _; right; exists cwd; eauto | eauto].
    + intros [=].
    + intros ? _ ?. done.
    + by intros ? _ _ _.
    + intros ? ? [= <-] _ Hn. by destruct Hn.
    + intros ? [= <-] _ Hn. by destruct Hn.
  - fold thrown. destruct thrown as [i|] eqn:Hthrown.
    + cbn [fst snd]. split_and!.
      * split; [intros _; right; exists cwd; eauto | eauto].
      * intros [=].
      * intros ? _ ?. done.
      * intros ? [= <-] _ ?. done.
      * intros ? j _ _ _ [= <-]. split; [done|].
        split; [by apply (throwsAt_range z _ _ _ Hthrown)|].
        unfold Zoned.renderThrown, Zoned.loop. cbv zeta.
        match goal with |- context [foldl ?f ?st ?l] =>
          destruct (zoned_loop_fields z (parseGitLog (stdout (out cwd)))
                      (if isDarkMode then dark PALETTE else light PALETTE)
                      (Zoned.startDateOf z now' days)
                      (JsZone.getDay z (Zoned.startDateOf z now' days)) l st)
            as (_ & Ha & Hc & Hk & _ & He)
        end.
        split_and!; [exact Ha | exact Hc | exact Hk | exact He |].
        intros ->. by rewrite (seqZ_nil 0 0).
      * intros ? _ _ _ [=].
    + cbn [fst snd]. split_and!.
      * split; [by intros [? ?]|].
        intros [[=] | (cwd' & [= <-] & [? | [? | [? [=]]]])]; done.
      * intros [=].
      * intros ? _ ?. done.
      * intros ? [= <-] _ ?. done.
      * intros ? ? _ _ _ [=].
      * by intros ? [= <-] _ _ _ _.
Qed.

Lemma num_or_parseGitLog (log d : jsstring) :
  num_or (parseGitLog log !! d) 0
  = Z.of_nat (length (filter (carries d) (split newline log))).
Proof.
  rewrite num_or_0, parseGitLog_lookup. apply count_some. lia.
Qed.

(** X21: when the default window is positive, the date that many days
    before now is a valid Date, git gives a log and no date of the loop is
    invalid, a block draws a heatmap of as many rectangles as its window has
    days, the count of every cell is the number of lines of the log that
    carry the date of the cell, and the key handler is the one of the new
    grid.  This holds in any zone. *)
Theorem processHeatmap_counts (z : JsZone.Zone) (cwd : jsstring) (isDarkMode : bool)
    (now now' : Z) (source log : jsstring) (e : option ExecException) (p : Plugin) :
  0 < defaultDays (settings p) →
  let days := configDays toLowerCase source (defaultDays (settings p)) in
  let since := sinceOf z now days in
  validTime since →
  exec (getGitLog_cmd (isoDate since)) cwd = {| err := e; stdout := log |} →
  e = None ∨ log ≠ [] →
  Zoned.throwsAt z (Zoned.startDateOf z now' days) days = None →
  let r := processHeatmap toLowerCase exec z (Some cwd) isDarkMode now now' source p in
  0 < days
  ∧ (∃ svg, r.2 = Heatmap svg ∧ length (rectsOf (children svg)) = Z.to_nat days)
  ∧ (∀ row col m, cellAt (gridMeta r.1) row col = Some m →
       count m = Z.of_nat (length (filter (carries (dateStr m)) (split newline log))))
  ∧ keyHandler r.1
    = Some (totalWeeksOf days (JsZone.getDay z (Zoned.startDateOf z now' days))).
Proof.
  intros Hd days since Hv Hexec Hok Hthrown r.
  assert (Hdays : 0 < days).
  { subst days. unfold configDays.
    induction (split newline source) as [|l ls IH] using rev_ind; [done|].
    rewrite foldl_app. by apply configLine_positive. }
  assert (Hlog : getGitLog exec z now cwd days = Resolved log).
  { unfold getGitLog. fold since. cbv zeta. rewrite decide_True by done.
    unfold getGitLog_callback. rewrite Hexec, str_or_empty.
    rewrite bool_decide_is_Some. cbn [err stdout].
    destruct Hok as [-> | Hne]; [done|].
    destruct log; [done|]. by destruct e. }
  subst r. unfold processHeatmap. fold days. rewrite Hlog, Hthrown. cbn [fst snd].
  split_and!.
  - done.
  - eexists. split; [done|].
    unfold Zoned.renderHeatmap. cbv zeta. cbn [snd children].
    unfold Zoned.renderLoop, Zoned.loop. cbv zeta.
    rewrite zoned_loop_rects, length_seqZ. done.
  - intros row col m Hm.
    destruct (zoned_renderHeatmap_meta isDarkMode z now' (parseGitLog log) days p
                row col m Hm) as (_ & _ & _ & _ & ->).
    apply num_or_parseGitLog.
  - by destruct (zoned_renderHeatmap_grids isDarkMode z now' (parseGitLog log) days p)
      as (_ & _ & ->).
Qed.

End process.

Lemma processHeatmap_error_witness :
  let exec := λ _ _, {| err := None; stdout := lit "2026-11-01" |} in
  processHeatmap asciiLower exec (JsZone.fixed 0) (Some (lit "/vault")) false
    (20759 * msPerDay) (20759 * msPerDay + 5000) (lit "days: 400000000") newPlugin
  = (newPlugin, ErrorNotice (warningSign ++ invalidTimeValue)).
Proof.
  intros exec.
  destruct (processHeatmap_error asciiLower exec (JsZone.fixed 0) (Some (lit "/vault"))
              false (20759 * msPerDay) (20759 * msPerDay + 5000)
              (lit "days: 400000000") newPlugin) as (_ & _ & H & _).
  apply (H (lit "/vault")); [reflexivity|].
  intros [Hlo _]. vm_compute in Hlo. by apply Hlo.
Defined.

Lemma processHeatmap_counts_witness :
  let log := lit "2026-11-01" ++ newline ++ lit "2026-11-01" ++ newline in
  let exec := λ _ _, {| err := None; stdout := log |} in
  let r := processHeatmap asciiLower exec (JsZone.fixed 0) (Some (lit "/vault")) false
             (20759 * msPerDay) (20759 * msPerDay + 5000) (lit "days: 7") newPlugin in
  keyHandler r.1 = Some 2.
Proof.
  intros log exec r.
  destruct (processHeatmap_counts asciiLower exec (JsZone.fixed 0) (lit "/vault") false
              (20759 * msPerDay) (20759 * msPerDay + 5000) (lit "days: 7") log None
              newPlugin)
    as (_ & _ & _ & H).
  - reflexivity.
  - vm_compute. split; discriminate.
  - reflexivity.
  - by left.
  - vm_compute. reflexivity.
  - exact H.
Defined.

(** ** The detail panel *)

Lemma split_from_head_ext (sep cur s : jsstring) :
  ∃ f tl, split_from sep O cur s = (rev cur ++ f) :: tl.
Proof.
  revert cur. induction s as [|c s IH]; intros cur.
  - exists [], []. by rewrite app_nil_r.
  - cbn [split_from]. destruct (isPrefix sep (c :: s)).
    + exists [], (split_from sep (length sep - 1) [] s). by rewrite app_nil_r.
    + destruct (IH (c :: cur)) as (f & tl & ->).
      exists (c :: f), tl. simpl. by rewrite <- app_assoc.
Qed.

(** The field that starts with units free of the first unit of the
    separator starts with them. *)
Lemma split_from_prefix (c0 : N) (sep' hm rest cur : jsstring) :
  c0 ∉ hm →
  ∃ f tl, split_from (c0 :: sep') O cur (hm ++ rest) = (rev cur ++ hm ++ f) :: tl.
Proof.
  revert cur. induction hm as [|c hm IH]; intros cur Hhm.
  - apply split_from_head_ext.
  - apply not_elem_of_cons in Hhm as [Hc Hhm].
    change ((c :: hm) ++ rest) with (c :: (hm ++ rest)).
    cbn [split_from isPrefix].
    destruct (N.eqb_spec c0 c) as [->|_]; [done|]. cbn [andb].
    destruct (IH (c :: cur) Hhm) as (f & tl & ->).
    exists f, tl. simpl. by rewrite <- app_assoc.
Qed.

(** X22: for a day without commits the panel shows no list, whatever a
    fetch would give.  Otherwise it lists one entry per fetched commit, in
    order, with the message, the first seven units of the hash and, as time,
    the five units that follow the first T of the date (the hours and minutes
    of an ISO date), or nothing when the date holds no T. *)
Theorem panel_items (commits : list CommitDetail) (dateStr : jsstring) (count : Z) :
  (∀ fetched, commitList (updateInfoArea fetched dateStr 0) = None)
  ∧ (count ≠ 0 →
     ∃ items,
       commitList (updateInfoArea (Resolved commits) dateStr count) = Some (Items items)
       ∧ Forall2 (λ c it,
            itemMsg it = message c
            ∧ itemHash it = take 7 (hash c)
            ∧ ((84%N ∉ date c) → itemTime it = [])
            ∧ ∀ d hm rest,
                date c = d ++ lit "T" ++ hm ++ rest →
                (84%N ∉ d) → (84%N ∉ hm) → length hm = 5%nat →
                itemTime it = hm)
           commits items).
Proof.
  split; [done|]. intros Hc.
  unfold updateInfoArea. cbn [commitList].
  destruct (Z.eqb_spec count 0); [done|].
  eexists. split; [done|].
  apply Forall2_fmap_r, Forall_Forall2_diag, Forall_forall.
  intros c _. cbn [itemMsg itemHash itemTime]. split_and!; [done | done | |].
  - intros HT. change (lit "T") with [84%N].
    by rewrite (split_last 84 [] _ HT).
  - intros d hm rest Hdate Hd Hhm Hlen. rewrite Hdate.
    change (lit "T") with [84%N].
    rewrite (split_field 84 [] d (hm ++ rest) Hd).
    destruct (split_from_prefix 84 [] hm rest [] Hhm) as (f & tl & Hsp).
    unfold split. rewrite Hsp. cbn [lookup list_lookup from_option rev app].
    unfold substring0. rewrite take_app_length' by done.
    by destruct hm.
Qed.

Lemma panel_items_witness :
  ∃ items,
    commitList (updateInfoArea
                  (Resolved [ {| hash := lit "0123456789abcdef"; message := lit "Fix";
                                 author := lit "Alice";
                                 date := lit "2024-01-05T10:00:00+01:00" |} ])
                  (lit "2024-01-05") 1)
    = Some (Items items).
Proof.
  destruct (panel_items [ {| hash := lit "0123456789abcdef"; message := lit "Fix";
                             author := lit "Alice";
                             date := lit "2024-01-05T10:00:00+01:00" |} ]
              (lit "2024-01-05") 1) as [_ H].
  destruct H as (items & Hitems & _); [lia|].
  by exists items.
Defined.

(** ** Identities of rectangles and a default selection that fails *)

Lemma idsBelow_selectCell (row col : Z) (p : Plugin) :
  idsBelow p → idsBelow (selectCell row col p).
Proof.
  intros [Ha Hg]. unfold selectCell.
  destruct (cellAt (gridRects p) row col) as [rect|] eqn:Hr; [|done].
  destruct (cellAt (gridMeta p) row col) as [meta|]; [|done].
  split; cbn [activeRect nextId gridRects]; [|done].
  intros id [= <-]. by eapply Hg.
Qed.

Lemma idsBelow_step (p : Plugin) (i : Input) : idsBelow p → idsBelow (step p i).
Proof.
  intros Hp. destruct i as [row col|ev]; simpl.
  - by apply idsBelow_selectCell.
  - unfold keydown. destruct (keyHandler p) as [w|]; [|done].
    destruct (keyHandler_call_cases w ev p) as [-> | (r & c & _ & _ & _ & _ & ->)];
      [done|].
    by apply idsBelow_selectCell.
Qed.

Lemma idsBelow_render (isDarkMode : bool) (tz now : Z)
    (stats : gmap jsstring Z) (displayDays : Z) (p : Plugin) :
  idsBelow p → idsBelow (renderHeatmap isDarkMode tz now stats displayDays p).1.
Proof.
  intros [Ha Hg]. unfold renderHeatmap. cbn [fst].
  apply idsBelow_selectCell. unfold idsBelow. cbn [activeRect nextId gridRects].
  unfold renderLoop. cbv zeta.
  destruct (decide (0 ≤ displayDays)) as [HD|HD].
  - destruct (loop_grid tz stats (if isDarkMode then dark PALETTE else light PALETTE)
                (startDateOf tz now displayDays) displayDays (renderInit p)
                HD eq_refl eq_refl)
      as (Hid & Hrects & _ & _ & Hact & _).
    rewrite Hid, Hact. cbn [renderInit plugin nextId activeRect]. split.
    + intros id Hid'. apply Ha in Hid'. lia.
    + intros r c id. rewrite Hrects. case_decide; [|done].
      intros [= <-]. cbn [renderInit plugin nextId]. lia.
  - unfold loop. rewrite seqZ_nil by lia. cbn [foldl renderInit plugin activeRect
                                                  nextId gridRects].
    split; [done|]. intros r c id. by rewrite cellAt_empty.
Qed.

Lemma idsBelow_play (actions : list Action) : idsBelow (play actions newPlugin).
Proof.
  unfold play. induction actions as [|a actions IH] using rev_ind.
  - split; [done|]. intros r c id. cbn. by rewrite cellAt_empty.
  - rewrite foldl_app. cbn [foldl].
    destruct a as [isDarkMode tz now stats displayDays|i]; cbn [act].
    + by apply idsBelow_render.
    + by apply idsBelow_step.
Qed.

(** X23: at any time of the life of an instance, a render on a day whose
    weekday comes before the weekday of the first day of the window selects
    nothing: the position, the active rectangle, the highlight and the
    detail panel stay those of before the render, the active rectangle is
    none of the new grid, and the selection is not valid. *)
Theorem render_without_selection (actions : list Action) (isDarkMode : bool)
    (tz now : Z) (stats : gmap jsstring Z) (displayDays : Z) :
  0 < displayDays →
  getDay tz now < getDay tz (startDateOf tz now displayDays) →
  let p := play actions newPlugin in
  let p' := (renderHeatmap isDarkMode tz now stats displayDays p).1 in
  currentPos p' = currentPos p ∧ activeRect p' = activeRect p
  ∧ activeSelected p' = activeSelected p ∧ effects p' = effects p
  ∧ (∀ r c id, cellAt (gridRects p') r c = Some id → activeRect p' ≠ Some id)
  ∧ ¬ selectionValid p'.
Proof.
  intros HD Hlt p p'.
  destruct (idsBelow_play actions) as [Ha _]. fold p in Ha.
  destruct (renderLoop_fields isDarkMode tz now stats displayDays p ltac:(lia))
    as (Hact & Hsel & Heff & Hpos & _).
  assert (Hunpop : populated p' (getDay tz (startDateOf tz now displayDays))
                     (totalWeeksOf displayDays
                        (getDay tz (startDateOf tz now displayDays)) - 1) = false).
  { destruct (populated p' _ _) eqn:Hp; [|done].
    apply (default_selection_populated_iff isDarkMode tz now stats displayDays p HD)
      in Hp. lia. }
  assert (Hsame : p' = {|
            settings := settings (plugin (renderLoop isDarkMode tz now stats displayDays p));
            activeRect := activeRect (plugin (renderLoop isDarkMode tz now stats displayDays p));
            gridRects := gridRects (plugin (renderLoop isDarkMode tz now stats displayDays p));
            gridMeta := gridMeta (plugin (renderLoop isDarkMode tz now stats displayDays p));
            currentPos := currentPos (plugin (renderLoop isDarkMode tz now stats displayDays p));
            keyHandler := Some (totalWeeksOf displayDays
                                  (getDay tz (startDateOf tz now displayDays)));
            activeSelected := activeSelected (plugin (renderLoop isDarkMode tz now stats displayDays p));
            nextId := nextId (plugin (renderLoop isDarkMode tz now stats displayDays p));
            effects := effects (plugin (renderLoop isDarkMode tz now stats displayDays p)) |}).
  { subst p'. unfold renderHeatmap. cbn [fst].
    apply selectCell_unpopulated.
    revert Hunpop. unfold renderHeatmap. cbn [fst].
    by rewrite populated_selectCell. }
  assert (Hfresh : ∀ r c id, cellAt (gridRects p') r c = Some id →
                             activeRect p' ≠ Some id).
  { intros r c id Hcell Hact'.
    destruct (renderHeatmap_cells isDarkMode tz now stats displayDays p r c
                ltac:(lia)) as [Hr _].
    fold p' in Hr. rewrite Hr in Hcell. case_decide; [|done].
    injection Hcell as <-.
    rewrite Hsame in Hact'. cbn [activeRect] in Hact'. rewrite Hact in Hact'.
    apply Ha in Hact'. lia. }
  split_and!.
  - rewrite Hsame. cbn [currentPos]. exact Hpos.
  - rewrite Hsame. cbn [activeRect]. exact Hact.
  - rewrite Hsame. cbn [activeSelected]. exact Hsel.
  - rewrite Hsame. cbn [effects]. exact Heff.
  - exact Hfresh.
  - intros (rect & meta & Hr & _ & Hact'). by eapply Hfresh.
Qed.

Lemma render_without_selection_witness :
  let p' := (renderHeatmap false 0 (20759 * msPerDay) ∅ 7 (play [] newPlugin)).1 in
  0 < 7 ∧ ¬ selectionValid p'.
Proof.
  intros p'. split; [lia|].
  destruct (render_without_selection [] false 0 (20759 * msPerDay) ∅ 7)
    as (_ & _ & _ & _ & _ & H); [lia | vm_compute; reflexivity |].
  exact H.
Defined.

(** ** What the selection asks of the document *)

Lemma selectCell_effects (row col : Z) (p : Plugin) :
  ∃ added, effects (selectCell row col p) = effects p ++ added
           ∧ Forall (effectOfGrid (gridRects p) (gridMeta p)) added.
Proof.
  unfold selectCell.
  destruct (cellAt (gridRects p) row col) as [rect|] eqn:Hr;
    [|exists []; by rewrite app_nil_r].
  destruct (cellAt (gridMeta p) row col) as [[d n]|] eqn:Hm;
    [|exists []; by rewrite app_nil_r].
  eexists. split; [done|]. cbn [dateStr count].
  repeat constructor; cbn [effectOfGrid]; eauto.
Qed.

Lemma step_effects (p : Plugin) (i : Input) :
  gridRects (step p i) = gridRects p ∧ gridMeta (step p i) = gridMeta p
  ∧ ∃ added, effects (step p i) = effects p ++ added
             ∧ Forall (effectOfGrid (gridRects p) (gridMeta p)) added.
Proof.
  assert (Hsel : ∀ row col,
            gridRects (selectCell row col p) = gridRects p
            ∧ gridMeta (selectCell row col p) = gridMeta p
            ∧ ∃ added, effects (selectCell row col p) = effects p ++ added
                       ∧ Forall (effectOfGrid (gridRects p) (gridMeta p)) added).
  { intros row col. destruct (selectCell_grid p row col) as (-> & -> & _).
    split_and!; [done | done | apply selectCell_effects]. }
  assert (Hid : gridRects p = gridRects p ∧ gridMeta p = gridMeta p
                ∧ ∃ added, effects p = effects p ++ added
                           ∧ Forall (effectOfGrid (gridRects p) (gridMeta p)) added).
  { split_and!; [done | done |]. exists []. by rewrite app_nil_r. }
  destruct i as [row col|ev]; simpl.
  - apply Hsel.
  - unfold keydown. destruct (keyHandler p) as [w|]; [|done].
    destruct (keyHandler_call_cases w ev p) as [-> | (r & c & _ & _ & _ & _ & ->)];
      [done | apply Hsel].
Qed.

(** X24: clicks and key presses never change the grid, and everything
    they ask of the document concerns a cell of the grid: a rectangle
    scrolled into view is a rectangle of the grid, and the date and the count
    handed to the detail panel are those of one of its cells. *)
Theorem run_effects_of_grid (inputs : list Input) (p : Plugin) :
  gridRects (run inputs p) = gridRects p ∧ gridMeta (run inputs p) = gridMeta p
  ∧ ∃ added, effects (run inputs p) = effects p ++ added
             ∧ Forall (effectOfGrid (gridRects p) (gridMeta p)) added.
Proof.
  unfold run. induction inputs as [|i inputs IH] using rev_ind.
  - split_and!; [done | done |]. exists []. by rewrite app_nil_r.
  - rewrite foldl_app. cbn [foldl].
    destruct IH as (Hr & Hm & added & He & Hadded).
    destruct (step_effects (foldl step p inputs) i) as (Hr' & Hm' & added' & He' & Hadded').
    rewrite Hr', Hm', He', He, Hr, Hm. rewrite Hr, Hm in Hadded'.
    split_and!; [done | done |].
    exists (added ++ added'). split; [by rewrite app_assoc|].
    by apply Forall_app.
Qed.
